(** * OpenVINO backend for the Triton inference server: a shallow embedding
    of [src/openvino.cc] and the properties of its configuration parser,
    model binder, batch aggregator, tensor marshaller and orchestrator.

    Layout: part I holds the embedding (definitions only), part II the
    lemmas and theorems. *)

From Stdlib Require Import ZArith String Ascii List Lia DecimalString Bool.
From stdpp Require Import base strings gmap list sorting.

Local Open Scope Z_scope.

(* ===================================================================== *)
(** * Part I: the embedding                                               *)
(* ===================================================================== *)

(** ** Machine integers

    [size_t] and [uint64_t] are 64-bit unsigned, [int64_t] is 64-bit
    signed, [int] is 32-bit signed.  Values are kept in [Z]; every
    conversion that the C++ code performs implicitly is written out. *)

Definition SIZE_MAX1 : Z := 2 ^ 64.

(** Conversion of any integer to [size_t] (wrap-around modulo 2^64). *)
Definition to_size_t (z : Z) : Z := z mod SIZE_MAX1.

(** Conversion of a [size_t] to [int64_t] (two's complement). *)
Definition to_int64 (z : Z) : Z :=
  let u := z mod SIZE_MAX1 in if u <? 2 ^ 63 then u else u - SIZE_MAX1.

(** [std::to_string] on an integer. *)
Definition to_string (z : Z) : string := NilZero.string_of_int (Z.to_int z).

(** ** Errors of the serving runtime *)

Inductive TRITONSERVER_Error_Code :=
| TRITONSERVER_ERROR_UNKNOWN
| TRITONSERVER_ERROR_INTERNAL
| TRITONSERVER_ERROR_NOT_FOUND
| TRITONSERVER_ERROR_INVALID_ARG
| TRITONSERVER_ERROR_UNAVAILABLE
| TRITONSERVER_ERROR_UNSUPPORTED
| TRITONSERVER_ERROR_ALREADY_EXISTS.

Record TRITONSERVER_Error := TRITONSERVER_ErrorNew {
  ErrorCode : TRITONSERVER_Error_Code;
  ErrorMessage : string
}.

(** A [TRITONSERVER_Error*]: [None] is [nullptr], i.e. success. *)
Abbreviation Status := (option TRITONSERVER_Error).

(** ** Character and string helpers of the C++ standard library
    (the "C" locale). *)

Definition isdigit (c : ascii) : bool :=
  let n := Z.of_N (N_of_ascii c) in (48 <=? n) && (n <=? 57).

Definition tolower (c : ascii) : ascii :=
  let n := N_of_ascii c in
  if ((65 <=? n) && (n <=? 90))%N then ascii_of_N (n + 32) else c.

(** [std::transform(s.begin(), s.end(), s.begin(), f)]. *)
Fixpoint transform (f : ascii -> ascii) (s : string) : string :=
  match s with
  | EmptyString => EmptyString
  | String c s' => String (f c) (transform f s')
  end.

(** [std::find_if]: the first character satisfying [p], [None] for
    [str.end()]. *)
Fixpoint find_if (p : ascii -> bool) (s : string) : option ascii :=
  match s with
  | EmptyString => None
  | String c s' => if p c then Some c else find_if p s'
  end.

Definition IsNumber (str : string) : bool :=
  match find_if (fun c => negb (isdigit c)) str with
  | None => true
  | Some _ => false
  end.

Definition string_empty (s : string) : bool :=
  match s with EmptyString => true | _ => false end.

(** ** The parameter block of the model configuration *)

(** Modelled from the spec: [ReadParameter] of [openvino_utils], which is
    not part of the sources at hand.  The parameter block is "a textual
    key/value parameter block" (spec section 6); reading a key stores its
    string value in [param] and reports an error, leaving [param] as it
    was, when the key is absent. *)
Definition ReadParameter (params : gmap string string) (key : string)
    (param : string) : Status * string :=
  match params !! key with
  | Some v => (None, v)
  | None =>
      (Some (TRITONSERVER_ErrorNew TRITONSERVER_ERROR_INVALID_ARG
               ("model configuration is missing the parameter " +:+ key)),
       param)
  end.

(** Engine configuration keys and values ([CONFIG_KEY], [CONFIG_VALUE]). *)
Definition KEY_CPU_THREADS_NUM : string := "CPU_THREADS_NUM".
Definition KEY_ENFORCE_BF16 : string := "ENFORCE_BF16".
Definition KEY_CPU_BIND_THREAD : string := "CPU_BIND_THREAD".
Definition KEY_CPU_THROUGHPUT_STREAMS : string := "CPU_THROUGHPUT_STREAMS".
Definition VALUE_YES : string := "YES".
Definition VALUE_NO : string := "NO".
Definition VALUE_NUMA : string := "NUMA".

(** [ModelState::ParseBoolParameter]: the status and the new [*setting]. *)
Definition ParseBoolParameter (mkey : string) (params : gmap string string)
    (setting : bool) : Status * bool :=
  let value := snd (ReadParameter params mkey "") in
  let value := transform tolower value in
  let setting := if String.eqb value "yes" then true else setting in
  (None, setting).

(** [ModelState::ParseParameterHelper]: the status and the new contents of
    [*ov_key] and [*value].  The value is lowercased in place before the
    key is looked at. *)
Definition ParseParameterHelper (mkey ov_key value : string)
    : Status * string * string :=
  let value := transform tolower value in
  if String.eqb mkey "CPU_THREADS_NUM" then
    if negb (IsNumber value) then
      (Some (TRITONSERVER_ErrorNew TRITONSERVER_ERROR_INVALID_ARG
               ("expected the parameter '" +:+ mkey +:+
                "' to be a non-negative number, got " +:+ value)),
       ov_key, value)
    else (None, KEY_CPU_THREADS_NUM, value)
  else if String.eqb mkey "ENFORCE_BF16" then
    if String.eqb value "yes" then (None, KEY_ENFORCE_BF16, VALUE_YES)
    else if String.eqb value "no" then (None, KEY_ENFORCE_BF16, VALUE_NO)
    else
      (Some (TRITONSERVER_ErrorNew TRITONSERVER_ERROR_INVALID_ARG
               ("expected the parameter '" +:+ mkey +:+
                "' to be either YES or NO, got " +:+ value)),
       ov_key, value)
  else if String.eqb mkey "CPU_BIND_THREAD" then
    if String.eqb value "yes" then (None, KEY_CPU_BIND_THREAD, VALUE_YES)
    else if String.eqb value "numa" then (None, KEY_CPU_BIND_THREAD, VALUE_NUMA)
    else if String.eqb value "no" then (None, KEY_CPU_BIND_THREAD, VALUE_NO)
    else
      (Some (TRITONSERVER_ErrorNew TRITONSERVER_ERROR_INVALID_ARG
               ("expected the parameter '" +:+ mkey +:+
                "' to be either YES/NUMA/NO, got " +:+ value)),
       ov_key, value)
  else if String.eqb mkey "CPU_THROUGHPUT_STREAMS" then
    if String.eqb value "auto" then
      (None, KEY_CPU_THROUGHPUT_STREAMS, "CPU_THROUGHPUT_AUTO")
    else if String.eqb value "numa" then
      (None, KEY_CPU_THROUGHPUT_STREAMS, "CPU_THROUGHPUT_NUMA")
    else if negb (IsNumber value) then
      (Some (TRITONSERVER_ErrorNew TRITONSERVER_ERROR_INVALID_ARG
               ("expected the parameter '" +:+ mkey +:+
                "' to be a non-negative number or AUTO/NUMA, got " +:+ value)),
       ov_key, value)
    else (None, KEY_CPU_THROUGHPUT_STREAMS, value)
  else
    (Some (TRITONSERVER_ErrorNew TRITONSERVER_ERROR_INVALID_ARG
             ("the parameter '" +:+ mkey +:+
              "' is not yet supported by openvino backend")),
     ov_key, value).

(** [ModelState::ParseParameter]: the status and the new [*device_config]
    (an [ov::AnyMap]; every value stored here is a string). *)
Definition ParseParameter (mkey : string) (params : gmap string string)
    (device_config : gmap string string) : Status * gmap string string :=
  let value := snd (ReadParameter params mkey "") in
  if negb (string_empty value) then
    match ParseParameterHelper mkey "" value with
    | (Some err, _, _) => (Some err, device_config)
    | (None, ov_key, value) => (None, <[ov_key := value]> device_config)
    end
  else (None, device_config).

(** The value domains of section 4.1 of the specification, on the
    lowercased value. *)
Definition all_digits (v : string) : Prop :=
  Forall (fun c => isdigit c = true) (list_ascii_of_string v).

Definition value_in_domain (mkey v : string) : Prop :=
  (mkey = "CPU_THREADS_NUM" /\ all_digits v) \/
  (mkey = "ENFORCE_BF16" /\ (v = "yes" \/ v = "no")) \/
  (mkey = "CPU_BIND_THREAD" /\ (v = "yes" \/ v = "numa" \/ v = "no")) \/
  (mkey = "CPU_THROUGHPUT_STREAMS" /\
     (all_digits v \/ v = "auto" \/ v = "numa")).

(** ** The collaborators

    The native engine and the serving runtime are outside the sources at
    hand; the code only calls them.  They are taken as interfaces: every
    property below holds for every implementation of them. *)

(** [ov::Output<const ov::Node>]: a port of a compiled model. *)
Record Output := {
  get_node : nat;
  get_index : nat;
  get_names : list string
}.

Definition get_any_name (o : Output) : string := hd ""%string (get_names o).

(** The calls made on the shared [ov::Core] object, and on the compiled
    models it hands out, most recent first.  The engine is stateful (a
    property set earlier affects a later compilation), so every engine
    operation below is given the calls made so far. *)
Inductive CoreCall :=
| add_extension (path : string)
| set_property (device : string) (properties : gmap string string)
| read_model (path : string)
| compile_model (device : string)
| create_infer_request (device : string).

(** [ov::Tensor]: element type, shape and the bytes of its storage. *)
Record Tensor {ElementType : Type} := {
  get_element_type : ElementType;
  get_shape : list Z;
  data : list Byte.byte
}.
Arguments Tensor ElementType : clear implicits.

(** [ov::InferRequest]: the engine-owned storage bound to the input ports
    (looked up by port) and the output tensors (looked up by name). *)
Record InferRequest {ElementType : Type} := {
  input_tensors : gmap (nat * nat) (Tensor ElementType);
  output_tensors : gmap string (Tensor ElementType)
}.
Arguments InferRequest ElementType : clear implicits.

(** The native engine.  An [inl what] (or [Some what]) result is a thrown
    engine exception with that message. *)
Class OpenVINO := {
  Model : Type;
  CompiledModel : Type;
  ElementType : Type;
  bitwidth : ElementType -> Z;
  (** a default-constructed [ov::CompiledModel] *)
  CompiledModel_default : CompiledModel;
  ov_add_extension : list CoreCall -> string -> option string;
  ov_set_property :
    list CoreCall -> string -> gmap string string -> option string;
  ov_read_model : list CoreCall -> string -> string + Model;
  (** [network_] is a shared pointer and may be null *)
  ov_compile_model :
    list CoreCall -> option Model -> string -> string + CompiledModel;
  inputs : CompiledModel -> list Output;
  ov_create_infer_request :
    list CoreCall -> CompiledModel -> string + InferRequest ElementType;
  ov_infer : InferRequest ElementType -> string + InferRequest ElementType
}.

(** The file-system helpers of the serving runtime. *)
Class Repository := {
  JoinPath : list string -> string;
  FileExists : string -> TRITONSERVER_Error + bool
}.

(** Modelled from the spec: the wrappers [RETURN_IF_OPENVINO_ERROR] and
    [RETURN_IF_OPENVINO_ASSIGN_ERROR] of [openvino_utils.h], which is not
    part of the sources at hand: "native-library exceptions are always
    caught at every public entry point and converted to the taxonomy"
    (spec section 7), here to an internal error naming the step. *)
Definition openvino_error (msg what : string) : TRITONSERVER_Error :=
  TRITONSERVER_ErrorNew TRITONSERVER_ERROR_INTERNAL
    ("openvino error in " +:+ msg +:+ " : " +:+ what).

(** The outcome of a member function that may also let a C++ exception
    escape. *)
Inductive Outcome (A : Type) :=
| Returned (a : A)
| Threw (what : string).
Arguments Returned {A} a.
Arguments Threw {A} what.

(** ** Iteration over a [std::map]

    A [std::map] keyed by [std::string] is walked in ascending key order,
    and [std::string::operator<] compares the bytes of the two strings
    lexicographically, as [String.leb] does. *)
Definition key_le {V : Type} (x y : string * V) : Prop :=
  String.leb x.1 y.1 = true.

#[global] Instance key_le_dec {V : Type} (x y : string * V)
    : Decision (key_le x y) :=
  decide (String.leb x.1 y.1 = true).

(** The entries of a map, in the order in which a range-for loop over the
    [std::map] visits them. *)
Definition in_key_order {V : Type} (m : gmap string V)
    : list (string * V) :=
  merge_sort key_le (map_to_list m).

(** ** ModelState: the per-model binder shared by all instances *)

Section ModelBinder.
Context {engine : OpenVINO} {repository : Repository}.

Record ModelState := {
  (** inherited from [BackendModel] *)
  Name : string;
  RepositoryPath : string;
  Version : Z;
  MaxBatchSize : Z;
  (** [model_config_.Find("parameters", ...)] *)
  model_parameters : option (gmap string string);
  (** [model_config_.MemberAsArray("output", ...)]: [None] when the
      configuration has no such array; an entry is [None] when it is not
      an object with a string member "name" *)
  model_outputs : option (list (option string));
  (** the members of [ModelState] *)
  core : list CoreCall;
  network_ : option Model;
  executable_network_ : gmap string CompiledModel;
  config_ : gmap string (gmap string string);
  name_node_map : gmap string Output;
  network_read_ : bool;
  skip_dynamic_batchsize_ : bool;
  enable_padding_ : bool;
  reshape_io_layers_ : bool
}.

Definition SkipDynamicBatchSize (ms : ModelState) : bool :=
  skip_dynamic_batchsize_ ms.
Definition EnableBatchPadding (ms : ModelState) : bool := enable_padding_ ms.

Definition NetworkNotRead (ms : ModelState) : bool := negb (network_read_ ms).

Definition NetworkNotLoaded (ms : ModelState) (device : string) : bool :=
  match executable_network_ ms !! device with
  | None => true
  | Some _ => false
  end.

Definition set_core (c : list CoreCall) (ms : ModelState) : ModelState :=
  {| Name := Name ms; RepositoryPath := RepositoryPath ms;
     Version := Version ms; MaxBatchSize := MaxBatchSize ms;
     model_parameters := model_parameters ms;
     model_outputs := model_outputs ms;
     core := c; network_ := network_ ms;
     executable_network_ := executable_network_ ms;
     config_ := config_ ms; name_node_map := name_node_map ms;
     network_read_ := network_read_ ms;
     skip_dynamic_batchsize_ := skip_dynamic_batchsize_ ms;
     enable_padding_ := enable_padding_ ms;
     reshape_io_layers_ := reshape_io_layers_ ms |}.

Definition set_network (n : Model) (ms : ModelState) : ModelState :=
  {| Name := Name ms; RepositoryPath := RepositoryPath ms;
     Version := Version ms; MaxBatchSize := MaxBatchSize ms;
     model_parameters := model_parameters ms;
     model_outputs := model_outputs ms;
     core := core ms; network_ := Some n;
     executable_network_ := executable_network_ ms;
     config_ := config_ ms; name_node_map := name_node_map ms;
     network_read_ := network_read_ ms;
     skip_dynamic_batchsize_ := skip_dynamic_batchsize_ ms;
     enable_padding_ := enable_padding_ ms;
     reshape_io_layers_ := reshape_io_layers_ ms |}.

Definition set_network_read (b : bool) (ms : ModelState) : ModelState :=
  {| Name := Name ms; RepositoryPath := RepositoryPath ms;
     Version := Version ms; MaxBatchSize := MaxBatchSize ms;
     model_parameters := model_parameters ms;
     model_outputs := model_outputs ms;
     core := core ms; network_ := network_ ms;
     executable_network_ := executable_network_ ms;
     config_ := config_ ms; name_node_map := name_node_map ms;
     network_read_ := b;
     skip_dynamic_batchsize_ := skip_dynamic_batchsize_ ms;
     enable_padding_ := enable_padding_ ms;
     reshape_io_layers_ := reshape_io_layers_ ms |}.

Definition set_executable_network (m : gmap string CompiledModel)
    (ms : ModelState) : ModelState :=
  {| Name := Name ms; RepositoryPath := RepositoryPath ms;
     Version := Version ms; MaxBatchSize := MaxBatchSize ms;
     model_parameters := model_parameters ms;
     model_outputs := model_outputs ms;
     core := core ms; network_ := network_ ms;
     executable_network_ := m;
     config_ := config_ ms; name_node_map := name_node_map ms;
     network_read_ := network_read_ ms;
     skip_dynamic_batchsize_ := skip_dynamic_batchsize_ ms;
     enable_padding_ := enable_padding_ ms;
     reshape_io_layers_ := reshape_io_layers_ ms |}.

Definition set_config (c : gmap string (gmap string string))
    (ms : ModelState) : ModelState :=
  {| Name := Name ms; RepositoryPath := RepositoryPath ms;
     Version := Version ms; MaxBatchSize := MaxBatchSize ms;
     model_parameters := model_parameters ms;
     model_outputs := model_outputs ms;
     core := core ms; network_ := network_ ms;
     executable_network_ := executable_network_ ms;
     config_ := c; name_node_map := name_node_map ms;
     network_read_ := network_read_ ms;
     skip_dynamic_batchsize_ := skip_dynamic_batchsize_ ms;
     enable_padding_ := enable_padding_ ms;
     reshape_io_layers_ := reshape_io_layers_ ms |}.

Definition set_name_node_map (m : gmap string Output)
    (ms : ModelState) : ModelState :=
  {| Name := Name ms; RepositoryPath := RepositoryPath ms;
     Version := Version ms; MaxBatchSize := MaxBatchSize ms;
     model_parameters := model_parameters ms;
     model_outputs := model_outputs ms;
     core := core ms; network_ := network_ ms;
     executable_network_ := executable_network_ ms;
     config_ := config_ ms; name_node_map := m;
     network_read_ := network_read_ ms;
     skip_dynamic_batchsize_ := skip_dynamic_batchsize_ ms;
     enable_padding_ := enable_padding_ ms;
     reshape_io_layers_ := reshape_io_layers_ ms |}.

Definition set_flags (skip pad reshape : bool) (ms : ModelState) : ModelState :=
  {| Name := Name ms; RepositoryPath := RepositoryPath ms;
     Version := Version ms; MaxBatchSize := MaxBatchSize ms;
     model_parameters := model_parameters ms;
     model_outputs := model_outputs ms;
     core := core ms; network_ := network_ ms;
     executable_network_ := executable_network_ ms;
     config_ := config_ ms; name_node_map := name_node_map ms;
     network_read_ := network_read_ ms;
     skip_dynamic_batchsize_ := skip;
     enable_padding_ := pad;
     reshape_io_layers_ := reshape |}.

(** [ModelState::ReadNetwork]: the status, the new [*model_path] and the
    new binder state. *)
Definition ReadNetwork (artifact_name model_path : string) (ms : ModelState)
    : Status * string * ModelState :=
  if negb (NetworkNotRead ms) then
    (Some (TRITONSERVER_ErrorNew TRITONSERVER_ERROR_INTERNAL
             ("attempt to read model at '" +:+ model_path +:+
              "' more than once")),
     model_path, ms)
  else
    let cc_model_filename :=
      if string_empty artifact_name then "model.xml"%string
      else artifact_name in
    let model_path :=
      JoinPath [RepositoryPath ms; to_string (Version ms); cc_model_filename] in
    match FileExists model_path with
    | inl err => (Some err, model_path, ms)
    | inr false =>
        (Some (TRITONSERVER_ErrorNew TRITONSERVER_ERROR_UNAVAILABLE
                 ("unable to find '" +:+ model_path +:+ "' for model '" +:+
                  Name ms +:+ "'")),
         model_path, ms)
    | inr true =>
        let before := core ms in
        let ms := set_core (read_model model_path :: before) ms in
        match ov_read_model before model_path with
        | inl what => (Some (openvino_error "reading network" what),
                       model_path, ms)
        | inr n => (None, model_path, set_network_read true (set_network n ms))
        end
    end.

(** [ModelState::LoadCpuExtensions]. *)
Definition LoadCpuExtensions (params : gmap string string) (ms : ModelState)
    : Status * ModelState :=
  let cpu_ext_path := snd (ReadParameter params "CPU_EXTENSION_PATH" "") in
  if negb (string_empty cpu_ext_path) then
    let before := core ms in
    let ms := set_core (add_extension cpu_ext_path :: before) ms in
    match ov_add_extension before cpu_ext_path with
    | Some what =>
        (Some (openvino_error " loading custom CPU extensions" what), ms)
    | None => (None, ms)
    end
  else (None, ms).

(** [ModelState::ParseParameters()]. *)
Definition ParseParameters (ms : ModelState) : Status * ModelState :=
  match model_parameters ms with
  | Some params =>
      match LoadCpuExtensions params ms with
      | (Some err, ms) => (Some err, ms)
      | (None, ms) =>
          let '(s1, skip) :=
            ParseBoolParameter "SKIP_OV_DYNAMIC_BATCHSIZE" params
              (skip_dynamic_batchsize_ ms) in
          let ms := set_flags skip (enable_padding_ ms)
                      (reshape_io_layers_ ms) ms in
          match s1 with
          | Some err => (Some err, ms)
          | None =>
              let '(s2, pad) :=
                ParseBoolParameter "ENABLE_BATCH_PADDING" params
                  (enable_padding_ ms) in
              let ms := set_flags (skip_dynamic_batchsize_ ms) pad
                          (reshape_io_layers_ ms) ms in
              match s2 with
              | Some err => (Some err, ms)
              | None =>
                  let '(s3, reshape) :=
                    ParseBoolParameter "RESHAPE_IO_LAYERS" params
                      (reshape_io_layers_ ms) in
                  let ms := set_flags (skip_dynamic_batchsize_ ms)
                              (enable_padding_ ms) reshape ms in
                  (s3, ms)
              end
          end
      end
  | None => (None, ms)
  end.

(** One [RETURN_IF_ERROR(ParseParameter(mkey, params, &device_config))] of
    [ParseParameters(device)]: [device_config] is a reference into
    [config_], so the entry is updated in place. *)
Definition parse_into_config (mkey device : string)
    (params : gmap string string) (ms : ModelState) : Status * ModelState :=
  let device_config := default ∅ (config_ ms !! device) in
  let '(s, device_config) := ParseParameter mkey params device_config in
  (s, set_config (<[device := device_config]> (config_ ms)) ms).

(** [ModelState::ParseParameters(device)]. *)
Definition ParseParameters_device (device : string) (ms : ModelState)
    : Status * ModelState :=
  match model_parameters ms with
  | Some params =>
      if String.eqb device "CPU" then
        let ms := set_config (<[device := ∅]> (config_ ms)) ms in
        match parse_into_config "CPU_THREADS_NUM" device params ms with
        | (Some err, ms) => (Some err, ms)
        | (None, ms) =>
        match parse_into_config "ENFORCE_BF16" device params ms with
        | (Some err, ms) => (Some err, ms)
        | (None, ms) =>
        match parse_into_config "CPU_BIND_THREAD" device params ms with
        | (Some err, ms) => (Some err, ms)
        | (None, ms) =>
            parse_into_config "CPU_THROUGHPUT_STREAMS" device params ms
        end end end
      else (None, ms)
  | None => (None, ms)
  end.

(** [ModelState::ConfigureInferenceEngine]: the loop over the entries of
    [config_] (one per device, in key order), stopping at the first engine
    error. *)
Fixpoint configure_items (items : list (string * gmap string string))
    (ms : ModelState) : Status * ModelState :=
  match items with
  | [] => (None, ms)
  | (device, properties) :: items' =>
      let before := core ms in
      let ms := set_core (set_property device properties :: before) ms in
      match ov_set_property before device properties with
      | Some what =>
          (Some (openvino_error "configuring inference engine" what), ms)
      | None => configure_items items' ms
      end
  end.

Definition ConfigureInferenceEngine (ms : ModelState) : Status * ModelState :=
  configure_items (in_key_order (config_ ms)) ms.

(** The unguarded [core.set_property] loop at the head of [LoadNetwork],
    over the entries of [network_config] in key order: an engine exception
    here is not caught by the function. *)
Fixpoint set_properties (items : list (string * gmap string string))
    (ms : ModelState) : option string * ModelState :=
  match items with
  | [] => (None, ms)
  | (device, properties) :: items' =>
      let before := core ms in
      let ms := set_core (set_property device properties :: before) ms in
      match ov_set_property before device properties with
      | Some what => (Some what, ms)
      | None => set_properties items' ms
      end
  end.

(** The loop of [LoadNetwork] that fills [name_node_map]. *)
Definition bind_input (m : gmap string Output) (input : Output)
    : gmap string Output :=
  let name := match get_names input with
              | [] => "NONE"%string
              | _ => get_any_name input
              end in
  <[name := input]> m.

(** [ModelState::LoadNetwork].  The compiled model is assigned to
    [executable_network_[device]] only when compilation returns (the
    right-hand side of the assignment is evaluated first). *)
Definition LoadNetwork (device : string)
    (network_config : gmap string (gmap string string)) (ms : ModelState)
    : Outcome Status * ModelState :=
  if negb (NetworkNotLoaded ms device) then
    (Returned
       (Some (TRITONSERVER_ErrorNew TRITONSERVER_ERROR_INTERNAL
                ("attempt to load model '" +:+ Name ms +:+ "' on device '" +:+
                 device +:+ "' more than once"))),
     ms)
  else
    match set_properties (in_key_order network_config) ms with
    | (Some what, ms) => (Threw what, ms)
    | (None, ms) =>
        let before := core ms in
        let ms := set_core (compile_model device :: before) ms in
        match ov_compile_model before (network_ ms) device with
        | inl what =>
            (Returned (Some (openvino_error "loading network" what)), ms)
        | inr compiled =>
            let ms := set_executable_network
                        (<[device := compiled]> (executable_network_ ms))
                        ms in
            let ms := set_name_node_map
                        (foldl bind_input (name_node_map ms)
                           (inputs compiled)) ms in
            (Returned None, ms)
        end
    end.

(** [ModelState::CreateInferRequest]: the request created, or the error,
    and the new binder state.  [executable_network_[device]] inserts a
    default-constructed compiled model when the device has none. *)
Definition CreateInferRequest (device : string) (ms : ModelState)
    : (TRITONSERVER_Error + InferRequest ElementType) * ModelState :=
  let compiled := default CompiledModel_default
                    (executable_network_ ms !! device) in
  let ms := match executable_network_ ms !! device with
            | Some _ => ms
            | None => set_executable_network
                        (<[device := compiled]> (executable_network_ ms)) ms
            end in
  let before := core ms in
  let ms := set_core (create_infer_request device :: before) ms in
  match ov_create_infer_request before compiled with
  | inl what =>
      (inl (openvino_error "creating infer request object" what), ms)
  | inr r => (inr r, ms)
  end.

(** What the configuration steps leave alone: the read flag, the compiled
    models and the name-to-node map. *)
Definition same_binding (ms ms' : ModelState) : Prop :=
  network_read_ ms' = network_read_ ms /\
  executable_network_ ms' = executable_network_ ms /\
  name_node_map ms' = name_node_map ms.

(** [ModelState::SetNameNodeMap]. *)
Definition SetNameNodeMap (ms : ModelState) : Status * gmap string Output :=
  (None, name_node_map ms).

(** [ModelState::ValidateConfigureNetwork]: its body is compiled out. *)
Definition ValidateConfigureNetwork (ms : ModelState) : Status := None.

End ModelBinder.

(** ** Requests of the serving runtime *)

Inductive TRITONSERVER_DataType :=
| TYPE_INVALID | TYPE_BOOL | TYPE_UINT8 | TYPE_UINT16 | TYPE_UINT32
| TYPE_UINT64 | TYPE_INT8 | TYPE_INT16 | TYPE_INT32 | TYPE_INT64
| TYPE_FP16 | TYPE_FP32 | TYPE_FP64 | TYPE_BYTES | TYPE_BF16.

Inductive TRITONSERVER_MemoryType :=
| TRITONSERVER_MEMORY_CPU
| TRITONSERVER_MEMORY_CPU_PINNED
| TRITONSERVER_MEMORY_GPU.

Inductive TRITONSERVER_InstanceGroupKind :=
| TRITONSERVER_INSTANCEGROUPKIND_AUTO
| TRITONSERVER_INSTANCEGROUPKIND_CPU
| TRITONSERVER_INSTANCEGROUPKIND_GPU
| TRITONSERVER_INSTANCEGROUPKIND_MODEL.

(** A [TRITONBACKEND_Input] as [TRITONBACKEND_InputProperties] shows it. *)
Record Input := {
  input_name : string;
  input_datatype : TRITONSERVER_DataType;
  input_shape : list Z
}.

(** A non-null [TRITONBACKEND_Request]: its inputs, and whether
    [TRITONBACKEND_ResponseNew] succeeds for it. *)
Record Request := {
  request_inputs : list Input;
  response_new : bool
}.

(** [TRITONBACKEND_RequestInputByIndex]. *)
Definition RequestInputByIndex (request : Request) (index : nat)
    : TRITONSERVER_Error + Input :=
  match request_inputs request !! index with
  | Some input => inr input
  | None =>
      inl (TRITONSERVER_ErrorNew TRITONSERVER_ERROR_INVALID_ARG
             ("out of bounds index " +:+ to_string (Z.of_nat index) +:+
              ": request has " +:+
              to_string (Z.of_nat (length (request_inputs request))) +:+
              " inputs"))
  end.

(** The helpers of the backend library used while marshalling: the byte
    size of a shaped tensor, the element-type conversion of
    [openvino_utils], and the input collector, which gathers the
    contributions of all requests for one input name into one buffer
    (its result is the buffer and the kind of memory it lies in, or an
    error; the error responses the collector may send to single requests
    on its own are outside the embedding). *)
Class Marshalling {engine : OpenVINO} := {
  GetByteSize : TRITONSERVER_DataType -> list Z -> Z;
  ConvertToOpenVINOElement : TRITONSERVER_DataType -> ElementType;
  collector_ProcessTensor :
    list Request -> string ->
    TRITONSERVER_Error + (list Byte.byte * TRITONSERVER_MemoryType)
}.

(** What the serving runtime and the engine observe of one execution. *)
Inductive Event :=
| ResponseSend (r : nat) (err : Status)
| Infer_called
| ResponderProcessTensor (name : string) (shape : list Z)
| ModelInstanceReportStatistics (r : nat) (success : bool)
| RequestRelease (r : nat)
| ModelInstanceReportBatchStatistics (total_batch_size : Z).

(** ** ModelInstanceState *)

Section ModelInstance.
Context {engine : OpenVINO} {marshalling : Marshalling}
  {repository : Repository}.

Record ModelInstanceState := {
  instance_name : string;
  model_path_ : string;
  device_ : string;
  infer_request_ : InferRequest ElementType;
  name_node_map_ : gmap string Output;
  batch_pad_size_ : Z
}.

Definition set_batch_pad_size (p : Z) (st : ModelInstanceState)
    : ModelInstanceState :=
  {| instance_name := instance_name st; model_path_ := model_path_ st;
     device_ := device_ st; infer_request_ := infer_request_ st;
     name_node_map_ := name_node_map_ st; batch_pad_size_ := p |}.

Definition set_infer_request (r : InferRequest ElementType)
    (st : ModelInstanceState) : ModelInstanceState :=
  {| instance_name := instance_name st; model_path_ := model_path_ st;
     device_ := device_ st; infer_request_ := r;
     name_node_map_ := name_node_map_ st;
     batch_pad_size_ := batch_pad_size_ st |}.

Definition set_name_node_map_ (m : gmap string Output)
    (st : ModelInstanceState) : ModelInstanceState :=
  {| instance_name := instance_name st; model_path_ := model_path_ st;
     device_ := device_ st; infer_request_ := infer_request_ st;
     name_node_map_ := m; batch_pad_size_ := batch_pad_size_ st |}.

(** The result of the constructor: the instance, or the exception that
    left it. *)
Inductive Construction :=
| Constructed (st : ModelInstanceState)
| BackendModelInstanceException (err : TRITONSERVER_Error)
| EngineException (what : string).

(** [ModelInstanceState::ModelInstanceState].  [instance] is the name
    of the instance, [kind] its [Kind()] and [artifact] its
    [ArtifactFilename()]; the binder [ms] is shared with the other
    instances of the model and is handed back in its new state. *)
Definition ModelInstanceState_new (instance : string)
    (kind : TRITONSERVER_InstanceGroupKind) (artifact : string)
    (ms : ModelState) : Construction * ModelState :=
  let device := "CPU"%string in
  match kind with
  | TRITONSERVER_INSTANCEGROUPKIND_CPU =>
      (* if (model_state_->NetworkNotRead()) { ... } *)
      let '(s, model_path, ms) :=
        if NetworkNotRead ms then
          match ParseParameters ms with
          | (Some err, ms) => (Some err, ""%string, ms)
          | (None, ms) =>
              match ReadNetwork artifact "" ms with
              | (Some err, model_path, ms) => (Some err, model_path, ms)
              | (None, model_path, ms) =>
                  (ValidateConfigureNetwork ms, model_path, ms)
              end
          end
        else (None, ""%string, ms) in
      match s with
      | Some err => (BackendModelInstanceException err, ms)
      | None =>
          (* if (model_state_->NetworkNotLoaded(device_)) { ... } *)
          let '(o, ms) :=
            if NetworkNotLoaded ms device then
              match ParseParameters_device device ms with
              | (Some err, ms) => (Returned (Some err), ms)
              | (None, ms) =>
                  match ConfigureInferenceEngine ms with
                  | (Some err, ms) => (Returned (Some err), ms)
                  | (None, ms) => LoadNetwork device ∅ ms
                  end
              end
            else (Returned None, ms) in
          match o with
          | Threw what => (EngineException what, ms)
          | Returned (Some err) => (BackendModelInstanceException err, ms)
          | Returned None =>
              match CreateInferRequest device ms with
              | (inl err, ms) => (BackendModelInstanceException err, ms)
              | (inr r, ms) =>
                  match SetNameNodeMap ms with
                  | (Some err, _) => (BackendModelInstanceException err, ms)
                  | (None, m) =>
                      (Constructed
                         {| instance_name := instance;
                            model_path_ := model_path;
                            device_ := device;
                            infer_request_ := r;
                            name_node_map_ := m;
                            batch_pad_size_ := 0 |}, ms)
                  end
              end
          end
      end
  | _ =>
      (BackendModelInstanceException
         (TRITONSERVER_ErrorNew TRITONSERVER_ERROR_INVALID_ARG
            ("unable to load model '" +:+ Name ms +:+
             "', openVINO backend supports only CPU device")), ms)
  end.

(** *** Tensor views *)

(** [ov::shape_size]: the number of elements, in [size_t] arithmetic. *)
Definition shape_size (shape : list Z) : Z :=
  foldl (fun acc d => to_size_t (acc * d)) 1 shape.

(** [ov::Tensor::get_byte_size]. *)
Definition get_byte_size (t : Tensor ElementType) : Z :=
  to_size_t (shape_size (get_shape t) * bitwidth (get_element_type t) + 7) / 8.

(** [memcpy(dst, src, n)] on the bytes of two buffers. *)
Definition memcpy (dst src : list Byte.byte) (n : nat) : list Byte.byte :=
  take n src ++ drop n dst.

Definition set_data (bytes : list Byte.byte) (t : Tensor ElementType)
    : Tensor ElementType :=
  {| get_element_type := get_element_type t; get_shape := get_shape t;
     data := bytes |}.

Definition port (o : Output) : nat * nat := (get_node o, get_index o).

Definition set_input_tensor (o : Output) (t : Tensor ElementType)
    (r : InferRequest ElementType) : InferRequest ElementType :=
  {| input_tensors := <[port o := t]> (input_tensors r);
     output_tensors := output_tensors r |}.

(** *** The local variables of [ProcessRequests] *)

Record Frame := {
  total_batch_size : Z;
  all_response_failed : bool;
  (** the [responses] vector: [true] for a live response, [false] for
      [nullptr] *)
  responses : list bool;
  events : list Event
}.

Definition set_total (t : Z) (f : Frame) : Frame :=
  {| total_batch_size := t; all_response_failed := all_response_failed f;
     responses := responses f; events := events f |}.

Definition log (es : list Event) (f : Frame) : Frame :=
  {| total_batch_size := total_batch_size f;
     all_response_failed := all_response_failed f;
     responses := responses f; events := events f ++ es |}.

(** The error responses sent to the live responses, in index order. *)
Definition send_all (err : Status) (responses : list bool) : list Event :=
  mjoin (imap (fun r live => if live : bool then [ResponseSend r err] else [])
           responses).

(** Modelled from the spec: the macro [RESPOND_ALL_AND_SET_TRUE_IF_ERROR]
    of the backend library, which is not part of the sources at hand:
    on an error "every response for that call is marked failed and sent
    with the error" (spec section 7); each live response is sent the
    error and set to [nullptr], and the flag is raised. *)
Definition RESPOND_ALL_AND_SET_TRUE_IF_ERROR (f : Frame) (x : Status) : Frame :=
  match x with
  | None => f
  | Some err =>
      {| total_batch_size := total_batch_size f;
         all_response_failed := true;
         responses := map (fun _ => false) (responses f);
         events := events f ++ send_all (Some err) (responses f) |}
  end.

(** Modelled from the spec: [RequestsRespondWithError] of the backend
    library, which is not part of the sources at hand, on the null-request
    path: "a call array containing a null request pointer must fail every
    response in the call with InternalError and perform no further
    processing" (spec section 8); every non-null request is answered with
    the error and released. *)
Definition RequestsRespondWithError (requests : list (option Request))
    (err : TRITONSERVER_Error) : list Event :=
  mjoin (imap (fun r request =>
                 match request with
                 | Some q =>
                     (if response_new q then [ResponseSend r (Some err)]
                      else []) ++ [RequestRelease r]
                 | None => []
                 end) requests).

(** The error raised when the running total differs from the maximum
    batch size and padding is disabled. *)
Definition batch_size_mismatch (max_batch_size total : Z)
    : TRITONSERVER_Error :=
  TRITONSERVER_ErrorNew TRITONSERVER_ERROR_INTERNAL
    ("expected requests with batch size '" +:+ to_string max_batch_size +:+
     "', got '" +:+ to_string total +:+
     "'... this error can be avoided by setting " +:+
     "'ENABLE_BATCH_PADDING' parameter in model " +:+
     "configuration " +:+
     "to 'YES' at a performance cost.").

(** The error raised when the maximum batch size is exceeded. *)
Definition batch_size_exceeded (name : string) (max_batch_size total : Z)
    : TRITONSERVER_Error :=
  TRITONSERVER_ErrorNew TRITONSERVER_ERROR_INTERNAL
    ("batch size " +:+ to_string total +:+ " for '" +:+ name +:+
     "', max allowed is " +:+ to_string max_batch_size).

(** One iteration of the loop that collects the total batch size
    (lines 921-962).  With batching, the leading dimension [shape[0]] of
    the first input is added to the running total (an input of a batching
    model carries its batch dimension; [hd 0] reads it), and the running
    total is compared with the maximum batch size inside the loop. *)
Definition collect_batch_size (ms : ModelState)
    (acc : Frame * ModelInstanceState) (request : Request)
    : Frame * ModelInstanceState :=
  let '(f, st) := acc in
  let max_batch_size := MaxBatchSize ms in
  if 0 <? max_batch_size then
    let f :=
      match RequestInputByIndex request 0 with
      | inr input =>
          (* total_batch_size += shape[0]; *)
          set_total
            (to_size_t (total_batch_size f + hd 0 (input_shape input))) f
      | inl err => RESPOND_ALL_AND_SET_TRUE_IF_ERROR f (Some err)
      end in
    if negb (all_response_failed f) then
      if negb (total_batch_size f =? to_size_t max_batch_size) then
        if EnableBatchPadding ms then
          (f, set_batch_pad_size
                (to_size_t (max_batch_size - total_batch_size f)) st)
        else
          (RESPOND_ALL_AND_SET_TRUE_IF_ERROR f
             (Some (batch_size_mismatch max_batch_size (total_batch_size f))),
           st)
      else (f, st)
    else (f, st)
  else
    (set_total (to_size_t (total_batch_size f + 1)) f, st).

(** [ModelInstanceState::SetBatch]: its body is commented out. *)
Definition SetBatch (batch_size : Z) : Status := None.

(** [ModelInstanceState::Infer]. *)
Definition Infer (st : ModelInstanceState) : Status * ModelInstanceState :=
  match ov_infer (infer_request_ st) with
  | inl what => (Some (openvino_error "running inference" what), st)
  | inr r => (None, set_infer_request r st)
  end.

(** The shape for the entire input batch, [[total_batch_size, ...]]
    (lines 1159-1164).  An input without dimensions has no leading
    dimension to replace. *)
Definition batchn_shape (ms : ModelState) (total_batch_size : Z)
    (input : Input) : list Z :=
  if negb (MaxBatchSize ms =? 0)
  then <[0%nat := to_int64 total_batch_size]> (input_shape input)
  else input_shape input.

(** The source view built over the gathered buffer (lines 1203-1205). *)
Definition input_view (ms : ModelState) (total_batch_size : Z)
    (input : Input) (input_buffer : list Byte.byte) : Tensor ElementType :=
  {| get_element_type := ConvertToOpenVINOElement (input_datatype input);
     get_shape := map to_size_t (batchn_shape ms total_batch_size input);
     data := input_buffer |}.

Definition shape_mismatch : string :=
  "Source and destination tensors shapes and byte sizes are expected " +:+
  "to be equal for data copying.".

(** The body of the loop of [SetInputTensors] for one input of the
    representative request; [names] is [*input_names]. *)
Definition set_input_tensor_step (ms : ModelState)
    (total_batch_size : Z) (requests : list Request) (input : Input)
    (st : ModelInstanceState) (names : list string)
    : Outcome Status * ModelInstanceState * list string :=
  let names := names ++ [input_name input] in
  let batchn_byte_size :=
    GetByteSize (input_datatype input)
      (batchn_shape ms total_batch_size input) in
  match collector_ProcessTensor requests (input_name input) with
  | inl err => (Returned (Some err), st, names)
  | inr (input_buffer, memory_type) =>
      let buffer_byte_size := Z.of_nat (length input_buffer) in
      match memory_type with
      | TRITONSERVER_MEMORY_GPU =>
          (Returned
             (Some (TRITONSERVER_ErrorNew TRITONSERVER_ERROR_UNSUPPORTED
                      "failed to get input buffer in CPU memory")), st, names)
      | _ =>
          if negb (to_size_t batchn_byte_size =? buffer_byte_size) then
            (Returned
               (Some (TRITONSERVER_ErrorNew TRITONSERVER_ERROR_UNSUPPORTED
                        ("expected " +:+ to_string batchn_byte_size +:+
                         " bytes of data in input buffer, got " +:+
                         to_string buffer_byte_size +:+ " bytes."))),
             st, names)
          else
            let input_tensor :=
              input_view ms total_batch_size input input_buffer in
            (* infer_request_.get_tensor(name_node_map_[input_name]):
               a name that is not bound yields a default port, which the
               engine refuses *)
            match name_node_map_ st !! input_name input with
            | None =>
                (Threw "get_tensor: port is not bound",
                 set_name_node_map_
                   (<[input_name input :=
                        {| get_node := 0; get_index := 0; get_names := [] |}]>
                      (name_node_map_ st)) st,
                 names)
            | Some node =>
                match input_tensors (infer_request_ st) !! port node with
                | None =>
                    (Threw "get_tensor: no tensor for the port", st, names)
                | Some requestTensor =>
                    if negb (bool_decide (get_shape input_tensor =
                                          get_shape requestTensor))
                       || negb (get_byte_size input_tensor =?
                                get_byte_size requestTensor)
                    then (Threw shape_mismatch, st, names)
                    else
                      let copied :=
                        memcpy (data requestTensor) (data input_tensor)
                          (Z.to_nat (get_byte_size input_tensor)) in
                      (Returned None,
                       set_infer_request
                         (set_input_tensor node
                            (set_data copied requestTensor)
                            (infer_request_ st)) st,
                       names)
                end
            end
      end
  end.

(** The loop of [SetInputTensors] over the inputs of [requests[0]]. *)
Fixpoint set_input_tensors_loop (ms : ModelState) (total_batch_size : Z)
    (requests : list Request) (inputs : list Input)
    (st : ModelInstanceState) (names : list string)
    : Outcome Status * ModelInstanceState * list string :=
  match inputs with
  | [] => (Returned None, st, names)
  | input :: inputs' =>
      match set_input_tensor_step ms total_batch_size requests input st names
      with
      | (Returned None, st, names) =>
          set_input_tensors_loop ms total_batch_size requests inputs' st names
      | stop => stop
      end
  end.

(** [ModelInstanceState::SetInputTensors]. *)
Definition SetInputTensors (ms : ModelState) (total_batch_size : Z)
    (requests : list Request) (st : ModelInstanceState)
    : Outcome Status * ModelInstanceState * list string :=
  match requests with
  | [] => (Threw "requests[0]", st, [])
  | request0 :: _ =>
      set_input_tensors_loop ms total_batch_size requests
        (request_inputs request0) st []
  end.

(** [ModelInstanceState::ValidateOutputBatchSize]: the status and the new
    contents of [*output_shape]. *)
Definition ValidateOutputBatchSize (ms : ModelState) (st : ModelInstanceState)
    (output_shape : list Z) : Status * list Z :=
  let mbs := MaxBatchSize ms in
  let d := hd 0 output_shape in
  if mbs =? 0 then (None, output_shape)
  else if negb (d =? mbs) &&
          negb (to_size_t d =? to_size_t (mbs - batch_pad_size_ st)) then
    (Some (TRITONSERVER_ErrorNew TRITONSERVER_ERROR_INTERNAL
             ("expected the batch size of openvino model output to be " +:+
              to_string mbs +:+ ", got " +:+ to_string d)),
     output_shape)
  else
    (None, <[0%nat := to_int64 (to_size_t (mbs - batch_pad_size_ st))]>
             output_shape).

(** [ConvertToSignedShape] of [openvino_utils]: each [size_t] dimension
    as an [int64_t]. *)
Definition ConvertToSignedShape (shape : list Z) : list Z := map to_int64 shape.

(** [ModelInstanceState::ReadOutputTensors]: every declared output is
    fetched from the engine and handed to the responder; the function
    then returns success.  What the responder does with an output it was
    handed, an error it may send to a single response included, is
    outside the embedding. *)
Fixpoint ReadOutputTensors (st : ModelInstanceState)
    (output_names : list string) : Outcome Status * list Event :=
  match output_names with
  | [] => (Returned None, [])
  | name :: output_names' =>
      match output_tensors (infer_request_ st) !! name with
      | None => (Threw "get_tensor: no tensor of that name", [])
      | Some output_tensor =>
          let output_shape := ConvertToSignedShape (get_shape output_tensor) in
          let '(o, es) := ReadOutputTensors st output_names' in
          (o, ResponderProcessTensor name output_shape :: es)
      end
  end.

(** The names of the declared outputs, up to the first entry that cannot
    be read (lines 1010-1035); the error of that entry is dropped. *)
Fixpoint names_until_error (ios : list (option string)) : list string :=
  match ios with
  | Some io_name :: ios' => io_name :: names_until_error ios'
  | _ => []
  end.

(** The null check at the head of [ProcessRequests]: the requests, when
    none of them is [nullptr]. *)
Fixpoint non_null (requests : list (option Request)) : option (list Request) :=
  match requests with
  | [] => Some []
  | Some q :: requests' =>
      match non_null requests' with
      | Some qs => Some (q :: qs)
      | None => None
      end
  | None :: _ => None
  end.

(** The closing loops of [ProcessRequests]: the live responses are sent,
    then statistics are reported for, and the request released of, every
    index. *)
Definition report_and_release (responses : list bool) (request_count : nat)
    : list Event :=
  mjoin (map (fun r => [ModelInstanceReportStatistics r
                          (default false (responses !! r));
                        RequestRelease r])
           (seq 0 request_count)).

(** The stages of [ProcessRequests], in the order of the source. *)

(** Lines 921-962: the loop that collects the total batch size. *)
Definition aggregate (ms : ModelState) (st : ModelInstanceState)
    (requests : list Request) : Frame * ModelInstanceState :=
  foldl (collect_batch_size ms)
    ({| total_batch_size := 0; all_response_failed := false;
        responses := map response_new requests; events := [] |}, st)
    requests.

(** Lines 969-987: make sure the maximum batch size is not exceeded. *)
Definition check_max_batch_size (ms : ModelState) (st : ModelInstanceState)
    (f : Frame) : Frame :=
  if negb (all_response_failed f) then
    if negb (total_batch_size f =? 1) &&
       (to_size_t (MaxBatchSize ms) <? total_batch_size f)
    then RESPOND_ALL_AND_SET_TRUE_IF_ERROR f
           (Some (batch_size_exceeded (instance_name st) (MaxBatchSize ms)
                    (total_batch_size f)))
    else f
  else f.

(** Lines 989-998: set the new batch size before the inference. *)
Definition set_batch (ms : ModelState) (f : Frame) : Frame :=
  if negb (all_response_failed f) then
    if negb (SkipDynamicBatchSize ms) then
      if negb (MaxBatchSize ms =? 0)
      then RESPOND_ALL_AND_SET_TRUE_IF_ERROR f (SetBatch (total_batch_size f))
      else f
    else f
  else f.

(** Lines 1000-1007: marshal the inputs, unless the call already failed. *)
Definition marshal (ms : ModelState) (st : ModelInstanceState) (f : Frame)
    (requests : list Request)
    : Outcome Status * ModelInstanceState * list string :=
  if negb (all_response_failed f)
  then SetInputTensors ms (total_batch_size f) requests st
  else (Returned None, st, []).

(** Lines 1009-1099: the rest of the call, given the outcome of the
    marshalling: run the engine, read the outputs, send the responses,
    report the statistics and release the requests.  An exception thrown
    by [SetInputTensors] or [ReadOutputTensors] is caught nowhere and
    leaves the function at once. *)
Definition complete (ms : ModelState) (f : Frame) (requests : list Request)
    (marshalled : Outcome Status * ModelInstanceState * list string)
    : Outcome unit * ModelInstanceState * list Event :=
  match marshalled with
  | (Threw what, st, _) => (Threw what, st, events f)
  | (Returned s, st, input_names) =>
      let f := RESPOND_ALL_AND_SET_TRUE_IF_ERROR f s in
      let output_names :=
        if negb (all_response_failed f) then
          match model_outputs ms with
          | Some ios => names_until_error ios
          | None => []
          end
        else [] in
      (* Run... *)
      let '(f, st) :=
        if negb (all_response_failed f) then
          let '(s, st) := Infer st in
          (RESPOND_ALL_AND_SET_TRUE_IF_ERROR (log [Infer_called] f) s, st)
        else (f, st) in
      let read :=
        if negb (all_response_failed f)
        then ReadOutputTensors st output_names
        else (Returned None, []) in
      match read with
      | (Threw what, es) => (Threw what, st, events f ++ es)
      | (Returned s, es) =>
          let f := RESPOND_ALL_AND_SET_TRUE_IF_ERROR (log es f) s in
          let f := log (send_all None (responses f)) f in
          let f := log (report_and_release (responses f) (length requests)) f in
          let f :=
            if negb (all_response_failed f)
            then log [ModelInstanceReportBatchStatistics (total_batch_size f)] f
            else f in
          (Returned (), st, events f)
      end
  end.

(** [ModelInstanceState::ProcessRequests] on requests that are all
    non-null: the outcome, the new instance state and what was observed,
    in order. *)
Definition process_non_null (ms : ModelState) (st : ModelInstanceState)
    (requests : list Request)
    : Outcome unit * ModelInstanceState * list Event :=
  let '(f, st) := aggregate ms st requests in
  (* If there are no valid payloads then no need to run the inference. *)
  if total_batch_size f =? 0 then (Returned (), st, events f)
  else
    let f := set_batch ms (check_max_batch_size ms st f) in
    complete ms f requests (marshal ms st f requests).

(** [ModelInstanceState::ProcessRequests]. *)
Definition ProcessRequests (ms : ModelState) (st : ModelInstanceState)
    (requests : list (option Request))
    : Outcome unit * ModelInstanceState * list Event :=
  match non_null requests with
  | None =>
      (Returned (), st,
       RequestsRespondWithError requests
         (TRITONSERVER_ErrorNew TRITONSERVER_ERROR_INTERNAL
            ("null request given to openVINO backend for '" +:+
             instance_name st +:+ "'")))
  | Some requests => process_non_null ms st requests
  end.

(** The leading dimension of the first input of a request, when the
    request has a first input. *)
Definition leading_dimension (request : Request) : option Z :=
  match RequestInputByIndex request 0 with
  | inr input => Some (hd 0 (input_shape input))
  | inl _ => None
  end.

(** The sum of leading dimensions, as a mathematical integer. *)
Definition sum_dims (dims : list Z) : Z := foldr Z.add 0 dims.

(** The total held by [total_batch_size] after each request of a call on
    a batching model, starting from [total]. *)
Fixpoint running_totals (total : Z) (requests : list Request) : list Z :=
  match requests with
  | [] => []
  | request :: requests' =>
      let total := match leading_dimension request with
                   | Some d => to_size_t (total + d)
                   | None => total
                   end in
      total :: running_totals total requests'
  end.

(** The requests released by a run, in order. *)
Definition released (es : list Event) : list nat :=
  omap (fun e => match e with RequestRelease r => Some r | _ => None end) es.

(** The requests for which statistics were reported, in order. *)
Definition reported (es : list Event) : list nat :=
  omap (fun e => match e with
                 | ModelInstanceReportStatistics r _ => Some r
                 | _ => None
                 end) es.

(** The events of the aggregation and of the checks: responses sent. *)
Definition is_send (e : Event) : Prop :=
  match e with ResponseSend _ _ => True | _ => False end.

(** The events that are neither a statistics report nor a release. *)
Definition quiet (e : Event) : Prop :=
  match e with
  | RequestRelease _ | ModelInstanceReportStatistics _ _ => False
  | _ => True
  end.

(** ** Observations used to state further properties *)

(** The name under which [LoadNetwork] binds an input port in
    [name_node_map]. *)
Definition bound_name (input : Output) : string :=
  match get_names input with
  | [] => "NONE"%string
  | _ => get_any_name input
  end.

(** Whether the parameter block sets [key] to a value that reads "yes". *)
Definition is_yes (params : gmap string string) (key : string) : bool :=
  String.eqb (transform tolower (default ""%string (params !! key))) "yes".

(** The entry that [ParseParameter] stores for [mkey], when the block
    holds a non-empty value for it. *)
Definition parsed_entry (mkey : string) (params : gmap string string)
    : option string :=
  let value := default ""%string (params !! mkey) in
  if string_empty value then None
  else Some (ParseParameterHelper mkey "" value).2.

(** The four device options read by [ParseParameters(device)]. *)
Definition device_options : list string :=
  ["CPU_THREADS_NUM"; "ENFORCE_BF16"; "CPU_BIND_THREAD";
   "CPU_THROUGHPUT_STREAMS"]%string.

(** The [add_extension] call that [LoadCpuExtensions] makes for a
    parameter block. *)
Definition extension_calls (parameters : option (gmap string string))
    : list CoreCall :=
  match parameters with
  | Some params =>
      let path := default ""%string (params !! "CPU_EXTENSION_PATH"%string) in
      if string_empty path then [] else [add_extension path]
  | None => []
  end.

(** The per-request statistics reported by a run: index and success. *)
Definition statistics (es : list Event) : list (nat * bool) :=
  omap (fun e => match e with
                 | ModelInstanceReportStatistics r success => Some (r, success)
                 | _ => None
                 end) es.

(** The batch statistics reported by a run. *)
Definition batch_statistics (es : list Event) : list Z :=
  omap (fun e => match e with
                 | ModelInstanceReportBatchStatistics total => Some total
                 | _ => None
                 end) es.

(** The events logged between the aggregation and the closing loops:
    the engine run and the outputs handed to the responder. *)
Definition engine_event (e : Event) : Prop :=
  match e with
  | Infer_called | ResponderProcessTensor _ _ => True
  | _ => False
  end.

(** The state of the responses at a point of [ProcessRequests], for the
    responses [created] at the head of the call: either no error was
    raised so far, every created response is still held and only the
    engine events [es] were observed; or the error [err] was raised,
    every created response was sent it and none is held any more. *)
Definition settled (created : list bool) (es : list Event) (err : Status)
    (f : Frame) : Prop :=
  match err with
  | None =>
      all_response_failed f = false /\ responses f = created /\
      events f = es
  | Some _ =>
      all_response_failed f = true /\
      responses f = map (fun _ => false) created /\
      events f = es ++ send_all err created
  end.

(** The closing part of the trace of a call that returns: the responses
    sent with the status [err] of the call, the statistics and releases,
    and the batch statistics of a call that did not fail. *)
Definition closing (created : list bool) (request_count : nat) (total : Z)
    (err : Status) : list Event :=
  send_all err created ++
  report_and_release
    (match err with
     | None => created
     | Some _ => map (fun _ => false) created
     end) request_count ++
  match err with
  | None => [ModelInstanceReportBatchStatistics total]
  | Some _ => []
  end.

(** The [set_property] calls that [ConfigureInferenceEngine] makes for a
    configuration, one per device in key order, as logged on the engine
    (latest first). *)
Definition configuration_calls (config : gmap string (gmap string string))
    : list CoreCall :=
  rev (map (fun entry => set_property entry.1 entry.2) (in_key_order config)).

(** What the steps that configure and load a device leave alone: the
    model handle and the three flags. *)
Definition same_model (ms ms' : ModelState) : Prop :=
  network_ ms' = network_ ms /\
  skip_dynamic_batchsize_ ms' = skip_dynamic_batchsize_ ms /\
  enable_padding_ ms' = enable_padding_ ms /\
  reshape_io_layers_ ms' = reshape_io_layers_ ms.

(** What the steps that parse the parameters and read the model leave
    alone: the compiled models, the name-to-node map and the device
    configuration. *)
Definition same_devices (ms ms' : ModelState) : Prop :=
  executable_network_ ms' = executable_network_ ms /\
  name_node_map ms' = name_node_map ms /\
  config_ ms' = config_ ms.

(** What [SetInputTensors] leaves of the instance: the output tensors,
    the pad size, and the element type and shape of every host input
    tensor (only the bytes of a tensor are written). *)
Definition same_host_tensors (st st' : ModelInstanceState) : Prop :=
  output_tensors (infer_request_ st') = output_tensors (infer_request_ st) /\
  batch_pad_size_ st' = batch_pad_size_ st /\
  forall p,
    (fun t => (get_element_type t, get_shape t)) <$>
      input_tensors (infer_request_ st') !! p =
    (fun t => (get_element_type t, get_shape t)) <$>
      input_tensors (infer_request_ st) !! p.

(** The names of the outputs that [ProcessRequests] asks for. *)
Definition requested_outputs (ms : ModelState) : list string :=
  match model_outputs ms with
  | Some ios => names_until_error ios
  | None => []
  end.

(** What the responder is handed for the outputs [output_names] held by
    the tensors [tensors]. *)
Definition handed_over (output_names : list string)
    (tensors : list (Tensor ElementType)) : list Event :=
  zip_with (fun name t =>
              ResponderProcessTensor name (ConvertToSignedShape (get_shape t)))
    output_names tensors.

End ModelInstance.

(** ** A concrete engine and model

    The scenario of section 8 of the specification: one input "X" of
    shape [-1,10] and one output "Y" of shape [-1,5], both of 32-bit
    elements; the engine's bound input storage holds two rows. *)

Definition port_X : Output :=
  {| get_node := 0; get_index := 0; get_names := ["X"%string] |}.

Definition scenario_request : InferRequest Z :=
  {| input_tensors :=
       {[ (0%nat, 0%nat) :=
            {| get_element_type := 32; get_shape := [2; 10];
               data := repeat Byte.x00 80 |} ]};
     output_tensors :=
       {[ "Y"%string :=
            {| get_element_type := 32; get_shape := [2; 5];
               data := repeat Byte.x00 40 |} ]} |}.

Definition scenario_engine : OpenVINO :=
  {| Model := unit;
     CompiledModel := list Output;
     ElementType := Z;
     bitwidth := fun w => w;
     CompiledModel_default := [];
     ov_add_extension := fun _ _ => None;
     ov_set_property := fun _ _ _ => None;
     ov_read_model := fun _ _ => inr tt;
     ov_compile_model := fun _ network _ =>
       match network with
       | Some _ => inr [port_X]
       | None => inl "model is null"%string
       end;
     inputs := fun compiled => compiled;
     ov_create_infer_request := fun _ _ => inr scenario_request;
     ov_infer := fun r => inr r |}.

Definition scenario_repository : Repository :=
  {| JoinPath := String.concat "/";
     FileExists := fun _ => inr true |}.

(** The collector of the scenario gathers, for the input of the given
    name, four bytes per element of every request. *)
Definition scenario_marshalling : @Marshalling scenario_engine :=
  {| GetByteSize := fun _ shape => 4 * foldr Z.mul 1 shape;
     ConvertToOpenVINOElement := fun _ => (32 : @ElementType scenario_engine);
     collector_ProcessTensor := fun requests name =>
       inr (mjoin (map (fun q =>
                          mjoin (map (fun i =>
                                        if String.eqb (input_name i) name
                                        then repeat Byte.x01
                                               (Z.to_nat
                                                  (4 * foldr Z.mul 1
                                                         (input_shape i)))
                                        else [])
                                   (request_inputs q)))
                     requests),
            TRITONSERVER_MEMORY_CPU) |}.

(** A model that is not read yet. *)
Definition scenario_unread (max_batch_size : Z)
    (parameters : gmap string string) : @ModelState scenario_engine :=
  {| Name := "scenario"; RepositoryPath := "/models/scenario"; Version := 1;
     MaxBatchSize := max_batch_size;
     model_parameters := Some parameters;
     model_outputs := Some [Some "Y"%string];
     core := []; network_ := None; executable_network_ := ∅;
     config_ := ∅; name_node_map := ∅;
     network_read_ := false; skip_dynamic_batchsize_ := false;
     enable_padding_ := false; reshape_io_layers_ := false |}.

(** The same model, read and loaded on the CPU. *)
Definition scenario_model (max_batch_size : Z) (padding : bool)
    : @ModelState scenario_engine :=
  {| Name := "scenario"; RepositoryPath := "/models/scenario"; Version := 1;
     MaxBatchSize := max_batch_size;
     model_parameters := None;
     model_outputs := Some [Some "Y"%string];
     core := [compile_model "CPU"; read_model "/models/scenario/1/model.xml"];
     network_ := Some (tt : @Model scenario_engine);
     executable_network_ :=
       {[ "CPU"%string := ([port_X] : @CompiledModel scenario_engine) ]};
     config_ := ∅;
     name_node_map := {[ "X"%string := port_X ]};
     network_read_ := true; skip_dynamic_batchsize_ := false;
     enable_padding_ := padding; reshape_io_layers_ := false |}.

Definition scenario_instance (pad : Z) : @ModelInstanceState scenario_engine :=
  {| instance_name := "scenario_0"; model_path_ := "";
     device_ := "CPU";
     infer_request_ :=
       (scenario_request : InferRequest (@ElementType scenario_engine));
     name_node_map_ := {[ "X"%string := port_X ]};
     batch_pad_size_ := pad |}.

(** A request whose input "X" has the given leading dimension. *)
Definition scenario_input (batch : Z) : Request :=
  {| request_inputs :=
       [{| input_name := "X"; input_datatype := TYPE_FP32;
           input_shape := [batch; 10] |}];
     response_new := true |}.

(** The first construction of an instance of the scenario model. *)
Abbreviation scenario_first :=
  (@ModelInstanceState_new scenario_engine scenario_repository "scenario_0"
     TRITONSERVER_INSTANCEGROUPKIND_CPU "" (scenario_unread 4 ∅)).

Definition scenario_first_instance : @ModelInstanceState scenario_engine :=
  match scenario_first.1 with
  | Constructed st => st
  | _ => scenario_instance 0
  end.


(** A repository in which no model file exists. *)
Definition scenario_empty_repository : Repository :=
  {| JoinPath := String.concat "/";
     FileExists := fun _ => inr false |}.

(** A parameter block that sets two device options and one flag. *)
Definition scenario_parameters : gmap string string :=
  {[ "CPU_THREADS_NUM"%string := "8"%string;
     "ENFORCE_BF16"%string := "Yes"%string;
     "ENABLE_BATCH_PADDING"%string := "YES"%string ]}.

(** The scenario model after [ReadNetwork]: read, not loaded. *)
Definition scenario_read : @ModelState scenario_engine :=
  (@ReadNetwork scenario_engine scenario_repository "" ""
     (scenario_unread 4 ∅)).2.

(** The output tensor "Y" that the scenario engine holds. *)
Definition scenario_output : Tensor Z :=
  {| get_element_type := 32; get_shape := [2; 5];
     data := repeat Byte.x00 40 |}.

(** An engine state with four bound input rows whose output "Y" has
    seven rows. *)
Definition scenario_seven_rows : InferRequest Z :=
  {| input_tensors :=
       {[ (0%nat, 0%nat) :=
            {| get_element_type := 32; get_shape := [4; 10];
               data := repeat Byte.x00 160 |} ]};
     output_tensors :=
       {[ "Y"%string :=
            {| get_element_type := 32; get_shape := [7; 5];
               data := repeat Byte.x00 140 |} ]} |}.

Definition scenario_seven_rows_instance
    : @ModelInstanceState scenario_engine :=
  {| instance_name := "scenario_0"; model_path_ := "";
     device_ := "CPU";
     infer_request_ :=
       (scenario_seven_rows : InferRequest (@ElementType scenario_engine));
     name_node_map_ := {[ "X"%string := port_X ]};
     batch_pad_size_ := 0 |}.

(** The scenario model with a configuration for two devices. *)
Definition scenario_two_devices : @ModelState scenario_engine :=
  set_config {[ "GPU"%string := ∅; "CPU"%string := ∅ ]} (scenario_unread 4 ∅).
(* ===================================================================== *)
(** * Part II: properties                                                 *)
(* ===================================================================== *)

Lemma IsNumber_all_digits (v : string) : IsNumber v = true <-> all_digits v.
Proof.
  unfold IsNumber, all_digits. induction v as [|c v IH]; simpl.
  - split; [constructor | reflexivity].
  - destruct (isdigit c) eqn:Hc; simpl.
    + rewrite IH. split; [by constructor | by inversion 1].
    + split; [discriminate | inversion 1; congruence].
Qed.

Lemma tolower_idempotent (c : ascii) : tolower (tolower c) = tolower c.
Proof. destruct c as [[] [] [] [] [] [] [] []]; reflexivity. Qed.

Lemma transform_tolower_idempotent (s : string) :
  transform tolower (transform tolower s) = transform tolower s.
Proof.
  induction s as [|c s IH]; simpl; [reflexivity|].
  by rewrite tolower_idempotent, IH.
Qed.

Lemma ParseParameterHelper_lowercases (mkey ov_key value : string) :
  ParseParameterHelper mkey ov_key value =
  ParseParameterHelper mkey ov_key (transform tolower value).
Proof.
  unfold ParseParameterHelper. by rewrite transform_tolower_idempotent.
Qed.

Ltac key_cases mkey :=
  destruct (String.eqb_spec mkey "CPU_THREADS_NUM") as [->|?];
  [|destruct (String.eqb_spec mkey "ENFORCE_BF16") as [->|?];
    [|destruct (String.eqb_spec mkey "CPU_BIND_THREAD") as [->|?];
      [|destruct (String.eqb_spec mkey "CPU_THROUGHPUT_STREAMS") as [->|?]]]].

Ltac value_cases v l :=
  match l with
  | nil => idtac
  | cons ?s ?l' => destruct (String.eqb_spec v s) as [->|?]; [|value_cases v l']
  end.

Lemma ParseParameterHelper_status (mkey ov_key value : string) :
  (ParseParameterHelper mkey ov_key value).1.1 = None <->
  value_in_domain mkey (transform tolower value).
Proof.
  unfold ParseParameterHelper, value_in_domain.
  generalize (transform tolower value) as v. intros v.
  pose proof (IsNumber_all_digits v) as Hnum.
  key_cases mkey; simpl.
  - destruct (IsNumber v); simpl; split; intros H; try done.
    + left. split; [done|]. by apply Hnum.
    + destruct H as [[_ H]|[[? _]|[[? _]|[? _]]]]; try done.
      apply Hnum in H. done.
  - value_cases v ["yes"; "no"]%string; simpl; split; intros H; try done;
      try (right; left; split; [done|]; auto; fail).
    destruct H as [[? _]|[[_ [?|?]]|[[? _]|[? _]]]]; done.
  - value_cases v ["yes"; "numa"; "no"]%string; simpl; split; intros H;
      try done; try (right; right; left; split; [done|]; auto; fail).
    destruct H as [[? _]|[[? _]|[[_ [?|[?|?]]]|[? _]]]]; done.
  - value_cases v ["auto"; "numa"]%string; simpl;
      try (split; intros H; try done; right; right; right; split; [done|];
           auto; fail).
    destruct (IsNumber v); simpl; split; intros H; try done.
    + right; right; right. split; [done|]. left. by apply Hnum.
    + destruct H as [[? _]|[[? _]|[[? _]|[_ [H|[?|?]]]]]]; try done.
      apply Hnum in H. done.
  - split; [done|]. intros [[? _]|[[? _]|[[? _]|[? _]]]]; done.
Qed.

Lemma ParseParameterHelper_error (mkey ov_key value : string) :
  match ParseParameterHelper mkey ov_key value with
  | (Some e, k, v) =>
      ErrorCode e = TRITONSERVER_ERROR_INVALID_ARG /\ k = ov_key /\
      v = transform tolower value
  | (None, _, _) => True
  end.
Proof.
  unfold ParseParameterHelper.
  generalize (transform tolower value) as v. intros v.
  repeat match goal with
         | |- context [if ?b then _ else _] => destruct b
         end; done.
Qed.

Lemma ParseParameter_status (mkey : string)
    (params device_config : gmap string string) :
  (ParseParameter mkey params device_config).1 = None <->
  (default ""%string (params !! mkey) = ""%string \/
   value_in_domain mkey
     (transform tolower (default ""%string (params !! mkey)))).
Proof.
  unfold ParseParameter, ReadParameter.
  destruct (params !! mkey) as [value|]; simpl; [|by split; [left|]].
  pose proof (ParseParameterHelper_status mkey "" value) as Hst.
  destruct value as [|c value]; [by split; [left|]|].
  cbn [string_empty negb].
  destruct (ParseParameterHelper mkey "" (String c value)) as [[[e|] k] v];
    simpl in *.
  - split; [done|]. intros [?|Hd]; [done|]. by apply Hst in Hd.
  - split; [|done]. intros _. right. by apply Hst.
Qed.

Lemma ParseParameter_error_keeps_map (mkey : string)
    (params device_config : gmap string string) :
  match ParseParameter mkey params device_config with
  | (Some e, device_config') =>
      ErrorCode e = TRITONSERVER_ERROR_INVALID_ARG /\
      device_config' = device_config
  | (None, _) => True
  end.
Proof.
  unfold ParseParameter.
  destruct (string_empty _); simpl; [done|].
  pose proof (ParseParameterHelper_error mkey ""
                (ReadParameter params mkey "").2) as He.
  destruct (ParseParameterHelper _ _ _) as [[[e|] k] v]; [|done].
  by destruct He as (? & _ & _).
Qed.

(** C8: [ParseParameterHelper] lowercases the value and then accepts it
    exactly when it lies in the domain of its key: all digits for the
    thread-count key, yes/no for the boolean key, yes/numa/no for the
    tri-state key, all digits or auto/numa for the throughput key; no
    value is accepted for an unrecognised key.  A rejection is an
    invalid-argument error that leaves the engine key untouched, and
    [ParseParameter] then adds no entry to the device option map. *)
Theorem ParseParameterHelper_value_domains (mkey ov_key value : string)
    (params device_config : gmap string string) :
  ParseParameterHelper mkey ov_key value =
    ParseParameterHelper mkey ov_key (transform tolower value) /\
  ((ParseParameterHelper mkey ov_key value).1.1 = None <->
   value_in_domain mkey (transform tolower value)) /\
  match ParseParameterHelper mkey ov_key value with
  | (Some e, k, _) =>
      ErrorCode e = TRITONSERVER_ERROR_INVALID_ARG /\ k = ov_key
  | (None, _, _) => True
  end /\
  ((ParseParameter mkey params device_config).1 = None <->
   (default ""%string (params !! mkey) = ""%string \/
    value_in_domain mkey
      (transform tolower (default ""%string (params !! mkey))))) /\
  match ParseParameter mkey params device_config with
  | (Some e, device_config') =>
      ErrorCode e = TRITONSERVER_ERROR_INVALID_ARG /\
      device_config' = device_config
  | (None, _) => True
  end.
Proof.
  split; [apply ParseParameterHelper_lowercases|].
  split; [apply ParseParameterHelper_status|].
  split.
  - pose proof (ParseParameterHelper_error mkey ov_key value) as He.
    destruct (ParseParameterHelper mkey ov_key value) as [[[e|] k] v]; [|done].
    by destruct He as (? & ? & _).
  - split; [apply ParseParameter_status|apply ParseParameter_error_keeps_map].
Qed.

(** C9: [ParseBoolParameter] never reports an error; the flag becomes
    true when the lowercased value of the key is "yes" and keeps its
    previous value for every other value and for an absent key. *)
Theorem ParseBoolParameter_never_fails (mkey : string)
    (params : gmap string string) (setting : bool) :
  (ParseBoolParameter mkey params setting).1 = None /\
  (ParseBoolParameter mkey params setting).2 =
    if decide (transform tolower (default ""%string (params !! mkey)) =
               "yes"%string)
    then true else setting.
Proof.
  split; [reflexivity|].
  unfold ParseBoolParameter, ReadParameter. simpl.
  destruct (params !! mkey) as [value|]; simpl.
  - destruct (String.eqb_spec (transform tolower value) "yes");
      case_decide; done.
  - reflexivity.
Qed.

(** ** The model binder *)

Section BinderProperties.
Context {engine : OpenVINO} {marshalling : Marshalling}
  {repository : Repository}.

Lemma ReadNetwork_more_than_once (artifact model_path : string)
    (ms : ModelState) :
  network_read_ ms = true ->
  ReadNetwork artifact model_path ms =
    (Some (TRITONSERVER_ErrorNew TRITONSERVER_ERROR_INTERNAL
             ("attempt to read model at '" +:+ model_path +:+
              "' more than once")),
     model_path, ms).
Proof. intros Hread. unfold ReadNetwork, NetworkNotRead. by rewrite Hread. Qed.

Lemma LoadNetwork_more_than_once (device : string)
    (network_config : gmap string (gmap string string)) (ms : ModelState) :
  is_Some (executable_network_ ms !! device) ->
  LoadNetwork device network_config ms =
    (Returned
       (Some (TRITONSERVER_ErrorNew TRITONSERVER_ERROR_INTERNAL
                ("attempt to load model '" +:+ Name ms +:+ "' on device '" +:+
                 device +:+ "' more than once"))),
     ms).
Proof.
  intros [compiled Hc]. unfold LoadNetwork, NetworkNotLoaded. by rewrite Hc.
Qed.

(** Constructing an instance on a binder that is read and loaded only
    creates an execution request. *)
Lemma construction_on_loaded_binder (instance artifact : string)
    (ms : ModelState) (compiled : CompiledModel) :
  network_read_ ms = true ->
  executable_network_ ms !! "CPU"%string = Some compiled ->
  ModelInstanceState_new instance TRITONSERVER_INSTANCEGROUPKIND_CPU
    artifact ms =
  (match ov_create_infer_request (core ms) compiled with
   | inl what =>
       BackendModelInstanceException
         (openvino_error "creating infer request object" what)
   | inr r =>
       Constructed
         {| instance_name := instance; model_path_ := "";
            device_ := "CPU"; infer_request_ := r;
            name_node_map_ := name_node_map ms; batch_pad_size_ := 0 |}
   end,
   set_core (create_infer_request "CPU" :: core ms) ms).
Proof.
  intros Hread Hloaded.
  unfold ModelInstanceState_new, NetworkNotRead, NetworkNotLoaded,
    CreateInferRequest.
  cbv zeta. rewrite Hread. simpl. rewrite Hloaded. simpl.
  rewrite ?Hloaded. simpl.
  by destruct (ov_create_infer_request (core ms) compiled).
Qed.

Lemma set_properties_nil_config (ms : ModelState) :
  set_properties (in_key_order (∅ : gmap string (gmap string string))) ms =
  (None, ms).
Proof. reflexivity. Qed.

Lemma same_binding_trans (ms1 ms2 ms3 : ModelState) :
  same_binding ms1 ms2 -> same_binding ms2 ms3 -> same_binding ms1 ms3.
Proof.
  unfold same_binding. intros (-> & -> & ->) (-> & -> & ->). done.
Qed.

Lemma parse_into_config_binding (mkey device : string)
    (params : gmap string string) (ms : ModelState) :
  same_binding ms (parse_into_config mkey device params ms).2.
Proof.
  unfold parse_into_config. by destruct (ParseParameter _ _ _).
Qed.

Lemma ParseParameters_device_binding (device : string) (ms : ModelState) :
  same_binding ms (ParseParameters_device device ms).2.
Proof.
  unfold ParseParameters_device.
  destruct (model_parameters ms) as [params|]; [|done].
  destruct (String.eqb device "CPU"); [|done].
  set (ms0 := set_config _ ms).
  assert (H0 : same_binding ms ms0) by done. revert H0. generalize ms0.
  intros ms1 H1.
  pose proof (parse_into_config_binding "CPU_THREADS_NUM" device params ms1)
    as H2.
  destruct (parse_into_config "CPU_THREADS_NUM" device params ms1)
    as [[e|] ms2]; simpl in H2; [by eapply same_binding_trans|].
  pose proof (parse_into_config_binding "ENFORCE_BF16" device params ms2)
    as H3.
  destruct (parse_into_config "ENFORCE_BF16" device params ms2)
    as [[e|] ms3]; simpl in H3;
    [eauto using same_binding_trans|].
  pose proof (parse_into_config_binding "CPU_BIND_THREAD" device params ms3)
    as H4.
  destruct (parse_into_config "CPU_BIND_THREAD" device params ms3)
    as [[e|] ms4]; simpl in H4;
    [eauto using same_binding_trans|].
  pose proof (parse_into_config_binding "CPU_THROUGHPUT_STREAMS" device
                params ms4) as H5.
  eauto using same_binding_trans.
Qed.

Lemma configure_items_binding (items : list (string * gmap string string))
    (ms : ModelState) :
  same_binding ms (configure_items items ms).2.
Proof.
  revert ms. induction items as [|[device properties] items IH]; intros ms;
    simpl; [done|].
  destruct (ov_set_property _ _ _); [done|].
  eapply same_binding_trans; [|apply IH]. done.
Qed.

Lemma ReadNetwork_success (artifact model_path model_path' : string)
    (ms ms' : ModelState) :
  ReadNetwork artifact model_path ms = (None, model_path', ms') ->
  network_read_ ms' = true.
Proof.
  unfold ReadNetwork.
  destruct (negb (NetworkNotRead ms)); [intros [=]|].
  destruct (FileExists _) as [?|[]]; try (intros [=]; fail).
  destruct (ov_read_model _ _); intros [=]; by subst.
Qed.

Lemma LoadNetwork_success (device : string) (ms ms' : ModelState) :
  LoadNetwork device ∅ ms = (Returned None, ms') ->
  network_read_ ms' = network_read_ ms /\
  is_Some (executable_network_ ms' !! device).
Proof.
  unfold LoadNetwork.
  destruct (negb (NetworkNotLoaded ms device)); [intros [=]|].
  rewrite set_properties_nil_config.
  destruct (ov_compile_model _ _ _) as [?|compiled]; intros [=]; subst ms'.
  split; [done|]. cbn -[foldl]. rewrite lookup_insert_eq. by eexists.
Qed.

Lemma CreateInferRequest_loaded (device : string) (ms : ModelState) :
  is_Some (executable_network_ ms !! device) ->
  same_binding ms (CreateInferRequest device ms).2.
Proof.
  intros [compiled Hc]. unfold CreateInferRequest. rewrite Hc.
  by destruct (ov_create_infer_request _ _).
Qed.

(** A construction that succeeds leaves the binder read and loaded, and
    the instance holds the binder's name-to-node map and a zero pad. *)
Lemma construction_loads_binder (instance artifact : string)
    (kind : TRITONSERVER_InstanceGroupKind)
    (ms ms' : ModelState) (st : ModelInstanceState) :
  ModelInstanceState_new instance kind artifact ms = (Constructed st, ms') ->
  network_read_ ms' = true /\
  is_Some (executable_network_ ms' !! "CPU"%string) /\
  name_node_map_ st = name_node_map ms' /\
  batch_pad_size_ st = 0.
Proof.
  unfold ModelInstanceState_new. cbv zeta.
  destruct kind; try (intros [=]; fail).
  (* the model is read when the first block is left without an error *)
  assert (Hfirst : forall s path ms1,
    (if NetworkNotRead ms
     then match ParseParameters ms with
          | (Some err, ms0) => (Some err, ""%string, ms0)
          | (None, ms0) =>
              match ReadNetwork artifact "" ms0 with
              | (Some err, model_path, ms2) => (Some err, model_path, ms2)
              | (None, model_path, ms2) =>
                  (ValidateConfigureNetwork ms2, model_path, ms2)
              end
          end
     else (None, ""%string, ms)) = (s, path, ms1) ->
    s = None -> network_read_ ms1 = true).
  { intros s path ms1. unfold NetworkNotRead.
    destruct (network_read_ ms) eqn:Hr; simpl.
    - intros [=]; by subst.
    - destruct (ParseParameters ms) as [[e|] ms0]; [by intros [=]; subst|].
      destruct (ReadNetwork artifact "" ms0) as [[[e|] p] ms2] eqn:Hrn;
        [by intros [=]; subst|].
      intros [=] _; subst. by eapply ReadNetwork_success. }
  destruct (if NetworkNotRead ms then _ else _) as [[s path] ms1] eqn:H1.
  specialize (Hfirst _ _ _ eq_refl).
  destruct s as [e|]; [intros [=]|]. specialize (Hfirst eq_refl).
  (* the model is loaded when the second block is left without an error *)
  assert (Hsecond : forall ms2,
    (if NetworkNotLoaded ms1 "CPU"
     then match ParseParameters_device "CPU" ms1 with
          | (Some err, ms0) => (Returned (Some err), ms0)
          | (None, ms0) =>
              match ConfigureInferenceEngine ms0 with
              | (Some err, ms3) => (Returned (Some err), ms3)
              | (None, ms3) => LoadNetwork "CPU" ∅ ms3
              end
          end
     else (Returned None, ms1)) = (Returned None, ms2) ->
    network_read_ ms2 = true /\
    is_Some (executable_network_ ms2 !! "CPU"%string)).
  { intros ms2. unfold NetworkNotLoaded.
    destruct (executable_network_ ms1 !! "CPU"%string) eqn:Hl.
    - intros [=]; subst. split; [done|by eexists].
    - pose proof (ParseParameters_device_binding "CPU" ms1) as Hb1.
      destruct (ParseParameters_device "CPU" ms1) as [[e|] ms0];
        [intros [=]|]. simpl in Hb1.
      pose proof (configure_items_binding (in_key_order (config_ ms0)) ms0)
        as Hb2. fold (ConfigureInferenceEngine ms0) in Hb2.
      destruct (ConfigureInferenceEngine ms0) as [[e|] ms3]; [intros [=]|].
      simpl in Hb2. intros Hload.
      apply LoadNetwork_success in Hload as [Hr Hs]. split; [|done].
      destruct Hb1 as (Hb1 & _), Hb2 as (Hb2 & _). congruence. }
  destruct (if NetworkNotLoaded ms1 "CPU" then _ else _)
    as [[[e|]|what] ms2] eqn:H2; try (intros [=]; fail).
  destruct (Hsecond _ eq_refl) as [Hread Hloaded].
  pose proof (CreateInferRequest_loaded "CPU" ms2 Hloaded) as Hb.
  destruct (CreateInferRequest "CPU" ms2) as [[e|r] ms3]; [intros [=]|].
  simpl in Hb. destruct Hb as (Hb1 & Hb2 & Hb3).
  intros [=]; subst st ms'. simpl.
  rewrite Hb1, Hb2. done.
Qed.

(** C7: once a first instance has been constructed, constructing a
    second one for the same model only creates an execution request: the
    engine is asked neither to read nor to compile the model again, the
    binder is otherwise left as it was, and the second instance observes
    the name-to-node map of the first.  A direct repeated [ReadNetwork],
    and a [LoadNetwork] for the loaded device, return the internal
    "more than once" error and leave the binder as it was. *)
Theorem second_instance_reuses_binder (i1 i2 a1 a2 : string)
    (ms0 ms1 : ModelState) (st1 : ModelInstanceState) :
  ModelInstanceState_new i1 TRITONSERVER_INSTANCEGROUPKIND_CPU a1 ms0 =
    (Constructed st1, ms1) ->
  (let '(c2, ms2) :=
     ModelInstanceState_new i2 TRITONSERVER_INSTANCEGROUPKIND_CPU a2 ms1 in
   ms2 = set_core (create_infer_request "CPU" :: core ms1) ms1 /\
   match c2 with
   | Constructed st2 => name_node_map_ st2 = name_node_map_ st1
   | BackendModelInstanceException _ => True
   | EngineException _ => False
   end) /\
  (forall artifact model_path,
     ReadNetwork artifact model_path ms1 =
       (Some (TRITONSERVER_ErrorNew TRITONSERVER_ERROR_INTERNAL
                ("attempt to read model at '" +:+ model_path +:+
                 "' more than once")),
        model_path, ms1)) /\
  (forall network_config,
     LoadNetwork "CPU" network_config ms1 =
       (Returned
          (Some (TRITONSERVER_ErrorNew TRITONSERVER_ERROR_INTERNAL
                   ("attempt to load model '" +:+ Name ms1 +:+
                    "' on device '" +:+ "CPU" +:+ "' more than once"))),
        ms1)).
Proof.
  intros Hfirst.
  apply construction_loads_binder in Hfirst
    as (Hread & [compiled Hloaded] & Hmap & _).
  split; [|split].
  - rewrite (construction_on_loaded_binder i2 a2 ms1 compiled Hread Hloaded).
    split; [done|].
    by destruct (ov_create_infer_request (core ms1) compiled).
  - intros. by apply ReadNetwork_more_than_once.
  - intros. apply LoadNetwork_more_than_once. by eexists.
Qed.

End BinderProperties.

(** ** The execution path *)

Section ExecutionProperties.
Context {engine : OpenVINO} {marshalling : Marshalling}
  {repository : Repository}.

Lemma to_size_t_add_l (a b : Z) :
  to_size_t (to_size_t a + b) = to_size_t (a + b).
Proof. unfold to_size_t, SIZE_MAX1. by rewrite Zplus_mod_idemp_l. Qed.

Lemma to_size_t_small (z : Z) : 0 <= z < SIZE_MAX1 -> to_size_t z = z.
Proof. intros. unfold to_size_t. by apply Z.mod_small. Qed.


(** [ReadOutputTensors] hands every output to the responder as the
    engine returned it and reports no error of its own. *)
Lemma ReadOutputTensors_reports_no_error (st : ModelInstanceState)
    (output_names : list string) (e : TRITONSERVER_Error) :
  (ReadOutputTensors st output_names).1 <> Returned (Some e).
Proof.
  induction output_names as [|name names IH]; simpl; [done|].
  destruct (output_tensors (infer_request_ st) !! name); [|done].
  by destruct (ReadOutputTensors st names).
Qed.

(** Without batching every request adds one to the total and nothing
    else changes. *)
Lemma collect_without_batching (ms : ModelState) (requests : list Request)
    (f : Frame) (st : ModelInstanceState) :
  MaxBatchSize ms <= 0 ->
  foldl (collect_batch_size ms) (f, st) requests =
  (match requests with
   | [] => f
   | _ => set_total
            (to_size_t (total_batch_size f + Z.of_nat (length requests))) f
   end, st).
Proof.
  intros HM. revert f.
  induction requests as [|q qs IH]; intros f; [done|].
  cbn [foldl]. unfold collect_batch_size at 2.
  destruct (Z.ltb_spec 0 (MaxBatchSize ms)) as [?|_]; [lia|].
  rewrite IH. destruct qs as [|q' qs]; cbn [length].
  - done.
  - unfold set_total; cbn. f_equal. f_equal.
    rewrite to_size_t_add_l. f_equal. lia.
Qed.

(** C2 (as amended): for a model with max batch size 0 and a call with
    R requests, the total batch size is exactly R and neither the
    padding logic nor the batch-size-mismatch error is triggered: the
    aggregation sends nothing and leaves the instance, and so its pad
    size, as it was.  The check that follows raises the batch-size-exceeded
    error exactly when R is not 1: a model that does not batch takes one
    request per call. *)
Theorem no_batching_total_is_request_count (ms : ModelState)
    (st : ModelInstanceState) (requests : list Request) :
  MaxBatchSize ms = 0 ->
  (1 <= length requests)%nat ->
  Z.of_nat (length requests) < 2 ^ 32 ->
  aggregate ms st requests =
    ({| total_batch_size := Z.of_nat (length requests);
        all_response_failed := false;
        responses := map response_new requests;
        events := [] |}, st) /\
  check_max_batch_size ms st (aggregate ms st requests).1 =
    if decide (length requests = 1%nat)
    then (aggregate ms st requests).1
    else RESPOND_ALL_AND_SET_TRUE_IF_ERROR (aggregate ms st requests).1
           (Some (batch_size_exceeded (instance_name st) 0
                    (Z.of_nat (length requests)))).
Proof.
  intros HM HR1 HR2.
  assert (Hagg : aggregate ms st requests =
    ({| total_batch_size := Z.of_nat (length requests);
        all_response_failed := false;
        responses := map response_new requests;
        events := [] |}, st)).
  { unfold aggregate. rewrite collect_without_batching by lia.
    destruct requests as [|q qs]; [simpl in HR1; lia|].
    unfold set_total. cbn -[length Z.of_nat]. f_equal. f_equal.
    apply to_size_t_small. unfold SIZE_MAX1. lia. }
  split; [done|]. rewrite Hagg. unfold check_max_batch_size. cbn.
  rewrite HM. change (to_size_t 0) with 0.
  case_decide as Hlen.
  - rewrite Hlen. done.
  - destruct (Z.eqb_spec (Z.of_nat (length requests)) 1) as [?|_]; [lia|].
    destruct (Z.ltb_spec 0 (Z.of_nat (length requests))) as [_|?]; [|lia].
    done.
Qed.

(** *** The tensor marshaller *)




(** *** The batch aggregator *)




(** One iteration touches nothing of the instance but its pad size, and
    assigns the pad size only on a batching model, from a running total
    that differs from the maximum batch size. *)
Lemma collect_batch_size_pad (ms : ModelState) (f : Frame)
    (st : ModelInstanceState) (request : Request) :
  let '(f', st') := collect_batch_size ms (f, st) request in
  st' = st \/
  (0 < MaxBatchSize ms /\ EnableBatchPadding ms = true /\
   total_batch_size f' <> to_size_t (MaxBatchSize ms) /\
   st' = set_batch_pad_size
           (to_size_t (MaxBatchSize ms - total_batch_size f')) st).
Proof.
  unfold collect_batch_size.
  destruct (Z.ltb_spec 0 (MaxBatchSize ms)) as [HM|HM]; [|by left].
  set (f1 := match RequestInputByIndex request 0 with
             | inl err => _
             | inr input => _
             end).
  destruct (negb (all_response_failed f1)); [|by left].
  destruct (Z.eqb_spec (total_batch_size f1) (to_size_t (MaxBatchSize ms)))
    as [Heq|Hne]; cbn [negb]; [by left|].
  destruct (EnableBatchPadding ms) eqn:Hpad; [|by left].
  right. done.
Qed.










(** *** The pad size across calls *)

Lemma collect_batch_size_total (ms : ModelState) (f : Frame)
    (st : ModelInstanceState) (request : Request) :
  0 < MaxBatchSize ms ->
  total_batch_size (collect_batch_size ms (f, st) request).1 =
  match leading_dimension request with
  | Some d => to_size_t (total_batch_size f + d)
  | None => total_batch_size f
  end.
Proof.
  intros HM. unfold collect_batch_size, leading_dimension.
  destruct (Z.ltb_spec 0 (MaxBatchSize ms)) as [_|?]; [|lia].
  destruct (RequestInputByIndex request 0) as [err|input];
    repeat (match goal with
            | |- context [if ?b then _ else _] => destruct b
            end); done.
Qed.

(** The pad size after the aggregation is the pad size before it, or the
    shortfall of one of the running totals that differ from the maximum
    batch size. *)
Lemma aggregate_pad_cases (ms : ModelState) (requests : list Request)
    (f : Frame) (st : ModelInstanceState) :
  batch_pad_size_ (foldl (collect_batch_size ms) (f, st) requests).2 =
    batch_pad_size_ st \/
  (0 < MaxBatchSize ms /\ EnableBatchPadding ms = true /\
   exists t, t ∈ running_totals (total_batch_size f) requests /\
     t <> to_size_t (MaxBatchSize ms) /\
     batch_pad_size_ (foldl (collect_batch_size ms) (f, st) requests).2 =
       to_size_t (MaxBatchSize ms - t)).
Proof.
  revert f st. induction requests as [|q qs IH]; intros f st; [by left|].
  cbn [foldl running_totals].
  pose proof (collect_batch_size_pad ms f st q) as Hstep.
  destruct (Z.ltb_spec 0 (MaxBatchSize ms)) as [HM|HM].
  - pose proof (collect_batch_size_total ms f st q HM) as Htotal.
    destruct (collect_batch_size ms (f, st) q) as [f1 st1].
    cbn [fst] in Htotal. rewrite <- Htotal.
    destruct (IH f1 st1) as [Hsame|(_ & Hpad & t & Ht & Hne & Heq)].
    + rewrite Hsame.
      destruct Hstep as [->|(_ & Hpad & Hne & ->)]; [by left|].
      right. repeat split; try done.
      exists (total_batch_size f1). repeat split; try done. by left.
    + right. repeat split; try done.
      exists t. repeat split; try done. by right.
  - left.
    change (foldl (collect_batch_size ms) (collect_batch_size ms (f, st) q) qs)
      with (foldl (collect_batch_size ms) (f, st) (q :: qs)).
    by rewrite (collect_without_batching ms (q :: qs) f st HM).
Qed.

Lemma set_input_tensors_loop_pad (ms : ModelState) (total : Z)
    (requests : list Request) (inputs : list Input)
    (st : ModelInstanceState) (names : list string) :
  batch_pad_size_
    (set_input_tensors_loop ms total requests inputs st names).1.2 =
  batch_pad_size_ st.
Proof.
  revert st names. induction inputs as [|input inputs IH]; intros st names;
    [done|].
  cbn [set_input_tensors_loop].
  assert (Hstep : batch_pad_size_
            (set_input_tensor_step ms total requests input st names).1.2 =
          batch_pad_size_ st).
  { unfold set_input_tensor_step.
    repeat (match goal with
            | |- context [match ?x with _ => _ end] => destruct x
            end); done. }
  destruct (set_input_tensor_step ms total requests input st names)
    as [[[[e|]|what] st1] names1]; cbn [fst snd] in *; try done.
  by rewrite IH.
Qed.

Lemma marshal_pad (ms : ModelState) (st : ModelInstanceState) (f : Frame)
    (requests : list Request) :
  batch_pad_size_ (marshal ms st f requests).1.2 = batch_pad_size_ st.
Proof.
  unfold marshal, SetInputTensors.
  destruct (negb (all_response_failed f)); [|done].
  destruct requests; [done|]. apply set_input_tensors_loop_pad.
Qed.

Lemma complete_pad (ms : ModelState) (f : Frame) (requests : list Request)
    (o : Outcome Status) (st : ModelInstanceState) (names : list string) :
  batch_pad_size_ (complete ms f requests (o, st, names)).1.2 =
  batch_pad_size_ st.
Proof.
  unfold complete. destruct o as [s|what]; [|done].
  assert (HInfer : batch_pad_size_ (Infer st).2 = batch_pad_size_ st).
  { unfold Infer. by destruct (ov_infer _). }
  destruct (negb (all_response_failed _)).
  - destruct (Infer st) as [s' st']. cbn [snd] in HInfer.
    by destruct (if negb _ then _ else _) as [[?|?] ?].
  - by destruct (if negb _ then _ else _) as [[?|?] ?].
Qed.

(** Nothing after the aggregation touches the pad size. *)
Lemma process_non_null_pad (ms : ModelState) (st : ModelInstanceState)
    (requests : list Request) :
  batch_pad_size_ (process_non_null ms st requests).1.2 =
  batch_pad_size_ (aggregate ms st requests).2.
Proof.
  unfold process_non_null.
  destruct (aggregate ms st requests) as [f st1].
  destruct (total_batch_size f =? 0); [done|].
  pose proof (marshal_pad ms st1
                (set_batch ms (check_max_batch_size ms st1 f)) requests) as Hm.
  destruct (marshal ms st1 _ requests) as [[o st2] names].
  rewrite complete_pad. done.
Qed.

(** C10 (as amended): the pad size is 0 after construction; one
    iteration of the aggregation assigns it only on a batching model and
    only from a running total that differs from the maximum batch size;
    nothing else in an execution call assigns it, so after a call it is
    the value it had before the call or the shortfall of one of the
    running totals of the call.  In particular a call in which the running
    total equals the maximum batch size after every request, such as a
    single request of full batch size, leaves the pad size of an earlier
    call in place: it is not reset at the start of a call. *)
Theorem batch_pad_size_persists :
  (forall instance kind artifact (ms ms' : ModelState)
      (st : ModelInstanceState),
     ModelInstanceState_new instance kind artifact ms = (Constructed st, ms') ->
     batch_pad_size_ st = 0) /\
  (forall (ms : ModelState) f (st : ModelInstanceState) request,
     let '(f', st') := collect_batch_size ms (f, st) request in
     st' = st \/
     (0 < MaxBatchSize ms /\
      total_batch_size f' <> to_size_t (MaxBatchSize ms) /\
      st' = set_batch_pad_size
              (to_size_t (MaxBatchSize ms - total_batch_size f')) st)) /\
  (forall (ms : ModelState) (st : ModelInstanceState) requests,
     batch_pad_size_ (process_non_null ms st requests).1.2 =
       batch_pad_size_ st \/
     (0 < MaxBatchSize ms /\
      exists t, t ∈ running_totals 0 requests /\
        t <> to_size_t (MaxBatchSize ms) /\
        batch_pad_size_ (process_non_null ms st requests).1.2 =
          to_size_t (MaxBatchSize ms - t))) /\
  (forall (ms : ModelState) (st : ModelInstanceState) requests,
     Forall (fun t => t = to_size_t (MaxBatchSize ms))
       (running_totals 0 requests) ->
     batch_pad_size_ (process_non_null ms st requests).1.2 =
       batch_pad_size_ st).
Proof.
  assert (Hcall : forall (ms : ModelState) (st : ModelInstanceState) requests,
     batch_pad_size_ (process_non_null ms st requests).1.2 =
       batch_pad_size_ st \/
     (0 < MaxBatchSize ms /\
      exists t, t ∈ running_totals 0 requests /\
        t <> to_size_t (MaxBatchSize ms) /\
        batch_pad_size_ (process_non_null ms st requests).1.2 =
          to_size_t (MaxBatchSize ms - t))).
  { intros ms st requests. rewrite process_non_null_pad. unfold aggregate.
    destruct (aggregate_pad_cases ms requests
                {| total_batch_size := 0; all_response_failed := false;
                   responses := map response_new requests; events := [] |} st)
      as [Hsame|(HM & _ & t & Ht & Hne & Heq)]; [by left|].
    right. split; [done|]. by exists t. }
  repeat split.
  - intros instance kind artifact ms ms' st Hnew.
    by apply construction_loads_binder in Hnew as (_ & _ & _ & ?).
  - intros ms f st request.
    pose proof (collect_batch_size_pad ms f st request) as Hstep.
    destruct (collect_batch_size ms (f, st) request) as [f' st'].
    destruct Hstep as [?|(? & _ & ? & ?)]; [by left|by right].
  - apply Hcall.
  - intros ms st requests Hall.
    destruct (Hcall ms st requests) as [?|(_ & t & Ht & Hne & _)]; [done|].
    rewrite Forall_forall in Hall. by apply Hall in Ht.
Qed.

(** *** What a call sends, reports and releases *)

Lemma send_all_is_send (s : Status) (rs : list bool) :
  Forall is_send (send_all s rs).
Proof.
  apply Forall_forall. intros e He. unfold send_all in He.
  apply list_elem_of_join in He as (l & He & Hl).
  apply elem_of_lookup_imap in Hl as (i & live & -> & _).
  destruct live; [|by apply elem_of_nil in He].
  apply list_elem_of_singleton in He as ->. done.
Qed.

Lemma is_send_quiet (es : list Event) : Forall is_send es -> Forall quiet es.
Proof. intros Hes. eapply Forall_impl; [exact Hes|]. by intros []. Qed.

Lemma respond_is_send (f : Frame) (s : Status) :
  Forall is_send (events f) ->
  Forall is_send (events (RESPOND_ALL_AND_SET_TRUE_IF_ERROR f s)).
Proof.
  intros Hf. destruct s as [e|]; [|done]. cbn.
  apply Forall_app. split; [done|apply send_all_is_send].
Qed.

Lemma respond_quiet (f : Frame) (s : Status) :
  Forall quiet (events f) ->
  Forall quiet (events (RESPOND_ALL_AND_SET_TRUE_IF_ERROR f s)).
Proof.
  intros Hf. destruct s as [e|]; [|done]. cbn.
  apply Forall_app. split; [done|].
  apply is_send_quiet, send_all_is_send.
Qed.

Lemma collect_batch_size_is_send (ms : ModelState) (f : Frame)
    (st : ModelInstanceState) (request : Request) :
  Forall is_send (events f) ->
  Forall is_send (events (collect_batch_size ms (f, st) request).1).
Proof.
  intros Hf. unfold collect_batch_size.
  destruct (0 <? MaxBatchSize ms); [|done].
  set (f1 := match RequestInputByIndex request 0 with
             | inl err => _
             | inr input => _
             end).
  assert (H1 : Forall is_send (events f1)).
  { subst f1. destruct (RequestInputByIndex request 0); [|done].
    by apply respond_is_send. }
  clearbody f1.
  destruct (negb (all_response_failed f1)); [|done].
  destruct (negb (_ =? _)); [|done].
  destruct (EnableBatchPadding ms); [done|].
  by apply respond_is_send.
Qed.

Lemma collect_loop_is_send (ms : ModelState) (requests : list Request)
    (f : Frame) (st : ModelInstanceState) :
  Forall is_send (events f) ->
  Forall is_send (events (foldl (collect_batch_size ms) (f, st) requests).1).
Proof.
  revert f st. induction requests as [|q qs IH]; intros f st Hf; [done|].
  cbn [foldl].
  pose proof (collect_batch_size_is_send ms f st q Hf) as H1.
  destruct (collect_batch_size ms (f, st) q) as [f1 st1]. by apply IH.
Qed.

Lemma aggregate_is_send (ms : ModelState) (st : ModelInstanceState)
    (requests : list Request) :
  Forall is_send (events (aggregate ms st requests).1).
Proof. unfold aggregate. by apply collect_loop_is_send. Qed.

Lemma check_max_batch_size_is_send (ms : ModelState)
    (st : ModelInstanceState) (f : Frame) :
  Forall is_send (events f) ->
  Forall is_send (events (set_batch ms (check_max_batch_size ms st f))).
Proof.
  intros Hf. unfold set_batch, check_max_batch_size.
  repeat (match goal with
          | |- context [if ?b then _ else _] => destruct b
          end); repeat apply respond_is_send; done.
Qed.

Lemma ReadOutputTensors_quiet (st : ModelInstanceState)
    (output_names : list string) :
  Forall quiet (ReadOutputTensors st output_names).2.
Proof.
  induction output_names as [|name names IH]; cbn; [done|].
  destruct (output_tensors (infer_request_ st) !! name); [|done].
  destruct (ReadOutputTensors st names) as [o es]. by constructor.
Qed.

Lemma released_app (es1 es2 : list Event) :
  released (es1 ++ es2) = released es1 ++ released es2.
Proof. apply omap_app. Qed.

Lemma reported_app (es1 es2 : list Event) :
  reported (es1 ++ es2) = reported es1 ++ reported es2.
Proof. apply omap_app. Qed.

Lemma quiet_released (es : list Event) :
  Forall quiet es -> released es = [] /\ reported es = [].
Proof.
  induction 1 as [|e es He Hes [IH1 IH2]]; [done|].
  destruct e; cbn in *; done.
Qed.

Lemma mjoin_cons {A : Type} (l : list A) (ls : list (list A)) :
  mjoin (l :: ls) = l ++ mjoin ls.
Proof. reflexivity. Qed.

Lemma report_and_release_all (rs : list bool) (request_count : nat) :
  released (report_and_release rs request_count) = seq 0 request_count /\
  reported (report_and_release rs request_count) = seq 0 request_count.
Proof.
  unfold report_and_release. generalize (seq 0 request_count). intros l.
  induction l as [|r l [IH1 IH2]]; [done|].
  cbn [map]. rewrite mjoin_cons, released_app, reported_app, IH1, IH2.
  done.
Qed.

(** A call that gets past the total-is-zero test and returns has reported
    statistics for, and released, every request exactly once, in index
    order, whatever failed on the way. *)
Lemma complete_releases_all (ms : ModelState) (f : Frame)
    (requests : list Request)
    (marshalled : Outcome Status * ModelInstanceState * list string) :
  Forall quiet (events f) ->
  (complete ms f requests marshalled).1.1 = Returned () ->
  released (complete ms f requests marshalled).2 = seq 0 (length requests) /\
  reported (complete ms f requests marshalled).2 = seq 0 (length requests).
Proof.
  intros Hf. unfold complete.
  destruct marshalled as [[[s|what] st] names]; [|done].
  set (f1 := RESPOND_ALL_AND_SET_TRUE_IF_ERROR f s).
  assert (H1 : Forall quiet (events f1)) by by apply respond_quiet.
  clearbody f1.
  set (names' := if negb (all_response_failed f1)
                then match model_outputs ms with
                     | Some ios => _
                     | None => _
                     end
                else []).
  clearbody names'.
  set (run := if negb (all_response_failed f1) then _ else _).
  assert (H2 : Forall quiet (events run.1)).
  { subst run. destruct (negb (all_response_failed f1)); [|done].
    destruct (Infer st) as [s' st']. cbn [fst]. apply respond_quiet.
    cbn. apply Forall_app. split; [done|]. by repeat constructor. }
  destruct run as [f2 st2]. cbn [fst] in H2.
  set (read := if negb (all_response_failed f2) then _ else _).
  assert (H3 : Forall quiet read.2).
  { subst read. destruct (negb (all_response_failed f2)); [|done].
    apply ReadOutputTensors_quiet. }
  destruct read as [[s'|what] es]; [|done]. cbn [snd] in H3.
  intros _.
  set (f3 := RESPOND_ALL_AND_SET_TRUE_IF_ERROR (log es f2) s').
  assert (H4 : Forall quiet (events f3)).
  { apply respond_quiet. cbn. by apply Forall_app. }
  clearbody f3.
  destruct (quiet_released _ H4) as [Hr4 Hp4].
  destruct (quiet_released _ (is_send_quiet _
              (send_all_is_send None (responses f3)))) as [Hrs Hps].
  destruct (report_and_release_all (responses f3) (length requests))
    as [Hrr Hpr].
  destruct (negb (all_response_failed _));
    cbn [log events responses fst snd];
    rewrite ?released_app, ?reported_app, Hr4, Hp4, Hrs, Hps, Hrr, Hpr;
    cbn; by rewrite ?app_nil_r.
Qed.

Lemma process_non_null_releases_all (ms : ModelState)
    (st : ModelInstanceState) (requests : list Request) :
  total_batch_size (aggregate ms st requests).1 <> 0 ->
  (process_non_null ms st requests).1.1 = Returned () ->
  released (process_non_null ms st requests).2 = seq 0 (length requests) /\
  reported (process_non_null ms st requests).2 = seq 0 (length requests).
Proof.
  unfold process_non_null.
  pose proof (aggregate_is_send ms st requests) as Hsend.
  destruct (aggregate ms st requests) as [f st1]. cbn [fst] in *.
  intros Hnz. destruct (Z.eqb_spec (total_batch_size f) 0); [done|].
  apply complete_releases_all.
  by apply is_send_quiet, check_max_batch_size_is_send.
Qed.

(** A call that leaves at the total-is-zero test has reported and
    released nothing. *)
Lemma process_non_null_zero_total (ms : ModelState)
    (st : ModelInstanceState) (requests : list Request) :
  total_batch_size (aggregate ms st requests).1 = 0 ->
  (process_non_null ms st requests).1.1 = Returned () /\
  released (process_non_null ms st requests).2 = [] /\
  reported (process_non_null ms st requests).2 = [].
Proof.
  unfold process_non_null.
  pose proof (aggregate_is_send ms st requests) as Hsend.
  destruct (aggregate ms st requests) as [f st1]. cbn [fst] in *.
  intros ->. cbn. split; [done|].
  by apply quiet_released, is_send_quiet.
Qed.

(** *** The batch-size check with padding disabled *)

Lemma collect_batch_size_failed (ms : ModelState) (f : Frame)
    (st : ModelInstanceState) (request : Request) (d : Z) :
  0 < MaxBatchSize ms ->
  all_response_failed f = true ->
  leading_dimension request = Some d ->
  collect_batch_size ms (f, st) request =
  (set_total (to_size_t (total_batch_size f + d)) f, st).
Proof.
  intros HM Hfailed Hd. unfold collect_batch_size, leading_dimension in *.
  destruct (Z.ltb_spec 0 (MaxBatchSize ms)) as [_|?]; [|lia].
  destruct (RequestInputByIndex request 0) as [err|input]; [done|].
  injection Hd as <-. cbn. by rewrite Hfailed.
Qed.

Lemma collect_loop_failed (ms : ModelState) (requests : list Request)
    (dims : list Z) (f : Frame) (st : ModelInstanceState) :
  0 < MaxBatchSize ms ->
  all_response_failed f = true ->
  Forall2 (fun q d => leading_dimension q = Some d) requests dims ->
  let r := foldl (collect_batch_size ms) (f, st) requests in
  all_response_failed r.1 = true /\ events r.1 = events f /\ r.2 = st.
Proof.
  intros HM Hfailed Hdims. revert f Hfailed.
  induction Hdims as [|q d qs ds Hd Hds IH]; intros f Hfailed; [done|].
  cbn [foldl]. rewrite (collect_batch_size_failed ms f st q d) by done.
  by apply (IH (set_total (to_size_t (total_batch_size f + d)) f)).
Qed.

Lemma collect_batch_size_no_padding (ms : ModelState) (f : Frame)
    (st : ModelInstanceState) (request : Request) (d : Z) :
  0 < MaxBatchSize ms ->
  EnableBatchPadding ms = false ->
  all_response_failed f = false ->
  leading_dimension request = Some d ->
  collect_batch_size ms (f, st) request =
  (let f1 := set_total (to_size_t (total_batch_size f + d)) f in
   if total_batch_size f1 =? to_size_t (MaxBatchSize ms) then f1
   else RESPOND_ALL_AND_SET_TRUE_IF_ERROR f1
          (Some (batch_size_mismatch (MaxBatchSize ms) (total_batch_size f1))),
   st).
Proof.
  intros HM Hpad Hok Hd. unfold collect_batch_size, leading_dimension in *.
  destruct (Z.ltb_spec 0 (MaxBatchSize ms)) as [_|?]; [|lia].
  destruct (RequestInputByIndex request 0) as [err|input]; [done|].
  injection Hd as <-. cbn. rewrite Hok, Hpad. cbn.
  by destruct (_ =? _).
Qed.

(** With padding disabled the aggregation fails the call at the first
    running total that differs from the maximum batch size, sending the
    batch-size-mismatch error for that running total to every live
    response; it succeeds when there is no such running total. *)
Lemma aggregate_without_padding (ms : ModelState) (requests : list Request)
    (dims : list Z) (f : Frame) (st : ModelInstanceState) :
  0 < MaxBatchSize ms ->
  EnableBatchPadding ms = false ->
  all_response_failed f = false ->
  Forall2 (fun q d => leading_dimension q = Some d) requests dims ->
  let r := foldl (collect_batch_size ms) (f, st) requests in
  r.2 = st /\
  match find (fun t => negb (t =? to_size_t (MaxBatchSize ms)))
          (running_totals (total_batch_size f) requests) with
  | Some t =>
      all_response_failed r.1 = true /\
      events r.1 =
        events f ++
        send_all (Some (batch_size_mismatch (MaxBatchSize ms) t)) (responses f)
  | None =>
      all_response_failed r.1 = false /\ events r.1 = events f /\
      responses r.1 = responses f
  end.
Proof.
  intros HM Hpad Hok Hdims. revert f Hok.
  induction Hdims as [|q d qs ds Hd Hds IH]; intros f Hok; [done|].
  cbn [foldl running_totals find]. rewrite Hd.
  rewrite (collect_batch_size_no_padding ms f st q d) by done.
  cbn [total_batch_size set_total].
  destruct (Z.eqb_spec (to_size_t (total_batch_size f + d))
              (to_size_t (MaxBatchSize ms))) as [Heq|Hne]; cbn [negb].
  - apply (IH (set_total (to_size_t (total_batch_size f + d)) f)). done.
  - destruct (collect_loop_failed ms qs ds
                (RESPOND_ALL_AND_SET_TRUE_IF_ERROR
                   (set_total (to_size_t (total_batch_size f + d)) f)
                   (Some (batch_size_mismatch (MaxBatchSize ms)
                            (to_size_t (total_batch_size f + d))))) st
                HM eq_refl Hds) as (H1 & H2 & H3).
    done.
Qed.

(** A call that failed during the aggregation never runs the engine. *)
Lemma failed_aggregation_skips_engine (ms : ModelState)
    (st : ModelInstanceState) (requests : list Request) :
  all_response_failed (aggregate ms st requests).1 = true ->
  Infer_called ∉ (process_non_null ms st requests).2.
Proof.
  unfold process_non_null.
  pose proof (aggregate_is_send ms st requests) as Hsend.
  destruct (aggregate ms st requests) as [f st1]. cbn [fst] in *.
  intros Hfailed.
  assert (Hsent : forall es, Forall is_send es -> Infer_called ∉ es).
  { intros es Hes Hin. rewrite Forall_forall in Hes. by apply Hes in Hin. }
  destruct (total_batch_size f =? 0); [by apply Hsent|].
  assert (Hchecks : set_batch ms (check_max_batch_size ms st1 f) = f).
  { unfold check_max_batch_size. rewrite Hfailed. cbn [negb].
    unfold set_batch. by rewrite Hfailed. }
  rewrite Hchecks. unfold marshal, complete. rewrite Hfailed. cbn.
  repeat first [rewrite Hfailed | progress cbn].
  rewrite ?app_nil_r, !not_elem_of_app. repeat split.
  - by apply Hsent.
  - apply Hsent, send_all_is_send.
  - unfold report_and_release. intros Hin.
    apply list_elem_of_join in Hin as (l & Hin & Hl).
    apply list_elem_of_fmap in Hl as (r & -> & _).
    apply elem_of_cons in Hin as [?|Hin]; [done|].
    apply elem_of_cons in Hin as [?|Hin]; [done|].
    by apply elem_of_nil in Hin.
Qed.

Lemma running_totals_last (requests : list Request) (dims : list Z)
    (total : Z) :
  Forall2 (fun q d => leading_dimension q = Some d) requests dims ->
  requests <> [] ->
  last (running_totals total requests) =
  Some (to_size_t (total + sum_dims dims)).
Proof.
  intros Hdims. revert total.
  induction Hdims as [|q d qs ds Hd Hds IH]; intros total Hne; [done|].
  cbn [running_totals]. rewrite Hd.
  destruct Hds as [|q' d' qs ds Hd' Hds].
  - cbn. do 2 f_equal. unfold sum_dims. cbn. lia.
  - rewrite last_cons, IH by done.
    rewrite to_size_t_add_l. do 2 f_equal. unfold sum_dims. cbn. lia.
Qed.

(** One direction of the batch-size check holds on the sum: with padding
    disabled, a call of at least one request whose leading dimensions do
    not sum to the maximum batch size is failed during the aggregation
    and never runs the engine. *)
Lemma sum_mismatch_fails_call (ms : ModelState) (st : ModelInstanceState)
    (requests : list Request) (dims : list Z) :
  0 < MaxBatchSize ms ->
  EnableBatchPadding ms = false ->
  Forall2 (fun q d => leading_dimension q = Some d) requests dims ->
  requests <> [] ->
  to_size_t (sum_dims dims) <> to_size_t (MaxBatchSize ms) ->
  all_response_failed (aggregate ms st requests).1 = true /\
  Infer_called ∉ (process_non_null ms st requests).2.
Proof.
  intros HM Hpad Hdims Hne Hsum.
  assert (Hfailed : all_response_failed (aggregate ms st requests).1 = true).
  { unfold aggregate.
    destruct (aggregate_without_padding ms requests dims
                {| total_batch_size := 0; all_response_failed := false;
                   responses := map response_new requests; events := [] |}
                st HM Hpad eq_refl Hdims) as [_ Hcases].
    cbn [total_batch_size] in Hcases.
    destruct (find _ (running_totals 0 requests)) as [t|] eqn:Hfind;
      [by destruct Hcases|].
    pose proof (running_totals_last requests dims 0 Hdims Hne) as Hlast.
    apply last_Some in Hlast as [l' Hl'].
    assert (Hin : In (to_size_t (0 + sum_dims dims))
                    (running_totals 0 requests)).
    { rewrite Hl'. apply in_or_app. right. by left. }
    apply (find_none _ _ Hfind) in Hin.
    apply negb_false_iff, Z.eqb_eq in Hin. by rewrite Z.add_0_l in Hin. }
  split; [done|]. by apply failed_aggregation_skips_engine.
Qed.

End ExecutionProperties.

(** ** The scenario, run on the concrete engine *)

Section Scenarios.
#[local] Existing Instance scenario_engine.
#[local] Existing Instance scenario_marshalling.
#[local] Existing Instance scenario_repository.

(** C1: with maximum batch size 2 and padding disabled, two requests of
    batch size 1 each sum to the maximum batch size, yet the call fails:
    the check runs inside the loop, on the running total 1 after the
    first request, so both responses carry the batch-size-mismatch error
    and the engine is not run. *)
Theorem full_batch_of_two_requests_is_rejected :
  EnableBatchPadding (scenario_model 2 false) = false /\
  sum_dims [1; 1] = MaxBatchSize (scenario_model 2 false) /\
  (ProcessRequests (scenario_model 2 false) (scenario_instance 0)
     [Some (scenario_input 1); Some (scenario_input 1)]).2 =
  [ResponseSend 0 (Some (batch_size_mismatch 2 1));
   ResponseSend 1 (Some (batch_size_mismatch 2 1));
   ModelInstanceReportStatistics 0 false; RequestRelease 0;
   ModelInstanceReportStatistics 1 false; RequestRelease 1].
Proof. repeat split; vm_compute; reflexivity. Qed.

(** The same batch in one request is accepted and run. *)
Lemma full_batch_in_one_request_is_run :
  (ProcessRequests (scenario_model 2 false) (scenario_instance 0)
     [Some (scenario_input 2)]).2 =
  [Infer_called; ResponderProcessTensor "Y" [2; 5]; ResponseSend 0 None;
   ModelInstanceReportStatistics 0 true; RequestRelease 0;
   ModelInstanceReportBatchStatistics 2].
Proof. vm_compute; reflexivity. Qed.

(** C2, counterexample: with max batch size 0, a call with two requests
    has total batch size 2 and is failed with the batch-size-exceeded
    error. *)
Lemma no_batching_two_requests_exceeded :
  MaxBatchSize (scenario_model 0 false) = 0 /\
  (ProcessRequests (scenario_model 0 false) (scenario_instance 0)
     [Some (scenario_input 1); Some (scenario_input 1)]).2 =
  [ResponseSend 0 (Some (batch_size_exceeded "scenario_0" 0 2));
   ResponseSend 1 (Some (batch_size_exceeded "scenario_0" 0 2));
   ModelInstanceReportStatistics 0 false; RequestRelease 0;
   ModelInstanceReportStatistics 1 false; RequestRelease 1].
Proof. split; vm_compute; reflexivity. Qed.

Lemma no_batching_total_is_request_count_witness :
  MaxBatchSize (scenario_model 0 false) = 0 /\
  (1 <= length [scenario_input 1; scenario_input 1])%nat /\
  Z.of_nat (length [scenario_input 1; scenario_input 1]) < 2 ^ 32 /\
  total_batch_size
    (aggregate (scenario_model 0 false) (scenario_instance 0)
       [scenario_input 1; scenario_input 1]).1 = 2.
Proof.
  assert (H1 : MaxBatchSize (scenario_model 0 false) = 0) by reflexivity.
  assert (H2 : (1 <= length [scenario_input 1; scenario_input 1])%nat)
    by (simpl; lia).
  assert (H3 : Z.of_nat (length [scenario_input 1; scenario_input 1]) < 2 ^ 32)
    by (simpl; lia).
  split; [exact H1|]. split; [exact H2|]. split; [exact H3|].
  destruct (no_batching_total_is_request_count (scenario_model 0 false)
              (scenario_instance 0) [scenario_input 1; scenario_input 1]
              H1 H2 H3) as [Hagg _].
  rewrite Hagg. reflexivity.
Defined.

(** C3: the output-reading step validates nothing.  With maximum batch
    size 4, padding disabled and pad size 0, a call with one request of
    four rows runs the engine, whose output "Y" has seven rows.  The
    output is handed to the responder with leading dimension 7, the
    response is sent without an error and the request and the batch are
    reported as successful, although 7 is not 4 - 0:
    [ValidateOutputBatchSize] rejects that shape, and no path of the call
    reaches it. *)
Theorem output_batch_size_is_not_validated :
  let ms := scenario_model 4 false in
  let run := ProcessRequests ms scenario_seven_rows_instance
               [Some (scenario_input 4)] in
  0 < MaxBatchSize ms /\
  MaxBatchSize ms - batch_pad_size_ scenario_seven_rows_instance = 4 /\
  run.1.1 = Returned () /\
  run.2 =
    [Infer_called; ResponderProcessTensor "Y" [7; 5]; ResponseSend 0 None;
     ModelInstanceReportStatistics 0 true; RequestRelease 0;
     ModelInstanceReportBatchStatistics 4] /\
  ValidateOutputBatchSize ms scenario_seven_rows_instance [7; 5] =
    (Some (TRITONSERVER_ErrorNew TRITONSERVER_ERROR_INTERNAL
             "expected the batch size of openvino model output to be 4, got 7"),
     [7; 5]).
Proof. vm_compute. repeat split; reflexivity. Qed.

(** With maximum batch size 4 and pad size 2, [ValidateOutputBatchSize]
    accepts an output whose leading dimension is 4, which is not 4 - 2
    (and rewrites its leading dimension to 2). *)
Lemma ValidateOutputBatchSize_accepts_full_batch :
  4 <> MaxBatchSize (scenario_model 4 true) -
       batch_pad_size_ (scenario_instance 2) /\
  ValidateOutputBatchSize (scenario_model 4 true) (scenario_instance 2) [4; 5] =
  (None, [2; 5]).
Proof. split; [vm_compute; discriminate|reflexivity]. Qed.


(** The output-reading step itself accepts an engine output of any
    leading dimension: here two rows, with maximum batch size 4 and pad
    size 0. *)
Lemma ReadOutputTensors_does_not_validate :
  ReadOutputTensors (scenario_instance 0) ["Y"%string] =
  (Returned None, [ResponderProcessTensor "Y" [2; 5]]).
Proof. reflexivity. Qed.

(** C4: with maximum batch size 2, a call with one request whose leading
    dimension is 0 has total batch size 0: the call returns at once,
    without reporting statistics for the request and without releasing
    it. *)
Theorem zero_total_releases_nothing :
  let run := ProcessRequests (scenario_model 2 true) (scenario_instance 0)
               [Some (scenario_input 0)] in
  run.1.1 = Returned () /\ run.2 = [] /\ released run.2 = [] /\
  reported run.2 = [].
Proof. vm_compute. repeat split; reflexivity. Qed.

(** With padding disabled the same call answers the request with the
    batch-size-mismatch error, and again does not release it. *)
Lemma zero_total_without_padding_releases_nothing :
  (ProcessRequests (scenario_model 2 false) (scenario_instance 0)
     [Some (scenario_input 0)]).2 =
  [ResponseSend 0 (Some (batch_size_mismatch 2 0))].
Proof. vm_compute; reflexivity. Qed.

(** A request of one row against bound storage of two rows leaves
    [ProcessRequests] by the shape-mismatch exception of the marshalling
    step: nothing is sent, reported or released. *)
Lemma shape_mismatch_releases_nothing :
  let run := ProcessRequests (scenario_model 4 true) (scenario_instance 0)
               [Some (scenario_input 1)] in
  run.1.1 = Threw shape_mismatch /\ run.2 = [].
Proof. vm_compute. split; reflexivity. Qed.




(** C10, counterexample: maximum batch size 2, padding enabled, pad size
    0 before the call; two requests of batch size 1 give the total batch
    size 2, the maximum, yet the call leaves the pad size at 1, assigned
    from the running total after the first request. *)
Lemma full_batch_of_two_changes_pad :
  let run := ProcessRequests (scenario_model 2 true) (scenario_instance 0)
               [Some (scenario_input 1); Some (scenario_input 1)] in
  total_batch_size
    (aggregate (scenario_model 2 true) (scenario_instance 0)
       [scenario_input 1; scenario_input 1]).1 =
    MaxBatchSize (scenario_model 2 true) /\
  batch_pad_size_ (scenario_instance 0) = 0 /\
  batch_pad_size_ run.1.2 = 1.
Proof. vm_compute. repeat split; reflexivity. Qed.

(** A pad size of 3 left by an earlier call survives a call with one
    request of full batch size. *)
Lemma batch_pad_size_persists_witness :
  Forall (fun t => t = to_size_t (MaxBatchSize (scenario_model 2 true)))
    (running_totals 0 [scenario_input 2]) /\
  batch_pad_size_
    (process_non_null (scenario_model 2 true) (scenario_instance 3)
       [scenario_input 2]).1.2 = 3.
Proof.
  assert (H1 : Forall
                 (fun t => t = to_size_t (MaxBatchSize (scenario_model 2 true)))
                 (running_totals 0 [scenario_input 2]))
    by (repeat constructor).
  split; [exact H1|].
  exact (proj2 (proj2 (proj2 batch_pad_size_persists))
           (scenario_model 2 true) (scenario_instance 3) [scenario_input 2]
           H1).
Defined.

(** The first instance of the scenario model reads and compiles it; a
    repeated read is then refused and leaves the binder as it is. *)
Lemma second_instance_reuses_binder_witness :
  scenario_first = (Constructed scenario_first_instance, scenario_first.2) /\
  forall artifact model_path,
    ReadNetwork artifact model_path scenario_first.2 =
    (Some (TRITONSERVER_ErrorNew TRITONSERVER_ERROR_INTERNAL
             ("attempt to read model at '" +:+ model_path +:+
              "' more than once")),
     model_path, scenario_first.2).
Proof.
  assert (H1 : scenario_first =
               (Constructed scenario_first_instance, scenario_first.2))
    by (vm_compute; reflexivity).
  split; [exact H1|].
  pose proof (second_instance_reuses_binder "scenario_0" "scenario_1" "" ""
                (scenario_unread 4 ∅) scenario_first.2
                scenario_first_instance) as Hsecond.
  specialize (Hsecond H1). destruct Hsecond as (_ & Hread & _).
  exact Hread.
Defined.

End Scenarios.

(* ===================================================================== *)
(** * Part III: further properties of the modelled code                   *)
(* ===================================================================== *)

Section FurtherProperties.
Context {engine : OpenVINO} {marshalling : Marshalling}
  {repository : Repository}.

(** ** The configuration parser *)

Lemma all_digits_tolower (v : string) :
  all_digits v -> transform tolower v = v.
Proof.
  unfold all_digits. induction v as [|c v IH]; [done|].
  cbn. intros Hall. inversion Hall as [|? ? Hc Hv]; subst.
  rewrite IH by done. f_equal.
  revert Hc. clear. destruct c as [[] [] [] [] [] [] [] []]; by vm_compute.
Qed.

Lemma ParseParameterHelper_key (mkey ov_key value : string) :
  (ParseParameterHelper mkey ov_key value).1.1 = None ->
  (ParseParameterHelper mkey ov_key value).1.2 = mkey.
Proof.
  unfold ParseParameterHelper.
  generalize (transform tolower value) as v. intros v.
  key_cases mkey; cbn;
    repeat match goal with
           | |- context [if ?b then _ else _] => destruct b
           end; done.
Qed.

Ltac not_digits Hdig :=
  let Hd := fresh "Hd" in
  intros Hd; pose proof (Hdig Hd) as <-;
  exfalso; inversion Hd as [|? ? Hc ?]; vm_compute in Hc; discriminate.

(** X1: what an accepted device option is stored as.  The engine key is
    the parameter key itself; a numeric value is stored as it was given;
    a value of the boolean or the tri-state option is stored in upper
    case, equal to the given one up to case; "auto" and "numa" for the
    throughput option are stored as the engine's named constants. *)
Theorem ParseParameterHelper_stored_value (mkey ov_key value : string) :
  (ParseParameterHelper mkey ov_key value).1.1 = None ->
  (ParseParameterHelper mkey ov_key value).1.2 = mkey /\
  (all_digits value -> (ParseParameterHelper mkey ov_key value).2 = value) /\
  (mkey = "ENFORCE_BF16"%string \/ mkey = "CPU_BIND_THREAD"%string ->
   (ParseParameterHelper mkey ov_key value).2 ∈ ["YES"; "NO"; "NUMA"]%string /\
   transform tolower (ParseParameterHelper mkey ov_key value).2 =
   transform tolower value) /\
  (mkey = "CPU_THROUGHPUT_STREAMS"%string ->
   (transform tolower value = "auto"%string ->
    (ParseParameterHelper mkey ov_key value).2 = "CPU_THROUGHPUT_AUTO"%string) /\
   (transform tolower value = "numa"%string ->
    (ParseParameterHelper mkey ov_key value).2 = "CPU_THROUGHPUT_NUMA"%string)).
Proof.
  intros Hacc.
  split; [by apply ParseParameterHelper_key|].
  revert Hacc. unfold ParseParameterHelper.
  pose proof (all_digits_tolower value) as Hdig.
  set (v := transform tolower value) in *. clearbody v.
  key_cases mkey; cbn.
  - destruct (IsNumber v); cbn; [|done]. intros _.
    split; [exact Hdig|]. split; [by intros [?|?]|]. done.
  - value_cases v ["yes"; "no"]%string; cbn; try done; intros _;
      (split; [not_digits Hdig|]); (split; [|done]); intros _;
      (split; [|done]); set_solver.
  - value_cases v ["yes"; "numa"; "no"]%string; cbn; try done; intros _;
      (split; [not_digits Hdig|]); (split; [|done]); intros _;
      (split; [|done]); set_solver.
  - value_cases v ["auto"; "numa"]%string; cbn.
    + intros _. split; [not_digits Hdig|]. split; [by intros [?|?]|done].
    + intros _. split; [not_digits Hdig|]. split; [by intros [?|?]|done].
    + destruct (IsNumber v); cbn; [|done]. intros _.
      split; [exact Hdig|]. split; [by intros [?|?]|]. done.
  - done.
Qed.

Lemma parse_into_config_success (mkey device : string)
    (params options : gmap string string) (ms : ModelState) :
  config_ ms !! device = Some options ->
  (parse_into_config mkey device params ms).1 = None ->
  config_ (parse_into_config mkey device params ms).2 =
    <[device := match parsed_entry mkey params with
                | Some v => <[mkey := v]> options
                | None => options
                end]> (config_ ms) /\
  core (parse_into_config mkey device params ms).2 = core ms.
Proof.
  intros Hoptions. unfold parse_into_config, ParseParameter, parsed_entry.
  rewrite Hoptions. cbn [default].
  assert (Hread : (ReadParameter params mkey "").2 =
                  default ""%string (params !! mkey)).
  { unfold ReadParameter. by destruct (params !! mkey). }
  rewrite Hread.
  destruct (string_empty (default ""%string (params !! mkey))); cbn; [done|].
  pose proof (ParseParameterHelper_key mkey ""
                (default ""%string (params !! mkey))) as Hkey.
  destruct (ParseParameterHelper mkey "" (default ""%string (params !! mkey)))
    as [[[e|] k] v]; cbn in *; [done|].
  rewrite Hkey by done. done.
Qed.

Lemma in_device_options (key : string) :
  key ∈ device_options <->
  key = "CPU_THREADS_NUM"%string \/ key = "ENFORCE_BF16"%string \/
  key = "CPU_BIND_THREAD"%string \/ key = "CPU_THROUGHPUT_STREAMS"%string.
Proof.
  unfold device_options. rewrite !elem_of_cons, elem_of_nil. tauto.
Qed.

Lemma entry_lookup (entry : option string) (k key : string)
    (options : gmap string string) :
  match entry with
  | Some v => <[k := v]> options
  | None => options
  end !! key =
  if decide (key = k)
  then match entry with Some v => Some v | None => options !! key end
  else options !! key.
Proof.
  destruct entry as [v|]; case_decide; subst; try done.
  - apply lookup_insert_eq.
  - by apply lookup_insert_ne.
Qed.

(** X2: a successful [ParseParameters(device)] for the CPU replaces the
    option set of the device by exactly the entries of the four device
    options that the parameter block sets to a non-empty value: options
    left from an earlier parse are discarded, no other key is stored, and
    nothing else of the binder changes. *)
Theorem ParseParameters_device_rebuilds_options (ms : ModelState)
    (params : gmap string string) :
  model_parameters ms = Some params ->
  (ParseParameters_device "CPU" ms).1 = None ->
  exists options,
    config_ (ParseParameters_device "CPU" ms).2 =
      <["CPU"%string := options]> (config_ ms) /\
    (forall key,
       options !! key =
       if bool_decide (key ∈ device_options)
       then parsed_entry key params else None) /\
    core (ParseParameters_device "CPU" ms).2 = core ms /\
    same_binding ms (ParseParameters_device "CPU" ms).2.
Proof.
  intros Hparams Hok.
  pose proof (ParseParameters_device_binding "CPU" ms) as Hbinding.
  revert Hok Hbinding. unfold ParseParameters_device. rewrite Hparams.
  cbn [String.eqb Ascii.eqb Bool.eqb].
  set (ms0 := set_config (<["CPU"%string := ∅]> (config_ ms)) ms).
  assert (H0 : config_ ms0 !! "CPU"%string = Some ∅)
    by apply lookup_insert_eq.
  pose proof (parse_into_config_success "CPU_THREADS_NUM" "CPU" params ∅
                ms0 H0) as H1.
  destruct (parse_into_config "CPU_THREADS_NUM" "CPU" params ms0)
    as [[e|] ms1]; [done|].
  destruct (H1 eq_refl) as [Hc1 Hk1]. cbn [snd] in Hc1, Hk1. clear H1.
  set (o1 := match parsed_entry "CPU_THREADS_NUM" params with
             | Some v => _ | None => _ end) in Hc1.
  assert (H1 : config_ ms1 !! "CPU"%string = Some o1)
    by (rewrite Hc1; apply lookup_insert_eq).
  pose proof (parse_into_config_success "ENFORCE_BF16" "CPU" params o1
                ms1 H1) as H2.
  destruct (parse_into_config "ENFORCE_BF16" "CPU" params ms1)
    as [[e|] ms2]; [done|].
  destruct (H2 eq_refl) as [Hc2 Hk2]. cbn [snd] in Hc2, Hk2. clear H2.
  set (o2 := match parsed_entry "ENFORCE_BF16" params with
             | Some v => _ | None => _ end) in Hc2.
  assert (H2 : config_ ms2 !! "CPU"%string = Some o2)
    by (rewrite Hc2; apply lookup_insert_eq).
  pose proof (parse_into_config_success "CPU_BIND_THREAD" "CPU" params o2
                ms2 H2) as H3.
  destruct (parse_into_config "CPU_BIND_THREAD" "CPU" params ms2)
    as [[e|] ms3]; [done|].
  destruct (H3 eq_refl) as [Hc3 Hk3]. cbn [snd] in Hc3, Hk3. clear H3.
  set (o3 := match parsed_entry "CPU_BIND_THREAD" params with
             | Some v => _ | None => _ end) in Hc3.
  assert (H3 : config_ ms3 !! "CPU"%string = Some o3)
    by (rewrite Hc3; apply lookup_insert_eq).
  pose proof (parse_into_config_success "CPU_THROUGHPUT_STREAMS" "CPU" params
                o3 ms3 H3) as H4.
  destruct (parse_into_config "CPU_THROUGHPUT_STREAMS" "CPU" params ms3)
    as [s ms4]. cbn [fst snd] in *. intros -> Hbinding.
  destruct (H4 eq_refl) as [Hc4 Hk4]. clear H4.
  set (o4 := match parsed_entry "CPU_THROUGHPUT_STREAMS" params with
             | Some v => _ | None => _ end) in Hc4.
  exists o4. repeat split; try apply Hbinding.
  - rewrite Hc4, Hc3, Hc2, Hc1. subst ms0. cbn [config_ set_config].
    by rewrite !insert_insert_eq.
  - intros key. subst o4 o3 o2 o1. rewrite !entry_lookup, lookup_empty.
    destruct (bool_decide_reflect (key ∈ device_options)) as [Hin|Hout].
    + apply in_device_options in Hin as [-> | [-> | [-> | ->]]];
        repeat first [rewrite decide_True by done
                     |rewrite decide_False by done];
        repeat match goal with
               | |- context [match ?e with Some _ => _ | None => _ end] =>
                   destruct e
               end; done.
    + rewrite in_device_options in Hout.
      rewrite !decide_False by (intros ->; apply Hout; tauto). done.
  - rewrite Hk4, Hk3, Hk2, Hk1. done.
Qed.

Lemma ReadParameter_value (params : gmap string string) (key : string) :
  (ReadParameter params key "").2 = default ""%string (params !! key).
Proof. unfold ReadParameter. by destruct (params !! key). Qed.

Lemma ParseBoolParameter_raises (key : string) (params : gmap string string)
    (setting : bool) :
  ParseBoolParameter key params setting =
  (None, setting || is_yes params key).
Proof.
  unfold ParseBoolParameter, is_yes. rewrite ReadParameter_value.
  by destruct (String.eqb _ "yes"), setting.
Qed.


(** ** The model binder *)

(** X4: a [ReadNetwork] that fails leaves the binder unread and its model
    handle as it was: at most the attempt is logged on the engine.  A later
    construction therefore tries the read again. *)
Theorem ReadNetwork_failure_leaves_unread (artifact model_path : string)
    (ms ms' : ModelState) (e : TRITONSERVER_Error) (model_path' : string) :
  ReadNetwork artifact model_path ms = (Some e, model_path', ms') ->
  network_read_ ms' = network_read_ ms /\
  network_ ms' = network_ ms /\
  (ms' = ms \/
   (ms' = set_core (read_model model_path' :: core ms) ms /\
    FileExists model_path' = inr true /\
    ErrorCode e = TRITONSERVER_ERROR_INTERNAL)).
Proof.
  unfold ReadNetwork.
  destruct (negb (NetworkNotRead ms)); [intros [=]; subst; auto|].
  destruct (FileExists _) as [err|[]] eqn:Hexists;
    try (intros [=]; subst; auto; fail).
  destruct (ov_read_model _ _); intros [=]; subst.
  repeat split; try done. right. done.
Qed.

Lemma ReadNetwork_success_effect (artifact model_path model_path' : string)
    (ms ms' : ModelState) :
  ReadNetwork artifact model_path ms = (None, model_path', ms') ->
  exists n,
    ms' = set_network_read true
            (set_network n
               (set_core (read_model model_path' :: core ms) ms)) /\
    model_path' =
      JoinPath [RepositoryPath ms; to_string (Version ms);
                if string_empty artifact then "model.xml"%string
                else artifact] /\
    ov_read_model (core ms) model_path' = inr n.
Proof.
  unfold ReadNetwork.
  destruct (negb (NetworkNotRead ms)); [intros [=]|].
  destruct (FileExists _) as [err|[]]; try (intros [=]; fail).
  destruct (ov_read_model _ _) as [?|n] eqn:Hread; intros [=]; subst.
  by exists n.
Qed.

Lemma bind_input_insert (m : gmap string Output) (input : Output) :
  bind_input m input = <[bound_name input := input]> m.
Proof. reflexivity. Qed.

Lemma bind_inputs_lookup (inputs : list Output) (m : gmap string Output)
    (name : string) :
  foldl bind_input m inputs !! name =
  match last (filter (fun input => bound_name input = name) inputs) with
  | Some p => Some p
  | None => m !! name
  end.
Proof.
  induction inputs as [|x inputs IH] using rev_ind; [done|].
  rewrite foldl_app, filter_app. cbn [foldl]. rewrite bind_input_insert.
  rewrite filter_cons, filter_nil.
  destruct (decide (bound_name x = name)) as [<-|Hne].
  - by rewrite lookup_insert_eq, last_snoc.
  - by rewrite lookup_insert_ne, app_nil_r.
Qed.

Lemma set_properties_binding (items : list (string * gmap string string))
    (ms : ModelState) :
  same_binding ms (set_properties items ms).2 /\
  network_ (set_properties items ms).2 = network_ ms.
Proof.
  revert ms. induction items as [|[device properties] items IH]; intros ms;
    cbn; [done|].
  destruct (ov_set_property _ _ _); [done|].
  destruct (IH (set_core (set_property device properties :: core ms) ms))
    as [Hb Hn].
  split; [|done]. eapply same_binding_trans; [|exact Hb]. done.
Qed.

(** X5: a [LoadNetwork] that succeeds records the compiled model for the
    device only, and binds the inputs of the compiled model by name, the
    last one winning: under every name, the name-to-node map holds the
    last input of the compiled model that goes by that name ("NONE" for
    an input without names), and the binding it had before when no input
    goes by it. *)
Theorem LoadNetwork_binds_every_input (device : string)
    (network_config : gmap string (gmap string string))
    (ms ms' : ModelState) :
  LoadNetwork device network_config ms = (Returned None, ms') ->
  exists compiled,
    executable_network_ ms' =
      <[device := compiled]> (executable_network_ ms) /\
    forall name,
      name_node_map ms' !! name =
      match last (filter (fun input => bound_name input = name)
                    (inputs compiled)) with
      | Some p => Some p
      | None => name_node_map ms !! name
      end.
Proof.
  unfold LoadNetwork.
  destruct (negb (NetworkNotLoaded ms device)); [intros [=]|].
  pose proof (set_properties_binding (in_key_order network_config) ms)
    as [(_ & Hexec & Hmap) _].
  destruct (set_properties (in_key_order network_config) ms) as [[what|] ms1];
    [intros [=]|]. cbn [snd] in *.
  destruct (ov_compile_model _ _ _) as [what|compiled]; intros [=]; subst ms'.
  exists compiled. cbn -[foldl]. rewrite Hexec, Hmap.
  split; [done|]. intros name. apply bind_inputs_lookup.
Qed.

(** X6: a [LoadNetwork] that does not succeed, by an error or by an
    engine exception, binds nothing: the name-to-node map, the read flag
    and the model handle are as before, and so are the compiled models of
    every other device. *)
Theorem LoadNetwork_failure_keeps_binding (device : string)
    (network_config : gmap string (gmap string string))
    (ms ms' : ModelState) (o : Outcome Status) :
  LoadNetwork device network_config ms = (o, ms') ->
  o <> Returned None ->
  name_node_map ms' = name_node_map ms /\
  network_read_ ms' = network_read_ ms /\
  network_ ms' = network_ ms /\
  (forall other, other <> device ->
     executable_network_ ms' !! other = executable_network_ ms !! other).
Proof.
  unfold LoadNetwork.
  destruct (negb (NetworkNotLoaded ms device)); [by intros [=]; subst|].
  pose proof (set_properties_binding (in_key_order network_config) ms)
    as [(Hread & Hexec & Hmap) Hn].
  destruct (set_properties (in_key_order network_config) ms) as [[what|] ms1];
    cbn [snd] in *.
  - intros [=]; subst. intros _. by rewrite Hexec.
  - destruct (ov_compile_model _ _ _) as [what|compiled]; intros [=]; subst;
      [|done].
    intros _. cbn. by rewrite Hexec.
Qed.

(** X7: [CreateInferRequest] for a device that was never loaded stores a
    default-constructed compiled model for it, whether or not the request
    is created: the device then counts as loaded and a [LoadNetwork] for
    it is refused as a second load. *)
Theorem CreateInferRequest_marks_device_loaded (device : string)
    (network_config : gmap string (gmap string string)) (ms : ModelState) :
  executable_network_ ms !! device = None ->
  executable_network_ (CreateInferRequest device ms).2 =
    <[device := CompiledModel_default]> (executable_network_ ms) /\
  NetworkNotLoaded (CreateInferRequest device ms).2 device = false /\
  exists e,
    LoadNetwork device network_config (CreateInferRequest device ms).2 =
      (Returned (Some e), (CreateInferRequest device ms).2) /\
    ErrorCode e = TRITONSERVER_ERROR_INTERNAL.
Proof.
  intros Hnone.
  assert (Hexec : executable_network_ (CreateInferRequest device ms).2 =
                  <[device := CompiledModel_default]> (executable_network_ ms)).
  { unfold CreateInferRequest. rewrite Hnone.
    by destruct (ov_create_infer_request _ _). }
  assert (Hloaded : is_Some (executable_network_
                               (CreateInferRequest device ms).2 !! device)).
  { rewrite Hexec, lookup_insert_eq. by eexists. }
  split; [done|]. split.
  - unfold NetworkNotLoaded. by destruct Hloaded as [c ->].
  - eexists. split; [by apply LoadNetwork_more_than_once|done].
Qed.

(** ** Construction of an instance *)

Lemma ParseParameters_shape (ms : ModelState) :
  exists skip pad reshape,
    (ParseParameters ms).2 =
    set_flags skip pad reshape
      (set_core (extension_calls (model_parameters ms) ++ core ms) ms).
Proof.
  unfold ParseParameters, extension_calls.
  destruct (model_parameters ms) as [params|] eqn:Hparams.
  - unfold LoadCpuExtensions. rewrite ReadParameter_value.
    destruct (string_empty _); cbn [negb].
    + rewrite !ParseBoolParameter_raises. cbn. by eexists _, _, _.
    + destruct (ov_add_extension _ _).
      * exists (skip_dynamic_batchsize_ ms), (enable_padding_ ms),
          (reshape_io_layers_ ms). done.
      * rewrite !ParseBoolParameter_raises. cbn. by eexists _, _, _.
  - exists (skip_dynamic_batchsize_ ms), (enable_padding_ ms),
      (reshape_io_layers_ ms). by destruct ms.
Qed.

Lemma parse_into_config_shape (mkey device : string)
    (params : gmap string string) (config : gmap string (gmap string string))
    (ms : ModelState) :
  exists config',
    (parse_into_config mkey device params (set_config config ms)).2 =
    set_config config' ms.
Proof.
  unfold parse_into_config. destruct (ParseParameter _ _ _) as [s c].
  by eexists.
Qed.

Lemma ParseParameters_device_shape (device : string) (ms : ModelState) :
  exists config, (ParseParameters_device device ms).2 = set_config config ms.
Proof.
  unfold ParseParameters_device.
  destruct (model_parameters ms) as [params|];
    [|exists (config_ ms); by destruct ms].
  destruct (String.eqb device "CPU"); [|exists (config_ ms); by destruct ms].
  cbv zeta.
  repeat match goal with
  | |- context [parse_into_config ?k ?d ?p (set_config ?c ms)] =>
      let c' := fresh "c" in let H := fresh "H" in
      destruct (parse_into_config_shape k d p c ms) as [c' H];
      destruct (parse_into_config k d p (set_config c ms)) as [[e|] ?];
      cbn [snd] in H; subst; [by eexists|]
  end.
  by eexists.
Qed.

Lemma configure_items_success (items : list (string * gmap string string))
    (ms ms' : ModelState) :
  configure_items items ms = (None, ms') ->
  ms' = set_core
          (rev (map (fun entry => set_property entry.1 entry.2) items) ++
           core ms) ms.
Proof.
  revert ms. induction items as [|[device properties] items IH]; intros ms.
  - intros [= <-]. by destruct ms.
  - cbn [configure_items]. cbv zeta.
    destruct (ov_set_property _ _ _); [intros [=]|].
    intros Hrest. apply IH in Hrest. subst ms'. cbn.
    by rewrite <- app_assoc.
Qed.

Lemma LoadNetwork_nil_success (device : string) (ms ms' : ModelState) :
  LoadNetwork device ∅ ms = (Returned None, ms') ->
  exists compiled,
    ms' = set_name_node_map
            (foldl bind_input (name_node_map ms) (inputs compiled))
            (set_executable_network
               (<[device := compiled]> (executable_network_ ms))
               (set_core (compile_model device :: core ms) ms)).
Proof.
  unfold LoadNetwork.
  destruct (negb (NetworkNotLoaded ms device)); [intros [=]|].
  rewrite set_properties_nil_config.
  destruct (ov_compile_model _ _ _) as [what|compiled]; intros [=]; subst.
  by exists compiled.
Qed.

Lemma in_key_order_sorted {V : Type} (m : gmap string V) :
  Sorted key_le (in_key_order m).
Proof. apply Sorted_merge_sort. intros x y. apply String.leb_total. Qed.

Lemma in_key_order_entries {V : Type} (m : gmap string V) (k : string) (v : V) :
  (k, v) ∈ in_key_order m <-> m !! k = Some v.
Proof.
  unfold in_key_order. rewrite merge_sort_Permutation.
  apply elem_of_map_to_list.
Qed.

(** X8: the order of the engine calls of the first construction.  On a
    binder that is neither read nor loaded, a construction that succeeds
    has called the engine in this order: the extension load (when the
    parameters name one), [read_model] on the versioned path of the
    artifact ("model.xml" when the instance names none), one
    [set_property] per device of the configuration, in ascending key
    order of the devices, [compile_model] for "CPU" and
    [create_infer_request]: nothing else, and nothing twice. *)
Theorem first_construction_call_order (instance artifact : string)
    (ms ms' : ModelState) (st : ModelInstanceState) :
  network_read_ ms = false ->
  executable_network_ ms !! "CPU"%string = None ->
  ModelInstanceState_new instance TRITONSERVER_INSTANCEGROUPKIND_CPU
    artifact ms = (Constructed st, ms') ->
  model_path_ st =
    JoinPath [RepositoryPath ms; to_string (Version ms);
              if string_empty artifact then "model.xml"%string
              else artifact] /\
  core ms' =
    create_infer_request "CPU" :: compile_model "CPU" ::
    configuration_calls (config_ ms') ++
    read_model (model_path_ st) ::
    extension_calls (model_parameters ms) ++ core ms.
Proof.
  intros Hunread Hunloaded. unfold ModelInstanceState_new. cbv zeta.
  unfold NetworkNotRead. rewrite Hunread. cbn [negb].
  destruct (ParseParameters_shape ms) as (skip & pad & reshape & Hparse).
  destruct (ParseParameters ms) as [[e|] ms1]; [intros [=]|].
  cbn [snd] in Hparse.
  destruct (ReadNetwork artifact "" ms1) as [[[e|] path] ms2] eqn:Hread;
    [intros [=]|].
  apply ReadNetwork_success_effect in Hread as (n & Hms2 & Hpath & _).
  unfold ValidateConfigureNetwork.
  assert (Hnl : NetworkNotLoaded ms2 "CPU" = true).
  { unfold NetworkNotLoaded. subst ms2 ms1. cbn. by rewrite Hunloaded. }
  rewrite Hnl.
  destruct (ParseParameters_device_shape "CPU" ms2) as [config Hdevice].
  destruct (ParseParameters_device "CPU" ms2) as [[e|] ms3]; [intros [=]|].
  cbn [snd] in Hdevice. unfold ConfigureInferenceEngine.
  destruct (configure_items (in_key_order (config_ ms3)) ms3)
    as [[e|] ms4] eqn:Hconfigure; [intros [=]|].
  apply configure_items_success in Hconfigure.
  destruct (LoadNetwork "CPU" ∅ ms4) as [[[e|]|what] ms5] eqn:Hload;
    try (intros [=]; fail).
  apply LoadNetwork_nil_success in Hload as [compiled Hms5].
  unfold CreateInferRequest.
  assert (Hl : executable_network_ ms5 !! "CPU"%string = Some compiled).
  { subst ms5. cbn. by rewrite lookup_insert_eq. }
  rewrite Hl. cbn [default]. cbv zeta.
  destruct (ov_create_infer_request _ _) as [what|r]; [intros [=]|].
  unfold SetNameNodeMap. intros [=]; subst st ms'.
  subst ms5 ms4 ms3 ms2 ms1. cbn. split; [done|].
  done.
Qed.

Lemma ReadNetwork_frame (artifact model_path : string) (ms : ModelState) :
  core ms `suffix_of` core (ReadNetwork artifact model_path ms).2 /\
  same_devices ms (ReadNetwork artifact model_path ms).2.
Proof.
  unfold ReadNetwork.
  destruct (negb (NetworkNotRead ms)); [done|].
  destruct (FileExists _) as [err|[]]; [done| |done].
  destruct (ov_read_model _ _) as [what|n]; (split; [by eexists [_]|done]).
Qed.

Lemma configure_items_shape (items : list (string * gmap string string))
    (ms : ModelState) :
  exists calls, (configure_items items ms).2 = set_core (calls ++ core ms) ms.
Proof.
  revert ms. induction items as [|[device properties] items IH]; intros ms.
  - exists []. by destruct ms.
  - cbn [configure_items]. cbv zeta.
    destruct (ov_set_property _ _ _); [by eexists [_]|].
    destruct (IH (set_core (set_property device properties :: core ms) ms))
      as [calls ->].
    exists (calls ++ [set_property device properties]). cbn.
    by rewrite <- app_assoc.
Qed.

Lemma LoadNetwork_nil_shape (device : string) (ms : ModelState) :
  (forall what, (LoadNetwork device ∅ ms).1 <> Threw what) /\
  exists calls compiled bound,
    (LoadNetwork device ∅ ms).2 =
    set_name_node_map bound
      (set_executable_network compiled (set_core (calls ++ core ms) ms)).
Proof.
  unfold LoadNetwork, NetworkNotLoaded.
  destruct (executable_network_ ms !! device) eqn:Hloaded; cbn [negb].
  - split; [done|].
    exists [], (executable_network_ ms), (name_node_map ms). by destruct ms.
  - rewrite set_properties_nil_config.
    destruct (ov_compile_model _ _ _) as [what|compiled].
    + split; [done|].
      eexists [_], (executable_network_ ms), (name_node_map ms). done.
    + split; [done|]. by eexists [_], _, _.
Qed.

Lemma CreateInferRequest_shape (device : string) (ms : ModelState) :
  exists compiled,
    (CreateInferRequest device ms).2 =
    set_executable_network compiled
      (set_core (create_infer_request device :: core ms) ms) /\
    (is_Some (executable_network_ ms !! device) ->
     compiled = executable_network_ ms).
Proof.
  unfold CreateInferRequest.
  destruct (executable_network_ ms !! device) eqn:Hloaded; cbv zeta.
  - exists (executable_network_ ms). split; [|done].
    destruct (ov_create_infer_request _ _); by destruct ms.
  - eexists. split; [by destruct (ov_create_infer_request _ _)|].
    by intros [? [=]].
Qed.

(** X9: no construction, failed or not, takes anything back from the
    shared binder.  The constructor never leaves by an engine exception
    (it loads with an empty configuration, so the unguarded property loop
    of [LoadNetwork] has nothing to set); the engine's call history only
    grows; a binder that was read stays read, with the same model handle
    and the same three flags (the parameters are parsed once per model,
    not once per instance); and a binder loaded for "CPU" keeps its
    compiled models, its name-to-node map and its configuration. *)
Theorem construction_never_regresses_binder (instance artifact : string)
    (kind : TRITONSERVER_InstanceGroupKind) (ms : ModelState) :
  let c := (ModelInstanceState_new instance kind artifact ms).1 in
  let ms' := (ModelInstanceState_new instance kind artifact ms).2 in
  (forall what, c <> EngineException what) /\
  core ms `suffix_of` core ms' /\
  (network_read_ ms = true -> network_read_ ms' = true /\ same_model ms ms') /\
  (is_Some (executable_network_ ms !! "CPU"%string) -> same_devices ms ms').
Proof.
  cbv zeta. unfold ModelInstanceState_new.
  destruct kind;
    try (cbn; split; [done|]; split; [by exists []|]; split; done).
  cbv zeta.
  (* the first block: parameters and read *)
  assert (Hfirst : forall s path ms1,
    (if NetworkNotRead ms
     then match ParseParameters ms with
          | (Some err, ms0) => (Some err, ""%string, ms0)
          | (None, ms0) =>
              match ReadNetwork artifact "" ms0 with
              | (Some err, model_path, ms2) => (Some err, model_path, ms2)
              | (None, model_path, ms2) =>
                  (ValidateConfigureNetwork ms2, model_path, ms2)
              end
          end
     else (None, ""%string, ms)) = (s, path, ms1) ->
    core ms `suffix_of` core ms1 /\ same_devices ms ms1 /\
    (network_read_ ms = true -> ms1 = ms)).
  { intros s path ms1. unfold NetworkNotRead.
    destruct (network_read_ ms) eqn:Hread; cbn [negb].
    - intros [=]; by subst.
    - destruct (ParseParameters_shape ms) as (skip & pad & reshape & Hparse).
      destruct (ParseParameters ms) as [[e|] ms0]; cbn [snd] in Hparse.
      + intros [=]; subst. cbn. split; [by eexists|done].
      + destruct (ReadNetwork_frame artifact "" ms0) as [Hcore Hdevices].
        destruct (ReadNetwork artifact "" ms0) as [[[e|] path'] ms2];
          cbn [snd] in *; intros [=]; subst; cbn in *;
          (split; [|done]);
          destruct Hcore as [calls ->]; rewrite app_assoc; by eexists. }
  destruct (if NetworkNotRead ms then _ else _) as [[s path] ms1].
  destruct (Hfirst _ _ _ eq_refl) as (Hcore1 & Hdevices1 & Hread1).
  clear Hfirst.
  destruct s as [e|].
  { cbn [fst snd]. split; [done|]. split; [done|]. split; [|done].
    intros Hread. by rewrite (Hread1 Hread). }
  (* the second block: configuration and load *)
  assert (Hsecond : forall o ms2,
    (if NetworkNotLoaded ms1 "CPU"
     then match ParseParameters_device "CPU" ms1 with
          | (Some err, ms0) => (Returned (Some err), ms0)
          | (None, ms0) =>
              match ConfigureInferenceEngine ms0 with
              | (Some err, ms3) => (Returned (Some err), ms3)
              | (None, ms3) => LoadNetwork "CPU" ∅ ms3
              end
          end
     else (Returned None, ms1)) = (o, ms2) ->
    (forall what, o <> Threw what) /\
    core ms1 `suffix_of` core ms2 /\
    network_read_ ms2 = network_read_ ms1 /\ same_model ms1 ms2 /\
    (is_Some (executable_network_ ms1 !! "CPU"%string) -> ms2 = ms1)).
  { intros o ms2. unfold NetworkNotLoaded.
    destruct (executable_network_ ms1 !! "CPU"%string) eqn:Hloaded.
    - intros [=]; by subst.
    - destruct (ParseParameters_device_shape "CPU" ms1) as [config Hdevice].
      destruct (ParseParameters_device "CPU" ms1) as [[e|] ms0];
        cbn [snd] in Hdevice.
      + intros [=]; subst. cbn. split; [done|]. split; [done|].
        split; [done|]. split; [done|]. by intros [? [=]].
      + unfold ConfigureInferenceEngine.
        destruct (configure_items_shape (in_key_order (config_ ms0)) ms0)
          as [calls Hconfigure].
        destruct (configure_items (in_key_order (config_ ms0)) ms0)
          as [[e|] ms3]; cbn [snd] in Hconfigure.
        * intros [=]; subst. cbn. split; [done|]. split; [by eexists|].
          split; [done|]. split; [done|]. by intros [? [=]].
        * destruct (LoadNetwork_nil_shape "CPU" ms3)
            as (Hthrow & calls' & compiled & bound & Hload).
          intros Heq. rewrite Heq in Hthrow, Hload. cbn [fst snd] in *.
          subst. cbn. split; [done|].
          split; [rewrite app_assoc; by eexists|].
          split; [done|]. split; [done|]. by intros [? [=]]. }
  destruct (if NetworkNotLoaded ms1 "CPU" then _ else _) as [o ms2].
  destruct (Hsecond _ _ eq_refl)
    as (Hthrow & Hcore2 & Hr2 & Hmodel2 & Hloaded2).
  clear Hsecond.
  assert (Hcore : core ms `suffix_of` core ms2) by (by etrans).
  assert (Hmodel : network_read_ ms = true ->
                   network_read_ ms2 = true /\ same_model ms ms2).
  { intros Hread. specialize (Hread1 Hread). subst ms1.
    by rewrite Hr2. }
  assert (Hdevices : is_Some (executable_network_ ms !! "CPU"%string) ->
                     is_Some (executable_network_ ms2 !! "CPU"%string) /\
                     same_devices ms ms2).
  { intros Hloaded. destruct Hdevices1 as (He & Hn & Hc).
    rewrite <- He in Hloaded. rewrite (Hloaded2 Hloaded). done. }
  destruct o as [[e|]|what]; [| |by destruct (Hthrow what)].
  - cbn [fst snd]. split; [done|]. split; [done|]. split; [done|].
    intros Hloaded. by apply Hdevices.
  - destruct (CreateInferRequest_shape "CPU" ms2) as (compiled3 & H3 & Hl3).
    assert (Hgoal :
      core ms `suffix_of` core (CreateInferRequest "CPU" ms2).2 /\
      (network_read_ ms = true ->
       network_read_ (CreateInferRequest "CPU" ms2).2 = true /\
       same_model ms (CreateInferRequest "CPU" ms2).2) /\
      (is_Some (executable_network_ ms !! "CPU"%string) ->
       same_devices ms (CreateInferRequest "CPU" ms2).2)).
    { rewrite H3. cbn. split.
      - destruct Hcore as [calls ->]. by exists (create_infer_request "CPU" :: calls).
      - split; [done|]. intros Hloaded.
        destruct (Hdevices Hloaded) as [Hs Hd]. by rewrite (Hl3 Hs). }
    destruct (CreateInferRequest "CPU" ms2) as [[e|r] ms3];
      cbn [fst snd] in *; unfold SetNameNodeMap; cbn [fst snd];
      by split.
Qed.

(** ** The responses of an execution call *)

Lemma mjoin_imap_none_held {A : Type} (g : nat -> bool -> list A)
    (created : list bool) :
  (forall r, g r false = []) ->
  mjoin (imap g (map (fun _ => false) created)) = [].
Proof.
  revert g. induction created as [|b created IH]; intros g Hg; [done|].
  cbn. rewrite Hg. cbn. apply IH. intros r. apply Hg.
Qed.

Lemma send_all_none_held (s : Status) (created : list bool) :
  send_all s (map (fun _ => false) created) = [].
Proof. unfold send_all. by apply mjoin_imap_none_held. Qed.

Lemma settled_set_total (created : list bool) (es : list Event)
    (err : Status) (f : Frame) (t : Z) :
  settled created es err f -> settled created es err (set_total t f).
Proof. by destruct err. Qed.

Lemma settled_respond (created : list bool) (es : list Event)
    (err s : Status) (f : Frame) :
  settled created es err f ->
  settled created es (match err with Some _ => err | None => s end)
    (RESPOND_ALL_AND_SET_TRUE_IF_ERROR f s).
Proof.
  destruct err as [e|], s as [e'|]; cbn; try done.
  - intros (Hfailed & Hresponses & Hevents). split; [done|].
    rewrite Hresponses, Hevents, send_all_none_held, app_nil_r.
    split; [|done]. rewrite <- list_fmap_compose. done.
  - intros (Hfailed & Hresponses & Hevents). by rewrite Hresponses, Hevents.
Qed.

Lemma settled_log (created : list bool) (es es' : list Event) (f : Frame) :
  settled created es None f ->
  settled created (es ++ es') None (log es' f).
Proof. intros (Hfailed & Hresponses & Hevents). cbn. by rewrite Hevents. Qed.

Lemma collect_batch_size_settled (ms : ModelState) (created : list bool)
    (err : Status) (f : Frame) (st : ModelInstanceState) (request : Request) :
  settled created [] err f ->
  exists err', settled created [] err' (collect_batch_size ms (f, st) request).1.
Proof.
  intros Hf. unfold collect_batch_size.
  destruct (0 <? MaxBatchSize ms);
    [|eexists; by apply settled_set_total].
  set (f1 := match RequestInputByIndex request 0 with
             | inl _ => _ | inr _ => _ end).
  assert (H1 : exists err1, settled created [] err1 f1).
  { subst f1. destruct (RequestInputByIndex request 0);
      eexists; [by apply settled_respond|by apply settled_set_total]. }
  clearbody f1. destruct H1 as [err1 H1].
  destruct (negb (all_response_failed f1)); [|by eexists].
  destruct (negb (_ =? _)); [|by eexists].
  destruct (EnableBatchPadding ms); [by eexists|].
  eexists. by apply settled_respond.
Qed.

Lemma collect_loop_settled (ms : ModelState) (created : list bool)
    (requests : list Request) (err : Status) (f : Frame)
    (st : ModelInstanceState) :
  settled created [] err f ->
  exists err',
    settled created [] err' (foldl (collect_batch_size ms) (f, st) requests).1.
Proof.
  revert err f st. induction requests as [|q requests IH]; intros err f st Hf;
    [by eexists|].
  cbn [foldl].
  destruct (collect_batch_size_settled ms created err f st q Hf) as [err1 H1].
  destruct (collect_batch_size ms (f, st) q) as [f1 st1]. by eapply IH.
Qed.

Lemma aggregate_settled (ms : ModelState) (st : ModelInstanceState)
    (requests : list Request) :
  exists err,
    settled (map response_new requests) [] err (aggregate ms st requests).1.
Proof. by apply (collect_loop_settled _ _ _ None). Qed.

Lemma checks_settled (ms : ModelState) (st : ModelInstanceState)
    (created : list bool) (err : Status) (f : Frame) :
  settled created [] err f ->
  exists err',
    settled created [] err' (set_batch ms (check_max_batch_size ms st f)) /\
    (err' = None -> err = None /\
       (total_batch_size f = 1 \/
        total_batch_size f <= to_size_t (MaxBatchSize ms))).
Proof.
  intros Hf. unfold set_batch, check_max_batch_size, SetBatch.
  destruct err as [e|].
  - destruct Hf as (Hfailed & Hresponses & Hevents).
    rewrite !Hfailed. cbn [negb]. rewrite Hfailed. cbn [negb].
    exists (Some e). done.
  - destruct Hf as (Hfailed & Hresponses & Hevents).
    rewrite !Hfailed. cbn [negb].
    destruct (Z.eqb_spec (total_batch_size f) 1) as [H1|H1]; cbn [negb andb].
    + rewrite Hfailed. cbn [negb]. exists None. split; [|auto].
      by repeat case_match.
    + destruct (Z.ltb_spec (to_size_t (MaxBatchSize ms)) (total_batch_size f)).
      * eexists (Some _). split; [|done]. cbn. rewrite Hresponses, Hevents.
        done.
      * rewrite Hfailed. cbn [negb]. exists None. split; [|auto].
        by repeat case_match.
Qed.

Lemma checks_total (ms : ModelState) (st : ModelInstanceState) (f : Frame) :
  total_batch_size (set_batch ms (check_max_batch_size ms st f)) =
  total_batch_size f.
Proof.
  unfold set_batch, check_max_batch_size, SetBatch.
  by repeat (case_match; cbn).
Qed.

Lemma ReadOutputTensors_engine_events (st : ModelInstanceState)
    (output_names : list string) :
  Forall engine_event (ReadOutputTensors st output_names).2.
Proof.
  induction output_names as [|name names IH]; cbn; [done|].
  destruct (output_tensors _ !! name); [|done].
  destruct (ReadOutputTensors st names) as [o es]. cbn in *.
  by constructor.
Qed.

Lemma closing_events (created : list bool) (es : list Event) (err : Status)
    (f : Frame) (request_count : nat) :
  settled created es err f ->
  events
    (let f := log (send_all None (responses f)) f in
     let f := log (report_and_release (responses f) request_count) f in
     if negb (all_response_failed f)
     then log [ModelInstanceReportBatchStatistics (total_batch_size f)] f
     else f) =
  es ++ closing created request_count (total_batch_size f) err.
Proof.
  unfold closing. destruct err as [e|];
    intros (Hfailed & Hresponses & Hevents); cbn; rewrite Hfailed; cbn;
    rewrite Hresponses, Hevents.
  - rewrite send_all_none_held, !app_nil_r. by rewrite <- !app_assoc.
  - by rewrite <- !app_assoc.
Qed.

Lemma complete_trace (ms : ModelState) (f : Frame) (requests : list Request)
    (marshalled : Outcome Status * ModelInstanceState * list string)
    (created : list bool) (err : Status) :
  settled created [] err f ->
  (complete ms f requests marshalled).1.1 = Returned () ->
  exists es err',
    Forall engine_event es /\
    (complete ms f requests marshalled).2 =
      es ++ closing created (length requests) (total_batch_size f) err' /\
    (err' = None ->
     err = None /\ marshalled.1.1 = Returned None /\
     exists outs, es = Infer_called :: outs).
Proof.
  intros Hf. unfold complete.
  destruct marshalled as [[[s|what] st] names]; [|done].
  pose proof (settled_respond _ _ _ s _ Hf) as H1.
  assert (Ht1 : total_batch_size (RESPOND_ALL_AND_SET_TRUE_IF_ERROR f s) =
                total_batch_size f) by (by destruct s).
  revert H1 Ht1. generalize (RESPOND_ALL_AND_SET_TRUE_IF_ERROR f s).
  intros f1 H1 Ht1.
  destruct (match err with Some _ => err | None => s end) as [e1|] eqn:Herr1.
  - (* the call has failed before the engine is reached *)
    pose proof H1 as (Hfailed & _ & _). repeat first [rewrite Hfailed | progress cbn [negb fst snd]].
    intros _. exists [], (Some e1). split; [done|]. split; [|done].
    cbn [RESPOND_ALL_AND_SET_TRUE_IF_ERROR fst snd].
    rewrite <- Ht1.
    apply (closing_events created [] (Some e1) (log [] f1)).
    destruct H1 as (? & ? & Hev). repeat split; try done. cbn.
    by rewrite app_nil_r.
  - pose proof H1 as (Hfailed & _ & _).
    repeat first [rewrite Hfailed | progress cbn [negb fst snd]].
    assert (err = None /\ s = None) as [-> ->]
      by (destruct err; [done|by subst]).
    destruct (Infer st) as [s' st'].
    pose proof (settled_respond _ _ _ s' _
                  (settled_log _ _ [Infer_called] _ H1)) as H2.
    assert (Ht2 : total_batch_size
                    (RESPOND_ALL_AND_SET_TRUE_IF_ERROR
                       (log [Infer_called] f1) s') = total_batch_size f)
      by (by destruct s').
    revert H2 Ht2.
    generalize (RESPOND_ALL_AND_SET_TRUE_IF_ERROR (log [Infer_called] f1) s').
    cbn [app]. intros f2 H2 Ht2.
    destruct s' as [e2|].
    + (* the inference has failed *)
      pose proof H2 as (Hfailed2 & _ & _).
      repeat first [rewrite Hfailed2 | progress cbn [negb fst snd]].
      intros _. exists [Infer_called], (Some e2).
      split; [by repeat constructor|]. split; [|done].
      cbn [RESPOND_ALL_AND_SET_TRUE_IF_ERROR fst snd].
      rewrite <- Ht2.
      apply (closing_events created [Infer_called] (Some e2) (log [] f2)).
      destruct H2 as (? & ? & Hev). repeat split; try done. cbn.
      by rewrite app_nil_r.
    + pose proof H2 as (Hfailed2 & _ & _).
      repeat first [rewrite Hfailed2 | progress cbn [negb fst snd]].
      pose proof (ReadOutputTensors_engine_events st'
                    match model_outputs ms with
                    | Some ios => names_until_error ios
                    | None => []
                    end) as Houts.
      destruct (ReadOutputTensors st' _) as [[s''|what] outs]; [|done].
      cbn [snd] in Houts. intros _.
      pose proof (settled_respond _ _ _ s'' _ (settled_log _ _ outs _ H2))
        as H3.
      exists (Infer_called :: outs), s''.
      split; [by constructor|]. split; [|by eauto].
      cbn [fst snd]. rewrite <- Ht2.
      replace (total_batch_size f2) with
        (total_batch_size
           (RESPOND_ALL_AND_SET_TRUE_IF_ERROR (log outs f2) s''))
        by (by destruct s'').
      by apply (closing_events created (Infer_called :: outs) s'').
Qed.

Lemma process_non_null_trace (ms : ModelState) (st : ModelInstanceState)
    (requests : list Request) :
  total_batch_size (aggregate ms st requests).1 <> 0 ->
  (process_non_null ms st requests).1.1 = Returned () ->
  exists es err,
    Forall engine_event es /\
    (process_non_null ms st requests).2 =
      es ++ closing (map response_new requests) (length requests)
              (total_batch_size (aggregate ms st requests).1) err /\
    (err = None ->
     all_response_failed (aggregate ms st requests).1 = false /\
     (total_batch_size (aggregate ms st requests).1 = 1 \/
      total_batch_size (aggregate ms st requests).1 <=
        to_size_t (MaxBatchSize ms)) /\
     exists outs, es = Infer_called :: outs).
Proof.
  unfold process_non_null.
  destruct (aggregate_settled ms st requests) as [err0 H0].
  destruct (aggregate ms st requests) as [f st1]. cbn [fst] in *.
  intros Hnz. destruct (Z.eqb_spec (total_batch_size f) 0); [done|].
  destruct (checks_settled ms st1 _ _ _ H0) as (err1 & H1 & Hchecks).
  intros Hreturns.
  destruct (complete_trace _ _ _ _ _ _ H1 Hreturns)
    as (es & err & Hes & Htrace & Hsuccess).
  exists es, err. split; [done|]. rewrite checks_total in Htrace.
  split; [done|]. intros ->.
  destruct (Hsuccess eq_refl) as (-> & _ & Houts).
  destruct (Hchecks eq_refl) as [-> Hbound].
  split; [by destruct H0|]. done.
Qed.

Lemma statistics_app (es1 es2 : list Event) :
  statistics (es1 ++ es2) = statistics es1 ++ statistics es2.
Proof. apply omap_app. Qed.

Lemma batch_statistics_app (es1 es2 : list Event) :
  batch_statistics (es1 ++ es2) = batch_statistics es1 ++ batch_statistics es2.
Proof. apply omap_app. Qed.

Lemma engine_events_observed (es : list Event) :
  Forall engine_event es ->
  statistics es = [] /\ batch_statistics es = [].
Proof.
  induction 1 as [|e es He _ (IH1 & IH2)]; [done|].
  destruct e; try done; cbn in *; by rewrite ?IH1, ?IH2.
Qed.

Lemma sends_observed (es : list Event) :
  Forall is_send es -> statistics es = [] /\ batch_statistics es = [].
Proof.
  induction 1 as [|e es He _ (IH1 & IH2)]; [done|].
  destruct e; try done; cbn in *; by rewrite ?IH1, ?IH2.
Qed.

Lemma report_and_release_observed (rs : list bool) (request_count : nat) :
  batch_statistics (report_and_release rs request_count) = [] /\
  statistics (report_and_release rs request_count) =
    map (fun r => (r, default false (rs !! r))) (seq 0 request_count).
Proof.
  unfold report_and_release. generalize (seq 0 request_count).
  intros l. induction l as [|r l (IH1 & IH2)]; [done|].
  cbn [map]. rewrite mjoin_cons.
  rewrite batch_statistics_app, statistics_app.
  rewrite IH1, IH2. done.
Qed.

Lemma statistics_none_held (created : list bool) (request_count : nat) :
  map (fun r => (r, default false (map (fun _ => false) created !! r)))
    (seq 0 request_count) =
  map (fun r => (r, false)) (seq 0 request_count).
Proof.
  apply map_ext. intros r. rewrite list_lookup_fmap.
  by destruct (created !! r).
Qed.

(** X11: batch statistics, or every request failed.  A call with a
    non-zero total that returns either reports the batch statistics,
    once and with the total of the call, and then the engine was run; or
    it reports no batch statistics, and then it reports every request of
    the call as failed, the requests without a fault of their own
    included. *)
Theorem batch_statistics_or_all_failed (ms : ModelState)
    (st : ModelInstanceState) (requests : list Request) :
  total_batch_size (aggregate ms st requests).1 <> 0 ->
  (process_non_null ms st requests).1.1 = Returned () ->
  let es := (process_non_null ms st requests).2 in
  (batch_statistics es = [total_batch_size (aggregate ms st requests).1] /\
   Infer_called ∈ es) \/
  (batch_statistics es = [] /\
   statistics es = map (fun r => (r, false)) (seq 0 (length requests))).
Proof.
  intros Hnz Hreturns. cbv zeta.
  destruct (process_non_null_trace ms st requests Hnz Hreturns)
    as (es & err & Hes & -> & Hsuccess).
  destruct (engine_events_observed es Hes) as (Hs & Hb).
  unfold closing.
  rewrite !statistics_app, !batch_statistics_app.
  rewrite Hs, Hb. cbn [app].
  destruct (sends_observed _ (send_all_is_send err (map response_new requests)))
    as [-> ->]. cbn [app].
  destruct (report_and_release_observed
              (match err with
               | Some _ => map (fun _ => false) (map response_new requests)
               | None => map response_new requests
               end) (length requests)) as (-> & ->).
  destruct err as [e|].
  - right. rewrite statistics_none_held. cbn. by rewrite ?app_nil_r.
  - left. destruct (Hsuccess eq_refl) as (_ & _ & outs & ->).
    split; [done|]. by left.
Qed.

(** ** When the engine runs *)

Lemma sends_skip_engine (es : list Event) :
  Forall is_send es -> Infer_called ∉ es.
Proof. intros Hes Hin. rewrite Forall_forall in Hes. by apply Hes in Hin. Qed.

Lemma report_and_release_skips_engine (rs : list bool) (request_count : nat) :
  Infer_called ∉ report_and_release rs request_count.
Proof.
  unfold report_and_release. intros Hin.
  apply list_elem_of_join in Hin as (l & Hin & Hl).
  apply list_elem_of_fmap in Hl as (r & -> & _).
  apply elem_of_cons in Hin as [?|Hin]; [done|].
  apply elem_of_cons in Hin as [?|Hin]; [done|].
  by apply elem_of_nil in Hin.
Qed.

Lemma complete_failed_skips_engine (ms : ModelState) (f : Frame)
    (requests : list Request) (st : ModelInstanceState)
    (names : list string) :
  all_response_failed f = true ->
  Forall is_send (events f) ->
  Infer_called ∉ (complete ms f requests (Returned None, st, names)).2.
Proof.
  intros Hfailed Hsend. unfold complete.
  repeat first [rewrite Hfailed | progress cbn].
  rewrite ?app_nil_r, !not_elem_of_app. repeat split.
  - by apply sends_skip_engine.
  - apply sends_skip_engine, send_all_is_send.
  - apply report_and_release_skips_engine.
Qed.

Lemma complete_engine_needs_marshalling (ms : ModelState) (f : Frame)
    (requests : list Request)
    (marshalled : Outcome Status * ModelInstanceState * list string) :
  Forall is_send (events f) ->
  Infer_called ∈ (complete ms f requests marshalled).2 ->
  all_response_failed f = false /\
  exists st names, marshalled = (Returned None, st, names).
Proof.
  intros Hsend. destruct marshalled as [[[s|what] st] names].
  - intros Hin.
    change (complete ms f requests (Returned s, st, names)) with
      (complete ms (RESPOND_ALL_AND_SET_TRUE_IF_ERROR f s) requests
         (Returned None, st, names)) in Hin.
    destruct (all_response_failed (RESPOND_ALL_AND_SET_TRUE_IF_ERROR f s))
      eqn:Hfailed.
    + exfalso. revert Hin. apply complete_failed_skips_engine; [done|].
      by apply respond_is_send.
    + destruct s as [e|]; [done|]. split; [done|]. by eexists _, _.
  - intros Hin. by apply sends_skip_engine in Hin.
Qed.

Lemma unpadded_total (ms : ModelState) (requests : list Request)
    (f : Frame) (st : ModelInstanceState) :
  0 < MaxBatchSize ms ->
  EnableBatchPadding ms = false ->
  requests <> [] ->
  all_response_failed (foldl (collect_batch_size ms) (f, st) requests).1 =
    false ->
  total_batch_size (foldl (collect_batch_size ms) (f, st) requests).1 =
    to_size_t (MaxBatchSize ms).
Proof.
  intros Hmax Hpad Hne.
  destruct (exists_last Hne) as (requests' & q & ->).
  rewrite foldl_app. cbn [foldl].
  destruct (foldl (collect_batch_size ms) (f, st) requests') as [f1 st1].
  unfold collect_batch_size.
  destruct (Z.ltb_spec 0 (MaxBatchSize ms)); [|lia].
  rewrite Hpad.
  destruct (RequestInputByIndex q 0) as [e|input]; [done|].
  set (f2 := set_total _ f1).
  destruct (all_response_failed f2) eqn:Hfailed; cbn [negb fst];
    [intros; congruence|].
  destruct (Z.eqb_spec (total_batch_size f2) (to_size_t (MaxBatchSize ms)));
    cbn [negb]; done.
Qed.

(** X12: the engine runs only on a batch that passed every check.  If
    [ov_infer] was called during a call, then the aggregation raised no
    error, the total is not zero and is 1 or at most the maximum batch
    size, and [SetInputTensors] returned success for that total; on a
    batching model without padding the total is exactly the maximum
    batch size. *)
Theorem engine_runs_only_within_bounds (ms : ModelState)
    (st : ModelInstanceState) (requests : list Request) :
  Infer_called ∈ (process_non_null ms st requests).2 ->
  let f := (aggregate ms st requests).1 in
  all_response_failed f = false /\
  total_batch_size f <> 0 /\
  (total_batch_size f = 1 \/
   total_batch_size f <= to_size_t (MaxBatchSize ms)) /\
  (0 < MaxBatchSize ms -> EnableBatchPadding ms = false ->
   total_batch_size f = to_size_t (MaxBatchSize ms)) /\
  exists st' names,
    SetInputTensors ms (total_batch_size f) requests
      (aggregate ms st requests).2 = (Returned None, st', names).
Proof.
  cbv zeta. unfold process_non_null.
  pose proof (aggregate_is_send ms st requests) as Hsend.
  destruct (aggregate_settled ms st requests) as [err0 H0].
  assert (Hunpadded :
    0 < MaxBatchSize ms -> EnableBatchPadding ms = false ->
    total_batch_size (aggregate ms st requests).1 <> 0 ->
    all_response_failed (aggregate ms st requests).1 = false ->
    total_batch_size (aggregate ms st requests).1 =
      to_size_t (MaxBatchSize ms)).
  { intros Hmax Hpad Hnz Hok. apply unpadded_total; try done.
    intros ->. by apply Hnz. }
  destruct (aggregate ms st requests) as [f st1]. cbn [fst snd] in *.
  destruct (Z.eqb_spec (total_batch_size f) 0) as [Hz|Hnz].
  { intros Hin. by apply sends_skip_engine in Hin. }
  intros Hin.
  apply complete_engine_needs_marshalling in Hin
      as (Hok & st' & names & Hmarshal);
    [|by apply check_max_batch_size_is_send].
  destruct (checks_settled ms st1 _ _ _ H0) as (err1 & H1 & Hchecks).
  destruct err1 as [e1|]; [destruct H1 as (H1 & _); congruence|].
  destruct (Hchecks eq_refl) as [-> Hbound].
  destruct H0 as (Hok0 & _).
  unfold marshal in Hmarshal. rewrite Hok, checks_total in Hmarshal.
  cbn [negb] in Hmarshal.
  split; [done|]. split; [done|]. split; [done|].
  split; [by auto|]. by eexists _, _.
Qed.

Lemma to_size_t_idemp (z : Z) : to_size_t (to_size_t z) = to_size_t z.
Proof. unfold to_size_t, SIZE_MAX1. by rewrite Z.mod_mod. Qed.

Lemma collect_loop_total (ms : ModelState) (requests : list Request)
    (f : Frame) (st : ModelInstanceState) :
  0 < MaxBatchSize ms ->
  total_batch_size f = to_size_t (total_batch_size f) ->
  total_batch_size (foldl (collect_batch_size ms) (f, st) requests).1 =
  to_size_t (total_batch_size f + sum_dims (omap leading_dimension requests)).
Proof.
  intros Hmax. revert f st.
  induction requests as [|q requests IH]; intros f st Hf.
  - cbn. by rewrite Z.add_0_r.
  - cbn [foldl].
    change (omap leading_dimension (q :: requests)) with
      (match leading_dimension q with
       | Some d => d :: omap leading_dimension requests
       | None => omap leading_dimension requests
       end).
    pose proof (collect_batch_size_total ms f st q Hmax) as Hq.
    destruct (collect_batch_size ms (f, st) q) as [f1 st1]. cbn [fst] in Hq.
    rewrite IH, Hq.
    + destruct (leading_dimension q) as [d|]; [|done].
      change (sum_dims (d :: omap leading_dimension requests)) with
        (d + sum_dims (omap leading_dimension requests)).
      rewrite to_size_t_add_l. f_equal. lia.
    + rewrite Hq. destruct (leading_dimension q); [|done].
      by rewrite to_size_t_idemp.
Qed.

(** X13: on a batching model the total batch size of a call is the sum,
    modulo 2^64, of the leading dimensions of the first inputs of the
    requests that have a first input.  Every request counts, also after
    the call has already failed, and neither the padding flag nor the
    maximum batch size enters the total. *)
Theorem aggregate_total_is_wrapped_sum (ms : ModelState)
    (st : ModelInstanceState) (requests : list Request) :
  0 < MaxBatchSize ms ->
  total_batch_size (aggregate ms st requests).1 =
  to_size_t (sum_dims (omap leading_dimension requests)).
Proof.
  intros Hmax. unfold aggregate.
  by rewrite collect_loop_total.
Qed.

(** ** Marshalling *)

Lemma same_host_tensors_refl (st : ModelInstanceState) :
  same_host_tensors st st.
Proof. done. Qed.

Lemma same_host_tensors_trans (st1 st2 st3 : ModelInstanceState) :
  same_host_tensors st1 st2 -> same_host_tensors st2 st3 ->
  same_host_tensors st1 st3.
Proof.
  intros (Ho1 & Hp1 & Hi1) (Ho2 & Hp2 & Hi2).
  split; [congruence|]. split; [congruence|].
  intros p. by rewrite Hi2.
Qed.

Lemma set_input_tensor_step_frame (ms : ModelState) (total : Z)
    (requests : list Request) (input : Input) (st : ModelInstanceState)
    (names : list string) :
  same_host_tensors st
    (set_input_tensor_step ms total requests input st names).1.2 /\
  (set_input_tensor_step ms total requests input st names).2 =
    names ++ [input_name input] /\
  (forall s,
     (set_input_tensor_step ms total requests input st names).1.1 =
       Returned s ->
     name_node_map_
       (set_input_tensor_step ms total requests input st names).1.2 =
     name_node_map_ st) /\
  ((set_input_tensor_step ms total requests input st names).1.1 =
     Returned None ->
   is_Some (name_node_map_ st !! input_name input)).
Proof.
  unfold set_input_tensor_step.
  destruct (collector_ProcessTensor requests (input_name input))
    as [e|[buffer memory_type]]; [done|].
  assert (Hrest :
    let X :=
      if negb (to_size_t (GetByteSize (input_datatype input)
                            (batchn_shape ms total input)) =?
               Z.of_nat (length buffer))
      then (Returned
              (Some (TRITONSERVER_ErrorNew TRITONSERVER_ERROR_UNSUPPORTED
                       ("expected " +:+
                        to_string (GetByteSize (input_datatype input)
                                     (batchn_shape ms total input)) +:+
                        " bytes of data in input buffer, got " +:+
                        to_string (Z.of_nat (length buffer)) +:+ " bytes."))),
            st, names ++ [input_name input])
      else
        match name_node_map_ st !! input_name input with
        | None =>
            (Threw "get_tensor: port is not bound",
             set_name_node_map_
               (<[input_name input :=
                    {| get_node := 0; get_index := 0; get_names := [] |}]>
                  (name_node_map_ st)) st,
             names ++ [input_name input])
        | Some node =>
            match input_tensors (infer_request_ st) !! port node with
            | None =>
                (Threw "get_tensor: no tensor for the port", st,
                 names ++ [input_name input])
            | Some requestTensor =>
                if negb (bool_decide
                           (get_shape (input_view ms total input buffer) =
                            get_shape requestTensor))
                   || negb (get_byte_size (input_view ms total input buffer) =?
                            get_byte_size requestTensor)
                then (Threw shape_mismatch, st, names ++ [input_name input])
                else
                  (Returned None,
                   set_infer_request
                     (set_input_tensor node
                        (set_data
                           (memcpy (data requestTensor)
                              (data (input_view ms total input buffer))
                              (Z.to_nat
                                 (get_byte_size
                                    (input_view ms total input buffer))))
                           requestTensor)
                        (infer_request_ st)) st,
                   names ++ [input_name input])
            end
        end in
    same_host_tensors st X.1.2 /\ X.2 = names ++ [input_name input] /\
    (forall s, X.1.1 = Returned s ->
               name_node_map_ X.1.2 = name_node_map_ st) /\
    (X.1.1 = Returned None ->
     is_Some (name_node_map_ st !! input_name input))).
  { cbv zeta. destruct (negb (_ =? _)); [done|].
    destruct (name_node_map_ st !! input_name input) as [node|] eqn:Hnode.
    - destruct (input_tensors (infer_request_ st) !! port node)
        as [requestTensor|] eqn:Htensor; [|done].
      destruct (negb _ || negb _); [done|]. cbn [fst snd].
      split; [|by eauto]. split; [done|]. split; [done|].
      intros p.
      cbn [infer_request_ set_infer_request input_tensors set_input_tensor].
      destruct (decide (p = port node)) as [->|Hp].
      + by rewrite lookup_insert_eq, Htensor.
      + by rewrite lookup_insert_ne.
    - cbn. done. }
  cbv zeta in Hrest. by destruct memory_type.
Qed.

Lemma set_input_tensors_loop_frame (ms : ModelState) (total : Z)
    (requests : list Request) (inputs : list Input)
    (st : ModelInstanceState) (names : list string) :
  same_host_tensors st
    (set_input_tensors_loop ms total requests inputs st names).1.2 /\
  (forall s,
     (set_input_tensors_loop ms total requests inputs st names).1.1 =
       Returned s ->
     name_node_map_
       (set_input_tensors_loop ms total requests inputs st names).1.2 =
     name_node_map_ st) /\
  ((set_input_tensors_loop ms total requests inputs st names).1.1 =
     Returned None ->
   (set_input_tensors_loop ms total requests inputs st names).2 =
     names ++ map input_name inputs /\
   Forall (fun input => is_Some (name_node_map_ st !! input_name input))
     inputs).
Proof.
  revert st names. induction inputs as [|input inputs IH]; intros st names.
  - cbn. rewrite app_nil_r. done.
  - cbn [set_input_tensors_loop].
    destruct (set_input_tensor_step_frame ms total requests input st names)
      as (Hsame & Hnames & Hmap & Hbound).
    destruct (set_input_tensor_step ms total requests input st names)
      as [[[[e|]|what] st1] names1]; cbn [fst snd] in *.
    + split; [done|]. split; [|done]. intros s _. by eapply Hmap.
    + destruct (IH st1 names1) as (Hsame' & Hmap' & Hdone).
      specialize (Hmap None eq_refl).
      split; [by eapply same_host_tensors_trans|].
      split; [intros s Hs; by rewrite (Hmap' s Hs)|].
      intros Hreturned. destruct (Hdone Hreturned) as [-> Hall].
      subst names1. rewrite <- app_assoc. split; [done|].
      constructor; [by apply Hbound|]. by rewrite <- Hmap.
    + done.
Qed.

(** X14: [SetInputTensors] only writes the bytes of host input tensors
    that already exist.  Whatever its outcome, the output tensors and the
    pad size are as before, and every host input tensor keeps its element
    type and its shape: no tensor is created, dropped or resized to the
    batch of the call.  Unless an exception leaves the function the
    name-to-node map is as before too; and when the function succeeds it
    has named, in order, every input of the first request, each of them
    bound in the name-to-node map. *)
Theorem SetInputTensors_only_writes_tensor_data (ms : ModelState)
    (total : Z) (requests : list Request) (st : ModelInstanceState) :
  same_host_tensors st (SetInputTensors ms total requests st).1.2 /\
  (forall s,
     (SetInputTensors ms total requests st).1.1 = Returned s ->
     name_node_map_ (SetInputTensors ms total requests st).1.2 =
     name_node_map_ st) /\
  ((SetInputTensors ms total requests st).1.1 = Returned None ->
   exists request0 rest,
     requests = request0 :: rest /\
     (SetInputTensors ms total requests st).2 =
       map input_name (request_inputs request0) /\
     Forall (fun input => is_Some (name_node_map_ st !! input_name input))
       (request_inputs request0)).
Proof.
  unfold SetInputTensors. destruct requests as [|request0 rest]; [done|].
  destruct (set_input_tensors_loop_frame ms total (request0 :: rest)
              (request_inputs request0) st []) as (Hsame & Hmap & Hdone).
  split; [done|]. split; [done|]. intros Hreturned.
  exists request0, rest. split; [done|]. by apply Hdone.
Qed.

(** ** The successful call *)

Lemma ReadOutputTensors_present (st : ModelInstanceState)
    (output_names : list string) (tensors : list (Tensor ElementType)) :
  mapM (fun name => output_tensors (infer_request_ st) !! name) output_names =
    Some tensors ->
  ReadOutputTensors st output_names =
    (Returned None, handed_over output_names tensors).
Proof.
  revert tensors.
  induction output_names as [|name names IH]; intros tensors.
  - intros [= <-]. done.
  - cbn [mapM]. intros Hall. apply bind_Some in Hall as (t & Ht & Hall).
    apply bind_Some in Hall as (ts & Hts & [= <-]).
    cbn [ReadOutputTensors]. rewrite Ht, (IH ts Hts). done.
Qed.

(** X15: the trace of a call in which nothing goes wrong.  When the
    aggregation raises no error, the total is not zero and within the
    maximum batch size (or 1), [SetInputTensors] succeeds, the engine
    runs and holds a tensor for every requested output, then the call
    returns with the engine's new request state and has, in this order
    and with nothing in between: run the engine once, handed every
    requested output to the responder in the order of the configuration
    with the shape the engine gave it, sent every created response
    without error, reported and released every request, and reported
    the batch statistics once. *)
Theorem successful_call_trace (ms : ModelState) (st st1 st2 : ModelInstanceState)
    (requests : list Request) (f : Frame) (names : list string)
    (r : InferRequest ElementType) (tensors : list (Tensor ElementType)) :
  aggregate ms st requests = (f, st1) ->
  all_response_failed f = false ->
  total_batch_size f <> 0 ->
  (total_batch_size f = 1 \/
   total_batch_size f <= to_size_t (MaxBatchSize ms)) ->
  SetInputTensors ms (total_batch_size f) requests st1 =
    (Returned None, st2, names) ->
  ov_infer (infer_request_ st2) = inr r ->
  mapM (fun name => output_tensors r !! name) (requested_outputs ms) =
    Some tensors ->
  process_non_null ms st requests =
  (Returned (), set_infer_request r st2,
   Infer_called :: handed_over (requested_outputs ms) tensors ++
   closing (map response_new requests) (length requests)
     (total_batch_size f) None).
Proof.
  intros Haggregate Hok Hnz Hbound Hmarshal Hinfer Houtputs.
  unfold process_non_null.
  destruct (aggregate_settled ms st requests) as [err0 H0].
  rewrite Haggregate in *. cbn [fst] in H0.
  destruct err0 as [e0|]; [destruct H0 as (H0 & _); congruence|].
  destruct (Z.eqb_spec (total_batch_size f) 0) as [?|_]; [done|].
  assert (Hchecks : set_batch ms (check_max_batch_size ms st1 f) = f).
  { unfold set_batch, check_max_batch_size, SetBatch. rewrite Hok.
    cbn [negb].
    destruct (Z.eqb_spec (total_batch_size f) 1) as [H1|H1]; cbn [negb andb].
    - rewrite Hok. cbn [negb]. by repeat case_match.
    - destruct (Z.ltb_spec (to_size_t (MaxBatchSize ms)) (total_batch_size f));
        [lia|].
      rewrite Hok. cbn [negb]. by repeat case_match. }
  rewrite Hchecks. unfold marshal. rewrite Hok. cbn [negb].
  rewrite Hmarshal. unfold complete.
  cbn [RESPOND_ALL_AND_SET_TRUE_IF_ERROR]. rewrite Hok. cbn [negb].
  unfold Infer. rewrite Hinfer.
  cbn [RESPOND_ALL_AND_SET_TRUE_IF_ERROR log all_response_failed].
  rewrite Hok. cbn [negb].
  fold (requested_outputs ms).
  rewrite (ReadOutputTensors_present (set_infer_request r st2)
             (requested_outputs ms) tensors Houtputs).
  cbn [RESPOND_ALL_AND_SET_TRUE_IF_ERROR].
  f_equal.
  pose proof (closing_events (map response_new requests)
                (Infer_called :: handed_over (requested_outputs ms) tensors)
                None
                (log (handed_over (requested_outputs ms) tensors)
                   (log [Infer_called] f)) (length requests)) as Hclosing.
  cbn [app] in Hclosing. apply Hclosing.
  destruct H0 as (_ & Hresponses & Hevents). split; [done|].
  split; [done|]. cbn. by rewrite Hevents.
Qed.

(** ** The call left by an exception *)

Lemma complete_thrown (ms : ModelState) (f : Frame) (requests : list Request)
    (marshalled : Outcome Status * ModelInstanceState * list string)
    (created : list bool) (err : Status) (what : string) :
  settled created [] err f ->
  (all_response_failed f = true ->
   exists st names, marshalled = (Returned None, st, names)) ->
  (complete ms f requests marshalled).1.1 = Threw what ->
  Forall engine_event (complete ms f requests marshalled).2.
Proof.
  intros Hf Hguard. unfold complete.
  destruct marshalled as [[[s|what'] st] names].
  - pose proof (settled_respond _ _ _ s _ Hf) as H1. revert H1.
    generalize (RESPOND_ALL_AND_SET_TRUE_IF_ERROR f s). intros f1 H1.
    destruct (match err with Some _ => err | None => s end) as [e1|].
    { pose proof H1 as (Hfailed & _ & _).
      repeat first [rewrite Hfailed | progress cbn [negb fst snd]]. done. }
    pose proof H1 as (Hfailed & _ & _).
    repeat first [rewrite Hfailed | progress cbn [negb fst snd]].
    destruct (Infer st) as [s' st'].
    pose proof (settled_respond _ _ _ s' _
                  (settled_log _ _ [Infer_called] _ H1)) as H2.
    revert H2.
    generalize (RESPOND_ALL_AND_SET_TRUE_IF_ERROR (log [Infer_called] f1) s').
    cbn [app]. intros f2 H2.
    destruct s' as [e2|].
    { pose proof H2 as (Hfailed2 & _ & _).
      repeat first [rewrite Hfailed2 | progress cbn [negb fst snd]]. done. }
    pose proof H2 as (Hfailed2 & _ & Hevents2).
    repeat first [rewrite Hfailed2 | progress cbn [negb fst snd]].
    pose proof (ReadOutputTensors_engine_events st'
                  match model_outputs ms with
                  | Some ios => names_until_error ios
                  | None => []
                  end) as Houts.
    destruct (ReadOutputTensors st' _) as [[s''|what''] outs]; [done|].
    cbn [fst snd] in *. intros _. rewrite Hevents2.
    apply Forall_app. split; [by repeat constructor|done].
  - cbn [fst snd]. intros _.
    destruct err as [e|].
    + destruct Hf as (Hfailed & _).
      by destruct (Hguard Hfailed) as (? & ? & [=]).
    + destruct Hf as (_ & _ & ->). constructor.
Qed.

(** X17: a call that is left by an exception reports and releases
    nothing.  The exceptions of [SetInputTensors] and [ReadOutputTensors]
    are caught nowhere in [ProcessRequests]; when one of them leaves the
    call, no request statistics and no batch statistics were reported and
    no request was released. *)
Theorem exception_skips_statistics_and_release (ms : ModelState)
    (st : ModelInstanceState) (requests : list Request) (what : string) :
  (process_non_null ms st requests).1.1 = Threw what ->
  statistics (process_non_null ms st requests).2 = [] /\
  batch_statistics (process_non_null ms st requests).2 = [] /\
  released (process_non_null ms st requests).2 = [] /\
  reported (process_non_null ms st requests).2 = [].
Proof.
  intros Hthrown.
  assert (Hevents : Forall engine_event (process_non_null ms st requests).2).
  { revert Hthrown. unfold process_non_null.
    destruct (aggregate_settled ms st requests) as [err0 H0].
    destruct (aggregate ms st requests) as [f st1]. cbn [fst] in *.
    destruct (total_batch_size f =? 0); [done|].
    destruct (checks_settled ms st1 _ _ _ H0) as (err1 & H1 & _).
    apply (complete_thrown _ _ _ _ _ _ _ H1).
    intros Hfailed. unfold marshal. rewrite Hfailed. by eexists _, _. }
  destruct (engine_events_observed _ Hevents) as (-> & ->).
  split; [done|]. split; [done|].
  apply quiet_released. eapply Forall_impl; [exact Hevents|].
  by intros [].
Qed.

(** ** The null check *)

Lemma non_null_none (requests : list (option Request)) :
  non_null requests = None <-> None ∈ requests.
Proof.
  induction requests as [|[q|] requests IH]; cbn.
  - split; [done|]. by intros ?%elem_of_nil.
  - destruct (non_null requests).
    + split; [done|]. intros [?|Hin]%elem_of_cons; [done|].
      by apply IH in Hin.
    + split; [|done]. intros _. right. by apply IH.
  - split; [|done]. intros _. by left.
Qed.

Lemma non_null_some (requests : list Request) :
  non_null (Some <$> requests) = Some requests.
Proof.
  induction requests as [|q requests IH]; [done|]. cbn.
  by rewrite IH.
Qed.

Lemma RequestsRespondWithError_events (requests : list (option Request))
    (err : TRITONSERVER_Error) (e : Event) :
  e ∈ RequestsRespondWithError requests err ->
  (exists r, e = ResponseSend r (Some err)) \/ (exists r, e = RequestRelease r).
Proof.
  unfold RequestsRespondWithError. intros Hin.
  apply list_elem_of_join in Hin as (l & Hin & Hl).
  apply elem_of_lookup_imap in Hl as (r & [q|] & -> & _);
    [|by apply elem_of_nil in Hin].
  apply elem_of_app in Hin as [Hin|Hin].
  - destruct (response_new q); [|by apply elem_of_nil in Hin].
    apply list_elem_of_singleton in Hin. left. by exists r.
  - apply list_elem_of_singleton in Hin. right. by exists r.
Qed.

Lemma sends_and_releases_observed (es : list Event) :
  (forall e, e ∈ es ->
     (exists r s, e = ResponseSend r s) \/ (exists r, e = RequestRelease r)) ->
  statistics es = [] /\ batch_statistics es = [].
Proof.
  induction es as [|e es IH]; [done|]. intros Hes.
  destruct IH as [IH1 IH2]; [intros e' He'; apply Hes; by right|].
  destruct (Hes e) as [(r & s & ->)|(r & ->)]; [by left|..]; cbn;
    by rewrite ?IH1, ?IH2.
Qed.

(** X16: the null check comes before everything else.  A call whose
    request array holds a null pointer at any index, the last one
    included, returns with the instance as it was (the pad size is not
    assigned, whatever the other requests hold), does not run the engine
    and reports no statistics; a call without a null pointer is
    processed from the aggregation on. *)
Theorem null_request_stops_call (ms : ModelState) (st : ModelInstanceState) :
  (forall requests : list (option Request),
     None ∈ requests ->
     (ProcessRequests ms st requests).1 = (Returned (), st) /\
     (Infer_called ∉ (ProcessRequests ms st requests).2) /\
     statistics (ProcessRequests ms st requests).2 = [] /\
     batch_statistics (ProcessRequests ms st requests).2 = []) /\
  (forall requests : list Request,
     ProcessRequests ms st (Some <$> requests) =
     process_non_null ms st requests).
Proof.
  split.
  - intros requests Hnull. unfold ProcessRequests.
    apply non_null_none in Hnull. rewrite Hnull. cbn [fst snd].
    split; [done|]. split.
    + intros Hin. by apply RequestsRespondWithError_events in Hin
        as [[r [=]]|[r [=]]].
    + apply sends_and_releases_observed. intros e He.
      apply RequestsRespondWithError_events in He as [[r ->]|[r ->]];
        [left|right]; by eauto.
  - intros requests. unfold ProcessRequests. by rewrite non_null_some.
Qed.

End FurtherProperties.

(** ** The further properties, on the concrete engine *)

Section FurtherScenarios.
#[local] Existing Instance scenario_engine.
#[local] Existing Instance scenario_marshalling.
#[local] Existing Instance scenario_repository.

(** "Yes" for ENFORCE_BF16 is accepted and stored in upper case. *)
Lemma ParseParameterHelper_stored_value_witness :
  (ParseParameterHelper "ENFORCE_BF16" "" "Yes").1.1 = None /\
  (ParseParameterHelper "ENFORCE_BF16" "" "Yes").2 ∈
    ["YES"; "NO"; "NUMA"]%string.
Proof.
  assert (H1 : (ParseParameterHelper "ENFORCE_BF16" "" "Yes").1.1 = None)
    by (vm_compute; reflexivity).
  split; [exact H1|].
  pose proof (ParseParameterHelper_stored_value "ENFORCE_BF16" "" "Yes")
    as Hstored.
  specialize (Hstored H1). destruct Hstored as (_ & _ & Hbool & _).
  destruct (Hbool (or_introl eq_refl)) as [Hin _]. exact Hin.
Defined.

(** The device options of the scenario block are parsed into a fresh
    "CPU" entry. *)
Lemma ParseParameters_device_rebuilds_options_witness :
  model_parameters (scenario_unread 4 scenario_parameters) =
    Some scenario_parameters /\
  (ParseParameters_device "CPU" (scenario_unread 4 scenario_parameters)).1 =
    None /\
  core (ParseParameters_device "CPU"
          (scenario_unread 4 scenario_parameters)).2 =
    core (scenario_unread 4 scenario_parameters).
Proof.
  assert (H1 : model_parameters (scenario_unread 4 scenario_parameters) =
               Some scenario_parameters) by reflexivity.
  assert (H2 : (ParseParameters_device "CPU"
                  (scenario_unread 4 scenario_parameters)).1 = None)
    by (vm_compute; reflexivity).
  split; [exact H1|]. split; [exact H2|].
  pose proof (ParseParameters_device_rebuilds_options
                (scenario_unread 4 scenario_parameters) scenario_parameters)
    as Hoptions.
  specialize (Hoptions H1 H2).
  destruct Hoptions as (options & _ & _ & Hcore & _). exact Hcore.
Defined.


(** Reading from a repository without the model file fails and leaves
    the binder unread. *)
Lemma ReadNetwork_failure_leaves_unread_witness :
  @ReadNetwork scenario_engine scenario_empty_repository "" ""
    (scenario_unread 4 ∅) =
  (Some (TRITONSERVER_ErrorNew TRITONSERVER_ERROR_UNAVAILABLE
           "unable to find '/models/scenario/1/model.xml' for model 'scenario'"),
   "/models/scenario/1/model.xml"%string, scenario_unread 4 ∅) /\
  network_read_ (scenario_unread 4 ∅) = network_read_ (scenario_unread 4 ∅).
Proof.
  assert (H1 : @ReadNetwork scenario_engine scenario_empty_repository "" ""
                 (scenario_unread 4 ∅) =
               (Some (TRITONSERVER_ErrorNew TRITONSERVER_ERROR_UNAVAILABLE
                        "unable to find '/models/scenario/1/model.xml' for model 'scenario'"),
                "/models/scenario/1/model.xml"%string, scenario_unread 4 ∅))
    by (vm_compute; reflexivity).
  split; [exact H1|].
  pose proof (@ReadNetwork_failure_leaves_unread scenario_engine
                scenario_empty_repository "" "" (scenario_unread 4 ∅)
                (scenario_unread 4 ∅)
                (TRITONSERVER_ErrorNew TRITONSERVER_ERROR_UNAVAILABLE
                   "unable to find '/models/scenario/1/model.xml' for model 'scenario'")
                "/models/scenario/1/model.xml") as Hunread.
  specialize (Hunread H1). destruct Hunread as (Hread & _). exact Hread.
Defined.

(** Loading the read scenario model binds its input "X". *)
Lemma LoadNetwork_binds_every_input_witness :
  LoadNetwork "CPU" ∅ scenario_read =
    (Returned None, (LoadNetwork "CPU" ∅ scenario_read).2) /\
  exists compiled,
    executable_network_ (LoadNetwork "CPU" ∅ scenario_read).2 =
    <["CPU"%string := compiled]> (executable_network_ scenario_read).
Proof.
  assert (H1 : LoadNetwork "CPU" ∅ scenario_read =
               (Returned None, (LoadNetwork "CPU" ∅ scenario_read).2))
    by (vm_compute; reflexivity).
  split; [exact H1|].
  pose proof (LoadNetwork_binds_every_input "CPU" ∅ scenario_read
                (LoadNetwork "CPU" ∅ scenario_read).2) as Hbinds.
  specialize (Hbinds H1). destruct Hbinds as (compiled & Hexec & _).
  exists compiled. exact Hexec.
Defined.

(** Loading the scenario model before it is read fails in the engine
    and binds nothing. *)
Lemma LoadNetwork_failure_keeps_binding_witness :
  LoadNetwork "CPU" ∅ (scenario_unread 4 ∅) =
    (Returned (Some (openvino_error "loading network" "model is null")),
     (LoadNetwork "CPU" ∅ (scenario_unread 4 ∅)).2) /\
  Returned (Some (openvino_error "loading network" "model is null")) <>
    Returned None /\
  name_node_map (LoadNetwork "CPU" ∅ (scenario_unread 4 ∅)).2 =
    name_node_map (scenario_unread 4 ∅).
Proof.
  assert (H1 : LoadNetwork "CPU" ∅ (scenario_unread 4 ∅) =
               (Returned (Some (openvino_error "loading network"
                                  "model is null")),
                (LoadNetwork "CPU" ∅ (scenario_unread 4 ∅)).2))
    by (vm_compute; reflexivity).
  assert (H2 : Returned (Some (openvino_error "loading network"
                                 "model is null")) <>
               (Returned None : Outcome Status)) by discriminate.
  split; [exact H1|]. split; [exact H2|].
  pose proof (LoadNetwork_failure_keeps_binding "CPU" ∅ (scenario_unread 4 ∅)
                (LoadNetwork "CPU" ∅ (scenario_unread 4 ∅)).2
                (Returned (Some (openvino_error "loading network"
                                   "model is null")))) as Hkeeps.
  specialize (Hkeeps H1 H2). destruct Hkeeps as (Hmap & _). exact Hmap.
Defined.

(** Creating a request on the unloaded scenario model marks "CPU" as
    loaded. *)
Lemma CreateInferRequest_marks_device_loaded_witness :
  executable_network_ (scenario_unread 4 ∅) !! "CPU"%string = None /\
  NetworkNotLoaded (CreateInferRequest "CPU" (scenario_unread 4 ∅)).2 "CPU" =
    false.
Proof.
  assert (H1 : executable_network_ (scenario_unread 4 ∅) !! "CPU"%string =
               None) by (vm_compute; reflexivity).
  split; [exact H1|].
  pose proof (CreateInferRequest_marks_device_loaded "CPU" ∅
                (scenario_unread 4 ∅)) as Hmarks.
  specialize (Hmarks H1). destruct Hmarks as (_ & Hloaded & _).
  exact Hloaded.
Defined.

(** The first construction on the scenario model. *)
Lemma first_construction_call_order_witness :
  network_read_ (scenario_unread 4 ∅) = false /\
  executable_network_ (scenario_unread 4 ∅) !! "CPU"%string = None /\
  scenario_first = (Constructed scenario_first_instance, scenario_first.2) /\
  model_path_ scenario_first_instance =
    JoinPath [RepositoryPath (scenario_unread 4 ∅);
              to_string (Version (scenario_unread 4 ∅));
              if string_empty "" then "model.xml"%string else ""%string].
Proof.
  assert (H1 : network_read_ (scenario_unread 4 ∅) = false) by reflexivity.
  assert (H2 : executable_network_ (scenario_unread 4 ∅) !! "CPU"%string =
               None) by (vm_compute; reflexivity).
  assert (H3 : scenario_first =
               (Constructed scenario_first_instance, scenario_first.2))
    by (vm_compute; reflexivity).
  split; [exact H1|]. split; [exact H2|]. split; [exact H3|].
  pose proof (first_construction_call_order "scenario_0" ""
                (scenario_unread 4 ∅) scenario_first.2
                scenario_first_instance) as Horder.
  specialize (Horder H1 H2 H3). destruct Horder as (Hpath & _). exact Hpath.
Defined.

(** Two requests of batch 1 on a model of batch 2 without padding: no
    batch statistics, every request reported as failed. *)
Lemma batch_statistics_or_all_failed_witness :
  total_batch_size
    (aggregate (scenario_model 2 false) (scenario_instance 0)
       [scenario_input 1; scenario_input 1]).1 <> 0 /\
  (process_non_null (scenario_model 2 false) (scenario_instance 0)
     [scenario_input 1; scenario_input 1]).1.1 = Returned () /\
  let es := (process_non_null (scenario_model 2 false) (scenario_instance 0)
               [scenario_input 1; scenario_input 1]).2 in
  (batch_statistics es =
     [total_batch_size
        (aggregate (scenario_model 2 false) (scenario_instance 0)
           [scenario_input 1; scenario_input 1]).1] /\
   Infer_called ∈ es) \/
  (batch_statistics es = [] /\
   statistics es =
     map (fun r => (r, false))
       (seq 0 (length [scenario_input 1; scenario_input 1]))).
Proof.
  assert (H1 : total_batch_size
                 (aggregate (scenario_model 2 false) (scenario_instance 0)
                    [scenario_input 1; scenario_input 1]).1 <> 0)
    by (vm_compute; discriminate).
  assert (H2 : (process_non_null (scenario_model 2 false)
                  (scenario_instance 0)
                  [scenario_input 1; scenario_input 1]).1.1 =
               Returned ()) by (vm_compute; reflexivity).
  split; [exact H1|]. split; [exact H2|].
  exact (batch_statistics_or_all_failed (scenario_model 2 false)
           (scenario_instance 0) [scenario_input 1; scenario_input 1] H1 H2).
Defined.

(** A full batch in one request runs the engine, within the bounds. *)
Lemma engine_runs_only_within_bounds_witness :
  Infer_called ∈
    (process_non_null (scenario_model 2 false) (scenario_instance 0)
       [scenario_input 2]).2 /\
  all_response_failed
    (aggregate (scenario_model 2 false) (scenario_instance 0)
       [scenario_input 2]).1 = false.
Proof.
  assert (H1 : Infer_called ∈
                 (process_non_null (scenario_model 2 false)
                    (scenario_instance 0) [scenario_input 2]).2)
    by (vm_compute; constructor).
  split; [exact H1|].
  pose proof (engine_runs_only_within_bounds (scenario_model 2 false)
                (scenario_instance 0) [scenario_input 2]) as Hbounds.
  specialize (Hbounds H1). destruct Hbounds as (Hok & _). exact Hok.
Defined.

(** Two requests of batch 1 have total 2. *)
Lemma aggregate_total_is_wrapped_sum_witness :
  0 < MaxBatchSize (scenario_model 4 true) /\
  total_batch_size
    (aggregate (scenario_model 4 true) (scenario_instance 0)
       [scenario_input 1; scenario_input 1]).1 =
  to_size_t (sum_dims (omap leading_dimension
                         [scenario_input 1; scenario_input 1])).
Proof.
  assert (H1 : 0 < MaxBatchSize (scenario_model 4 true)) by (simpl; lia).
  split; [exact H1|].
  exact (aggregate_total_is_wrapped_sum (scenario_model 4 true)
           (scenario_instance 0) [scenario_input 1; scenario_input 1] H1).
Defined.

(** The trace of a full batch in one request. *)
Lemma successful_call_trace_witness :
  aggregate (scenario_model 2 false) (scenario_instance 0)
    [scenario_input 2] =
  ({| total_batch_size := 2; all_response_failed := false;
      responses := [true]; events := [] |}, scenario_instance 0) /\
  (process_non_null (scenario_model 2 false) (scenario_instance 0)
     [scenario_input 2]).2 =
  Infer_called ::
  handed_over (requested_outputs (scenario_model 2 false)) [scenario_output] ++
  closing (map response_new [scenario_input 2]) (length [scenario_input 2])
    2 None.
Proof.
  set (f := {| total_batch_size := 2; all_response_failed := false;
               responses := [true]; events := [] |}).
  set (st2 := (SetInputTensors (scenario_model 2 false) 2 [scenario_input 2]
                 (scenario_instance 0)).1.2).
  assert (H1 : aggregate (scenario_model 2 false) (scenario_instance 0)
                 [scenario_input 2] = (f, scenario_instance 0))
    by (vm_compute; reflexivity).
  assert (H2 : all_response_failed f = false) by reflexivity.
  assert (H3 : total_batch_size f <> 0) by (simpl; lia).
  assert (H4 : total_batch_size f = 1 \/
               total_batch_size f <=
                 to_size_t (MaxBatchSize (scenario_model 2 false)))
    by (right; vm_compute; discriminate).
  assert (H5 : SetInputTensors (scenario_model 2 false) (total_batch_size f)
                 [scenario_input 2] (scenario_instance 0) =
               (Returned None, st2, ["X"%string]))
    by (vm_compute; reflexivity).
  assert (H6 : ov_infer (infer_request_ st2) = inr (infer_request_ st2))
    by reflexivity.
  assert (H7 : mapM (fun name => output_tensors (infer_request_ st2) !! name)
                 (requested_outputs (scenario_model 2 false)) =
               Some [scenario_output]) by (vm_compute; reflexivity).
  split; [exact H1|].
  pose proof (successful_call_trace (scenario_model 2 false)
                (scenario_instance 0) (scenario_instance 0) st2
                [scenario_input 2] f ["X"%string] (infer_request_ st2)
                [scenario_output]) as Htrace.
  specialize (Htrace H1 H2 H3 H4 H5 H6 H7).
  exact (f_equal snd Htrace).
Defined.

(** One row against host storage of two rows: [SetInputTensors] throws
    and the call is left with nothing reported or released. *)
Lemma exception_skips_statistics_and_release_witness :
  (process_non_null (scenario_model 4 true) (scenario_instance 0)
     [scenario_input 1]).1.1 = Threw shape_mismatch /\
  released (process_non_null (scenario_model 4 true) (scenario_instance 0)
              [scenario_input 1]).2 = [].
Proof.
  assert (H1 : (process_non_null (scenario_model 4 true)
                  (scenario_instance 0) [scenario_input 1]).1.1 =
               Threw shape_mismatch) by (vm_compute; reflexivity).
  split; [exact H1|].
  pose proof (exception_skips_statistics_and_release (scenario_model 4 true)
                (scenario_instance 0) [scenario_input 1] shape_mismatch)
    as Hpending.
  specialize (Hpending H1). destruct Hpending as (_ & _ & Hreleased & _).
  exact Hreleased.
Defined.

(** The configuration of two devices is applied in key order, "CPU"
    before "GPU" (the engine's log lists the latest call first). *)
Lemma ConfigureInferenceEngine_in_key_order :
  core (ConfigureInferenceEngine scenario_two_devices).2 =
  [set_property "GPU" ∅; set_property "CPU" ∅].
Proof. vm_compute. reflexivity. Qed.

End FurtherScenarios.
